(** * Fitness manager: plan access, exercise aggregate, completion
      calculator, leaderboard ranker and reminder schedule translator.

    A shallow embedding of the service layer of the repository
    (src/services/*.py, with the request schemas of src/api/schemas and
    the tables of src/models), and the properties of its specification.

    Conventions of the embedding.
    - The relational store is a record of tables; a table is the list of
      its rows in insertion order, and a query is a [filter] over it.
    - A service method is a function from the store to a [Result] that
      carries the new store; a raised exception is [Err] and leaves the
      store as it was (nothing was committed).
    - Python numbers: [int] is [Z]. The [float]s of the completion rates
      are idealised as exact rationals [Qc], with [/] the exact division;
      the code's binary floats differ from them by their rounding, which
      can move a rate across a rounding boundary of [round(x, 1)]. What
      is stated about a rounded rate is therefore stated up to a tenth
      and does not depend on the last binary digit.
    - The engine is SQLite or PostgreSQL, as the settings say; the store
      records which, and a commit refuses what that engine refuses.
    - UUIDs are natural numbers; a fresh one is drawn from a counter kept
      in the store. Dates and timestamps are ordinals. *)

From Stdlib Require Import ZArith QArith Qcanon Qround Lia Ascii.
From stdpp Require Import base decidable option numbers list strings pretty sorting.

Local Open Scope Z_scope.

(** ** Python and SQLAlchemy primitives *)

Module Py.

(** Exceptions raised in the service layer. The first three are the
    classes of api/middleware/error_handler.py, with the [detail]
    message; [AppException] also carries its [code] and HTTP status.
    The others come from SQLAlchemy, pydantic, the database driver and
    the interpreter. *)
Inductive Exception :=
| NotFoundException (detail : string)
| BusinessRuleViolationException (detail : string)
| AppException (detail code : string) (status_code : Z)
| ValidationError (detail : string)
| MultipleResultsFound
| NoResultFound
| IntegrityError
| AttributeError
| OverflowError
| DBAPIError.

(** The error taxonomy of the boundary layer: the [code] an exception
    is answered with. *)
Inductive Kind := NotFound | BusinessRuleViolation | Validation | OtherApp | Internal.

Definition kind (e : Exception) : Kind :=
  match e with
  | NotFoundException _ => NotFound
  | BusinessRuleViolationException _ => BusinessRuleViolation
  | AppException _ _ _ => OtherApp
  | ValidationError _ => Validation
  | MultipleResultsFound | NoResultFound | IntegrityError | AttributeError
  | OverflowError | DBAPIError =>
      Internal
  end.

Inductive Result (A : Type) :=
| Ok (a : A)
| Err (e : Exception).
Arguments Ok {A} a.
Arguments Err {A} e.

Definition bind {A B} (r : Result A) (k : A → Result B) : Result B :=
  match r with
  | Ok a => k a
  | Err e => Err e
  end.

(** [result.scalar_one_or_none()] *)
Definition scalar_one_or_none {A} (rows : list A) : Result (option A) :=
  match rows with
  | [] => Ok None
  | [r] => Ok (Some r)
  | _ => Err MultipleResultsFound
  end.

(** [result.scalar_one()] *)
Definition scalar_one {A} (rows : list A) : Result A :=
  match rows with
  | [] => Err NoResultFound
  | [r] => Ok r
  | _ => Err MultipleResultsFound
  end.

(** Truth value of an [Optional[int]]: [None] and [0] are false. *)
Definition truthy (o : option Z) : bool :=
  match o with
  | Some n => negb (n =? 0)
  | None => false
  end.

(** The [int] in an [Optional[int]] that was tested for truth. *)
Definition int_of (o : option Z) : Z := default 0 o.

(** Truth value of an [Optional[str]]: [None] and [""] are false. *)
Definition truthy_str (o : option string) : bool :=
  match o with
  | Some EmptyString => false
  | Some _ => true
  | None => false
  end.

(** [a or b] on an optional string and a string. *)
Definition or_str (a : option string) (b : string) : string :=
  match a with
  | Some s => if truthy_str a then s else b
  | None => b
  end.

(** [next((e for e in l if P e), None)] *)
Definition next_or_none {A} (P : A → Prop) `{∀ x, Decision (P x)}
    (l : list A) : option A :=
  head (filter P l).

Definition Qcle_bool (x y : Qc) : bool := Qle_bool x y.
Definition Qcgt_bool (x y : Qc) : bool := negb (Qcle_bool x y).

(** [min(x, y)]: the first of the smallest. *)
Definition min (x y : Qc) : Qc := if Qcle_bool x y then x else y.

(** [sum(l)] *)
Definition sum (l : list Qc) : Qc := fold_left Qcplus l (Qc_of_Z 0).

(** [len(l)] as a number. *)
Definition len {A} (l : list A) : Qc := Qc_of_Z (Z.of_nat (length l)).

(** [a / b] on two [int]s: true division, as the exact quotient (the
    code's quotient is the binary float next to it). The callers test
    [b] for truth first, so [b] is never [0] there. *)
Definition truediv (a b : Z) : Qc := (Qc_of_Z a / Qc_of_Z b)%Qc.

(** [round(x, 1)]: to one decimal, halves to the even neighbour, on the
    exact value. On a float that the binary rounding has moved off a
    half, the code's [round] goes to the other neighbour: 23 / 80 * 100 is
    28.75 here and rounds to 28.8, and is 28.749999999999996 in the code,
    which rounds to 28.7. *)
Definition round1 (x : Qc) : Qc :=
  let n := (Qnum x * 10)%Z in
  let d := Zpos (Qden x) in
  let q := (n / d)%Z in
  let r := (n mod d)%Z in
  let q' := match (2 * r ?= d)%Z with
            | Lt => q
            | Gt => (q + 1)%Z
            | Eq => if Z.even q then q else (q + 1)%Z
            end in
  (Qc_of_Z q' / Qc_of_Z 10)%Qc.

(** [sorted(l, key=key, reverse=True)]: the stable sort by decreasing
    key, as an insertion sort. An element is put in front of the first
    one that is not strictly greater, so equal keys keep their order. *)
Section Sorted.
Context {A K : Type} (gt : K → K → bool) (key : A → K).

Fixpoint insert_desc (x : A) (l : list A) : list A :=
  match l with
  | [] => [x]
  | y :: l' => if gt (key y) (key x) then y :: insert_desc x l' else x :: l
  end.

Definition sorted_desc (l : list A) : list A :=
  foldr insert_desc [] l.
End Sorted.

(** [a JOIN b ON on]: the pairs of rows that match. *)
Definition join {A B} (on : A * B → Prop) `{∀ ab, Decision (on ab)}
    (l : list A) (k : list B) : list (A * B) :=
  filter on (a ← l; b ← k; [(a, b)]).

(** [len(s)] of a [str]: its characters. The string is kept as its
    UTF-8 bytes, and a character is every byte that does not continue an
    earlier one (a continuation byte is [10xxxxxx]). *)
Fixpoint len_str (s : string) : nat :=
  match s with
  | EmptyString => 0%nat
  | String c s' =>
      let b := Z.of_nat (Ascii.nat_of_ascii c) in
      if (128 <=? b) && (b <? 192) then len_str s' else S (len_str s')
  end.

(** [str(n)] and [sep.join(l)] *)
Definition str (n : Z) : string := pretty n.
Definition str_join (sep : string) (l : list string) : string := String.concat sep l.

(** [enumerate(l, start=start)] *)
Definition enumerate {A} (start : nat) (l : list A) : list (nat * A) :=
  imap (λ i x, (start + i, x)%nat) l.

End Py.

Global Instance Result_bind : MBind Py.Result := λ A B k r, Py.bind r k.
Global Instance Result_ret : MRet Py.Result := λ A a, Py.Ok a.

(** ** The database engine (src/core/database.py)

    [settings.database_url] selects SQLite (the "lightweight mode") or
    PostgreSQL (the "full mode"). The two differ in what a commit
    refuses. *)

Inductive Dialect := SQLite | PostgreSQL.

Module Engine.

(** [Column(Integer)]: a 64-bit integer under SQLite, [int4] under
    PostgreSQL. *)
Definition integer_fits (dialect : Dialect) (n : Z) : bool :=
  match dialect with
  | SQLite => (- 2 ^ 63 <=? n) && (n <? 2 ^ 63)
  | PostgreSQL => (- 2 ^ 31 <=? n) && (n <? 2 ^ 31)
  end.

Definition optional_integer_fits (dialect : Dialect) (o : option Z) : bool :=
  match o with
  | Some n => integer_fits dialect n
  | None => true
  end.

(** Binding an integer that does not fit raises the driver's
    [OverflowError] under SQLite and a [DBAPIError] (the driver's
    [DataError]) under PostgreSQL. *)
Definition integer_error (dialect : Dialect) : Py.Exception :=
  match dialect with
  | SQLite => Py.OverflowError
  | PostgreSQL => Py.DBAPIError
  end.

(** [String(n)]: PostgreSQL refuses a value of more than [n] characters;
    SQLite does not look at the length. *)
Definition varchar_fits (dialect : Dialect) (n : nat) (s : string) : bool :=
  match dialect with
  | SQLite => true
  | PostgreSQL => bool_decide (Py.len_str s ≤ n)%nat
  end.

(** PostgreSQL enforces the foreign keys; the SQLite engine is created
    without [PRAGMA foreign_keys] and does not. Two foreign keys can be
    violated by a request: [exercise_execution.exercise_id], which comes
    from the payload, and the same column when an exercise is deleted.
    The others hold by construction: a plan, an execution or an exercise
    is referred to right after the query that found it or the [add] that
    made it, plans are never deleted from their table, and the caller is
    the user of a token issued for a stored user, no service deleting
    users. *)
Definition foreign_keys (dialect : Dialect) : bool :=
  match dialect with
  | SQLite => false
  | PostgreSQL => true
  end.

End Engine.

(** ** The tables (src/models) *)

Abbreviation UUID := nat (only parsing).
Abbreviation Date := nat (only parsing).
Abbreviation Timestamp := nat (only parsing).

Inductive PlanStatus := ACTIVE | PAUSED.
Inductive ExerciseIntensity := LOW | MEDIUM | HIGH.
Inductive ReminderFrequency := DAILY | WEEKLY | CUSTOM.

Global Instance PlanStatus_eq_dec : EqDecision PlanStatus.
Proof. solve_decision. Defined.
Global Instance ExerciseIntensity_eq_dec : EqDecision ExerciseIntensity.
Proof. solve_decision. Defined.
Global Instance ReminderFrequency_eq_dec : EqDecision ReminderFrequency.
Proof. solve_decision. Defined.

(** [datetime.time] *)
Record time := { hour : Z; minute : Z; second : Z }.

Module User.
Record t := {
  id : UUID;
  email : string;
  password_hash : string;
  full_name : option string;
}.
End User.

Module FitnessPlan.
Record t := {
  id : UUID;
  user_id : UUID;
  name : string;
  description : option string;
  status : PlanStatus;
  deleted_at : option Timestamp;
}.
End FitnessPlan.

Module Exercise.
Record t := {
  id : UUID;
  plan_id : UUID;
  name : string;
  duration_minutes : option Z;
  repetitions : option Z;
  intensity : ExerciseIntensity;
  order_index : Z;
}.
End Exercise.

Module Reminder.
Record t := {
  id : UUID;
  plan_id : UUID;
  reminder_time : time;
  frequency : ReminderFrequency;
  days_of_week : option (list Z);
  is_enabled : bool;
}.
End Reminder.

Module PlanMember.
Record t := {
  id : UUID;
  plan_id : UUID;
  user_id : UUID;
  invited_by : option UUID;
}.
End PlanMember.

Module PlanExecution.
Record t := {
  id : UUID;
  plan_id : UUID;
  user_id : UUID;
  execution_date : Date;
  notes : option string;
  created_at : Timestamp;
}.
End PlanExecution.

Module ExerciseExecution.
Record t := {
  id : UUID;
  plan_execution_id : UUID;
  exercise_id : UUID;
  completed : bool;
  actual_duration_minutes : option Z;
  actual_repetitions : option Z;
  notes : option string;
}.
End ExerciseExecution.

(** The session: the engine it is bound to, the tables, and the source
    of fresh UUIDs. *)
Record DB := {
  dialect : Dialect;
  users : list User.t;
  fitness_plans : list FitnessPlan.t;
  exercises : list Exercise.t;
  reminders : list Reminder.t;
  plan_members : list PlanMember.t;
  plan_executions : list PlanExecution.t;
  exercise_executions : list ExerciseExecution.t;
  next_uuid : UUID;
}.

Definition empty_db (dialect : Dialect) : DB :=
  {| dialect := dialect; users := []; fitness_plans := []; exercises := []; reminders := [];
     plan_members := []; plan_executions := []; exercise_executions := [];
     next_uuid := 0%nat |}.

Definition set_fitness_plans (db : DB) (l : list FitnessPlan.t) : DB :=
  {| dialect := dialect db; users := users db; fitness_plans := l; exercises := exercises db;
     reminders := reminders db; plan_members := plan_members db;
     plan_executions := plan_executions db;
     exercise_executions := exercise_executions db; next_uuid := next_uuid db |}.

Definition set_exercises (db : DB) (l : list Exercise.t) : DB :=
  {| dialect := dialect db; users := users db; fitness_plans := fitness_plans db; exercises := l;
     reminders := reminders db; plan_members := plan_members db;
     plan_executions := plan_executions db;
     exercise_executions := exercise_executions db; next_uuid := next_uuid db |}.

Definition set_reminders (db : DB) (l : list Reminder.t) : DB :=
  {| dialect := dialect db; users := users db; fitness_plans := fitness_plans db;
     exercises := exercises db; reminders := l; plan_members := plan_members db;
     plan_executions := plan_executions db;
     exercise_executions := exercise_executions db; next_uuid := next_uuid db |}.

Definition set_plan_members (db : DB) (l : list PlanMember.t) : DB :=
  {| dialect := dialect db; users := users db; fitness_plans := fitness_plans db;
     exercises := exercises db; reminders := reminders db; plan_members := l;
     plan_executions := plan_executions db;
     exercise_executions := exercise_executions db; next_uuid := next_uuid db |}.

Definition set_plan_executions (db : DB) (l : list PlanExecution.t) : DB :=
  {| dialect := dialect db; users := users db; fitness_plans := fitness_plans db;
     exercises := exercises db; reminders := reminders db;
     plan_members := plan_members db; plan_executions := l;
     exercise_executions := exercise_executions db; next_uuid := next_uuid db |}.

Definition set_exercise_executions (db : DB) (l : list ExerciseExecution.t) : DB :=
  {| dialect := dialect db; users := users db; fitness_plans := fitness_plans db;
     exercises := exercises db; reminders := reminders db;
     plan_members := plan_members db; plan_executions := plan_executions db;
     exercise_executions := l; next_uuid := next_uuid db |}.

(** [uuid.uuid4()], the default of every [id] column. *)
Definition uuid4 (db : DB) : UUID * DB :=
  (next_uuid db,
   {| dialect := dialect db; users := users db; fitness_plans := fitness_plans db;
      exercises := exercises db; reminders := reminders db;
      plan_members := plan_members db; plan_executions := plan_executions db;
      exercise_executions := exercise_executions db;
      next_uuid := S (next_uuid db) |}).

(** The relationships of the models, loaded from the tables. *)
Definition plan_exercises (db : DB) (plan_id : UUID) : list Exercise.t :=
  filter (λ e, Exercise.plan_id e = plan_id) (exercises db).

Definition plan_reminders (db : DB) (plan_id : UUID) : list Reminder.t :=
  filter (λ r, Reminder.plan_id r = plan_id) (reminders db).

Definition execution_exercise_executions (db : DB) (execution_id : UUID)
    : list ExerciseExecution.t :=
  filter (λ x, ExerciseExecution.plan_execution_id x = execution_id)
         (exercise_executions db).

Definition plan_of (db : DB) (plan_id : UUID) : option FitnessPlan.t :=
  head (filter (λ p, FitnessPlan.id p = plan_id) (fitness_plans db)).

Definition user_of (db : DB) (user_id : UUID) : option User.t :=
  head (filter (λ u, User.id u = user_id) (users db)).

(** [select(PlanMember.plan_id).where(PlanMember.user_id == user_id)] *)
Definition member_plan_ids (db : DB) (user_id : UUID) : list UUID :=
  PlanMember.plan_id <$> filter (λ m, PlanMember.user_id m = user_id) (plan_members db).

(** ** Request schemas (src/api/schemas) *)

Module Schemas.

Record ExerciseCreate := {
  ec_name : string;
  ec_duration_minutes : option Z;
  ec_repetitions : option Z;
  ec_intensity : ExerciseIntensity;
  ec_order_index : Z;
}.

(** [exclude_unset]: an outer [None] is a field the request left out. *)
Record ExerciseUpdate := {
  eu_name : option (option string);
  eu_duration_minutes : option (option Z);
  eu_repetitions : option (option Z);
  eu_intensity : option (option ExerciseIntensity);
  eu_order_index : option (option Z);
}.

Record FitnessPlanCreate := {
  fc_name : string;
  fc_description : option string;
  fc_exercises : list ExerciseCreate;
}.

Record FitnessPlanUpdate := {
  fu_name : option (option string);
  fu_description : option (option string);
}.

Record ReminderCreate := {
  rc_reminder_time : time;
  rc_frequency : ReminderFrequency;
  rc_days_of_week : option (list Z);
  rc_is_enabled : bool;
}.

Record ReminderUpdate := {
  ru_reminder_time : option (option time);
  ru_frequency : option (option ReminderFrequency);
  ru_days_of_week : option (option (list Z));
  ru_is_enabled : option (option bool);
}.

Record ExerciseExecutionCreate := {
  xc_exercise_id : UUID;
  xc_completed : bool;
  xc_actual_duration_minutes : option Z;
  xc_actual_repetitions : option Z;
  xc_notes : option string;
}.

Record PlanExecutionCreate := {
  pc_plan_id : UUID;
  pc_execution_date : Date;
  pc_notes : option string;
  pc_exercise_executions : list ExerciseExecutionCreate;
}.

Record PlanExecutionUpdate := {
  pu_execution_date : option Date;
  pu_notes : option string;
  pu_exercise_executions : option (list ExerciseExecutionCreate);
}.

Record PlanExecutionSummary := {
  ps_id : UUID;
  ps_plan_id : UUID;
  ps_plan_name : string;
  ps_execution_date : Date;
  ps_total_exercises : Z;
  ps_completed_exercises : Z;
  ps_completion_rate : Qc;
  ps_created_at : Timestamp;
}.

Record LeaderboardEntry := {
  user_id : UUID;
  user_name : string;
  user_email : string;
  total_executions : Z;
  avg_completion_rate : Qc;
  last_execution_date : option Date;
  completion_rate_rank : nat;
  execution_count_rank : nat;
}.

(** The constraints pydantic checks when a payload is built. *)
Definition opt_all (P : Z → bool) (o : option Z) : bool :=
  match o with Some n => P n | None => true end.

Definition len_between (lo hi : nat) (s : string) : bool :=
  bool_decide (lo ≤ Py.len_str s ≤ hi)%nat.

(** [ExerciseCreate]: [gt=0], [ge=0], and [check_duration_or_reps]. *)
Definition ExerciseCreate_valid (e : ExerciseCreate) : bool :=
  len_between 1 100 (ec_name e)
  && opt_all (λ n, 0 <? n) (ec_duration_minutes e)
  && opt_all (λ n, 0 <? n) (ec_repetitions e)
  && (0 <=? ec_order_index e)
  && negb (bool_decide (ec_duration_minutes e = None)
           && bool_decide (ec_repetitions e = None)).

(** [FitnessPlanCreate]: [min_length=1] and [validate_exercises_not_empty]. *)
Definition FitnessPlanCreate_valid (p : FitnessPlanCreate) : bool :=
  len_between 1 50 (fc_name p)
  && negb (bool_decide (fc_exercises p = []))
  && forallb ExerciseCreate_valid (fc_exercises p).

(** [ExerciseExecutionBase]: [ge=1] on the recorded metrics. *)
Definition ExerciseExecutionCreate_valid (x : ExerciseExecutionCreate) : bool :=
  opt_all (λ n, 1 <=? n) (xc_actual_duration_minutes x)
  && opt_all (λ n, 1 <=? n) (xc_actual_repetitions x)
  && match xc_notes x with
     | Some s => len_between 0 500 s
     | None => true
     end.

(** [PlanExecutionCreate]: [min_items=1]. *)
Definition PlanExecutionCreate_valid (p : PlanExecutionCreate) : bool :=
  negb (bool_decide (pc_exercise_executions p = []))
  && forallb ExerciseExecutionCreate_valid (pc_exercise_executions p).

End Schemas.

Import Schemas.

(** ** src/services/plan_execution_service.py *)

Module PlanExecutionService.

(** The access query of [create_plan_execution]: the plan, if the user
    owns it or is a member of it. Deleted plans are not filtered out. *)
Definition accessible_plans (db : DB) (user_id plan_id : UUID) : list FitnessPlan.t :=
  filter (λ p, FitnessPlan.id p = plan_id
               ∧ (FitnessPlan.user_id p = user_id
                  ∨ FitnessPlan.id p ∈ member_plan_ids db user_id))
         (fitness_plans db).

(** One [ExerciseExecution(...)] row per payload item, [db.add]ed. *)
Definition add_exercise_execution (plan_execution_id : UUID) (db : DB)
    (x : ExerciseExecutionCreate) : DB :=
  let '(id, db) := uuid4 db in
  set_exercise_executions db
    (exercise_executions db ++
     [ {| ExerciseExecution.id := id;
          ExerciseExecution.plan_execution_id := plan_execution_id;
          ExerciseExecution.exercise_id := xc_exercise_id x;
          ExerciseExecution.completed := xc_completed x;
          ExerciseExecution.actual_duration_minutes := xc_actual_duration_minutes x;
          ExerciseExecution.actual_repetitions := xc_actual_repetitions x;
          ExerciseExecution.notes := xc_notes x |} ]).

(** What [db.commit()] raises for the [ExerciseExecution] rows that
    were added, if anything: an integer that does not fit its [Integer]
    column, which the driver refuses when it binds the values, or, where
    foreign keys are enforced, an [exercise_id] that is not the id of a
    stored exercise. *)
Definition commit_error (db : DB) (items : list ExerciseExecutionCreate)
    : option Py.Exception :=
  if negb (forallb
             (λ x, Engine.optional_integer_fits (dialect db)
                     (xc_actual_duration_minutes x)
                   && Engine.optional_integer_fits (dialect db)
                        (xc_actual_repetitions x)) items) then
    Some (Engine.integer_error (dialect db))
  else if Engine.foreign_keys (dialect db)
          && negb (forallb
                     (λ x, bool_decide (xc_exercise_id x ∈ Exercise.id <$> exercises db))
                     items) then
    Some Py.IntegrityError
  else None.

Definition create_plan_execution (now : Timestamp) (db : DB) (user_id : UUID)
    (execution_data : PlanExecutionCreate) : Py.Result (PlanExecution.t * DB) :=
  plan ← Py.scalar_one_or_none (accessible_plans db user_id (pc_plan_id execution_data));
  match plan with
  | None => Py.Err (Py.NotFoundException "Fitness plan not found")
  | Some _ =>
      let '(id, db) := uuid4 db in
      let plan_execution :=
        {| PlanExecution.id := id;
           PlanExecution.user_id := user_id;
           PlanExecution.plan_id := pc_plan_id execution_data;
           PlanExecution.execution_date := pc_execution_date execution_data;
           PlanExecution.notes := pc_notes execution_data;
           PlanExecution.created_at := now |} in
      let db := set_plan_executions db (plan_executions db ++ [plan_execution]) in
      let db := fold_left (add_exercise_execution id) (pc_exercise_executions execution_data) db in
      match commit_error db (pc_exercise_executions execution_data) with
      | Some e => Py.Err e
      | None => Py.Ok (plan_execution, db)
      end
  end.

(** The body of the loop over [execution.exercise_executions] in
    [get_plan_executions]: the state is [exercise_completion_rates] and
    [completed_count]. *)
Definition rate_step (exercises : list Exercise.t) (st : list Qc * Z)
    (ex_exec : ExerciseExecution.t) : list Qc * Z :=
  let '(exercise_completion_rates, completed_count) := st in
  if negb (ExerciseExecution.completed ex_exec) then
    (exercise_completion_rates ++ [Qc_of_Z 0], completed_count)
  else
    let completed_count := completed_count + 1 in
    match Py.next_or_none
            (λ e, Exercise.id e = ExerciseExecution.exercise_id ex_exec) exercises with
    | Some exercise =>
        if Py.truthy (Exercise.duration_minutes exercise)
           && Py.truthy (ExerciseExecution.actual_duration_minutes ex_exec) then
          let rate :=
            Py.min (Py.truediv (Py.int_of (ExerciseExecution.actual_duration_minutes ex_exec))
                               (Py.int_of (Exercise.duration_minutes exercise))
                    * Qc_of_Z 100)%Qc
                   (Qc_of_Z 100) in
          (exercise_completion_rates ++ [rate], completed_count)
        else if Py.truthy (Exercise.repetitions exercise)
                && Py.truthy (ExerciseExecution.actual_repetitions ex_exec) then
          let rate :=
            Py.min (Py.truediv (Py.int_of (ExerciseExecution.actual_repetitions ex_exec))
                               (Py.int_of (Exercise.repetitions exercise))
                    * Qc_of_Z 100)%Qc
                   (Qc_of_Z 100) in
          (exercise_completion_rates ++ [rate], completed_count)
        else
          (exercise_completion_rates ++ [Qc_of_Z 100], completed_count)
    | None =>
        (exercise_completion_rates ++ [Qc_of_Z 100], completed_count)
    end.

(** [exercise_completion_rates] and [completed_count] after the loop. *)
Definition exercise_completion_rates (exercises : list Exercise.t)
    (exercise_executions : list ExerciseExecution.t) : list Qc * Z :=
  fold_left (rate_step exercises) exercise_executions ([], 0).

(** The [completion_rate] of one execution, before it is rounded. *)
Definition completion_rate (exercises : list Exercise.t)
    (exercise_executions : list ExerciseExecution.t) : Qc :=
  let rates := (exercise_completion_rates exercises exercise_executions).1 in
  match rates with
  | [] => Qc_of_Z 0
  | _ => (Py.sum rates / Py.len rates)%Qc
  end.

(** One turn of the loop over [plan_executions]: the summary of one
    execution. [execution.plan] is read for its name and exercises. *)
Definition summary (db : DB) (execution : PlanExecution.t)
    : Py.Result PlanExecutionSummary :=
  let exercise_executions := execution_exercise_executions db (PlanExecution.id execution) in
  match plan_of db (PlanExecution.plan_id execution) with
  | None => Py.Err Py.AttributeError
  | Some plan =>
      let exercises := plan_exercises db (FitnessPlan.id plan) in
      let total_exercises := Z.of_nat (length exercise_executions) in
      let completed_count := (exercise_completion_rates exercises exercise_executions).2 in
      Py.Ok {| ps_id := PlanExecution.id execution;
               ps_plan_id := PlanExecution.plan_id execution;
               ps_plan_name := FitnessPlan.name plan;
               ps_execution_date := PlanExecution.execution_date execution;
               ps_total_exercises := total_exercises;
               ps_completed_exercises := completed_count;
               ps_completion_rate := Py.round1 (completion_rate exercises exercise_executions);
               ps_created_at := PlanExecution.created_at execution |}
  end.

(** [desc(execution_date), desc(created_at)] *)
Definition date_created_gt (a b : Date * Timestamp) : bool :=
  bool_decide (b.1 < a.1 ∨ (a.1 = b.1 ∧ b.2 < a.2))%nat.

(** [page] is at least 1 (the route declares it [ge=1]), so the offset
    [(page - 1) * page_size] is a natural number. *)
Definition get_plan_executions (db : DB) (user_id : UUID) (plan_id : option UUID)
    (start_date end_date : option Date) (page page_size : nat)
    : Py.Result (list PlanExecutionSummary * Z) :=
  let query := filter (λ x, PlanExecution.user_id x = user_id) (plan_executions db) in
  let query :=
    match plan_id with
    | Some plan_id => filter (λ x, PlanExecution.plan_id x = plan_id) query
    | None => query
    end in
  let query :=
    match start_date with
    | Some start_date => filter (λ x, start_date ≤ PlanExecution.execution_date x)%nat query
    | None => query
    end in
  let query :=
    match end_date with
    | Some end_date => filter (λ x, PlanExecution.execution_date x ≤ end_date)%nat query
    | None => query
    end in
  let query :=
    Py.sorted_desc date_created_gt
      (λ x, (PlanExecution.execution_date x, PlanExecution.created_at x)) query in
  let total_count := Z.of_nat (length query) in
  let plan_executions := take page_size (drop ((page - 1) * page_size) query) in
  summaries ← mapM (summary db) plan_executions;
  Py.Ok (summaries, total_count).

Definition get_plan_execution_by_id (db : DB) (user_id execution_id : UUID)
    : Py.Result PlanExecution.t :=
  plan_execution ←
    Py.scalar_one_or_none
      (filter (λ x, PlanExecution.id x = execution_id ∧ PlanExecution.user_id x = user_id)
              (plan_executions db));
  match plan_execution with
  | None => Py.Err (Py.NotFoundException "Plan execution not found")
  | Some plan_execution => Py.Ok plan_execution
  end.

Definition update_plan_execution (db : DB) (user_id execution_id : UUID)
    (execution_data : PlanExecutionUpdate) : Py.Result (PlanExecution.t * DB) :=
  plan_execution ← get_plan_execution_by_id db user_id execution_id;
  let plan_execution :=
    {| PlanExecution.id := PlanExecution.id plan_execution;
       PlanExecution.user_id := PlanExecution.user_id plan_execution;
       PlanExecution.plan_id := PlanExecution.plan_id plan_execution;
       PlanExecution.execution_date :=
         default (PlanExecution.execution_date plan_execution)
                 (pu_execution_date execution_data);
       PlanExecution.notes :=
         match pu_notes execution_data with
         | Some n => Some n
         | None => PlanExecution.notes plan_execution
         end;
       PlanExecution.created_at := PlanExecution.created_at plan_execution |} in
  let db :=
    set_plan_executions db
      ((λ x, if decide (PlanExecution.id x = execution_id) then plan_execution else x)
         <$> plan_executions db) in
  let db :=
    match pu_exercise_executions execution_data with
    | Some new =>
        let db :=
          set_exercise_executions db
            (filter (λ x, ExerciseExecution.plan_execution_id x ≠ execution_id)
                    (exercise_executions db)) in
        fold_left (add_exercise_execution execution_id) new db
    | None => db
    end in
  match commit_error db (default [] (pu_exercise_executions execution_data)) with
  | Some e => Py.Err e
  | None => Py.Ok (plan_execution, db)
  end.

Definition delete_plan_execution (db : DB) (user_id execution_id : UUID)
    : Py.Result DB :=
  plan_execution ← get_plan_execution_by_id db user_id execution_id;
  let db :=
    set_exercise_executions db
      (filter (λ x, ExerciseExecution.plan_execution_id x ≠ execution_id)
              (exercise_executions db)) in
  Py.Ok (set_plan_executions db
           (filter (λ x, PlanExecution.id x ≠ execution_id) (plan_executions db))).

End PlanExecutionService.

(** ** src/services/plan_member_service.py *)

Module PlanMemberService.

Definition invite_member (db : DB) (plan_id inviter_user_id : UUID)
    (invitee_email : string) : Py.Result (PlanMember.t * DB) :=
  plan ← Py.scalar_one_or_none
           (filter (λ p, FitnessPlan.id p = plan_id) (fitness_plans db));
  match plan with
  | None => Py.Err (Py.NotFoundException "Plan not found")
  | Some _ =>
      invitee ← Py.scalar_one_or_none
                  (filter (λ u, User.email u = invitee_email) (users db));
      match invitee with
      | None =>
          Py.Err (Py.NotFoundException
                    ("User with email " +:+ invitee_email +:+ " not found"))
      | Some invitee =>
          existing ← Py.scalar_one_or_none
                       (filter (λ m, PlanMember.plan_id m = plan_id
                                     ∧ PlanMember.user_id m = User.id invitee)
                               (plan_members db));
          match existing with
          | Some _ =>
              Py.Err (Py.AppException "User is already a member of this plan"
                                      "ALREADY_MEMBER" 400)
          | None =>
              let '(id, db) := uuid4 db in
              let member :=
                {| PlanMember.id := id;
                   PlanMember.plan_id := plan_id;
                   PlanMember.user_id := User.id invitee;
                   PlanMember.invited_by := Some inviter_user_id |} in
              let db := set_plan_members db (plan_members db ++ [member]) in
              member ← Py.scalar_one
                         (filter (λ m, PlanMember.id m = PlanMember.id member)
                                 (plan_members db));
              Py.Ok (member, db)
          end
      end
  end.

Definition get_plan_members (db : DB) (plan_id : UUID) : list PlanMember.t :=
  filter (λ m, PlanMember.plan_id m = plan_id) (plan_members db).

(** A value of the [participants] dictionary. *)
Record user_info := {
  ui_user_id : UUID;
  ui_user_name : string;
  ui_user_email : string;
}.

(** [d[k] = v] on a dictionary kept as the list of its items in
    insertion order: a key that is there keeps its place. *)
Fixpoint dict_set (d : list (UUID * user_info)) (k : UUID) (v : user_info)
    : list (UUID * user_info) :=
  match d with
  | [] => [(k, v)]
  | (k', v') :: d' =>
      if decide (k' = k) then (k, v) :: d' else (k', v') :: dict_set d' k v
  end.

Definition info_of (user_id : UUID) (user : User.t) : user_info :=
  {| ui_user_id := user_id;
     ui_user_name := Py.or_str (User.full_name user) (User.email user);
     ui_user_email := User.email user |}.

(** The loop that adds the invited members to [participants];
    [member.user] is read through the foreign key. *)
Definition add_member (db : DB) (participants : Py.Result (list (UUID * user_info)))
    (member : PlanMember.t) : Py.Result (list (UUID * user_info)) :=
  participants ← participants;
  match user_of db (PlanMember.user_id member) with
  | None => Py.Err Py.AttributeError
  | Some user =>
      Py.Ok (dict_set participants (PlanMember.user_id member)
                      (info_of (PlanMember.user_id member) user))
  end.

Definition participants_of (db : DB) (plan : FitnessPlan.t)
    (members : list PlanMember.t) : Py.Result (list (UUID * user_info)) :=
  match user_of db (FitnessPlan.user_id plan) with
  | None => Py.Err Py.AttributeError
  | Some owner =>
      fold_left (add_member db) members
        (Py.Ok (dict_set [] (FitnessPlan.user_id plan)
                         (info_of (FitnessPlan.user_id plan) owner)))
  end.

(** The executions of one participant, [desc(execution_date)]. *)
Definition executions_of (db : DB) (plan_id user_id : UUID) : list PlanExecution.t :=
  Py.sorted_desc (λ a b : nat, bool_decide (b < a)%nat) PlanExecution.execution_date
    (filter (λ x, PlanExecution.plan_id x = plan_id ∧ PlanExecution.user_id x = user_id)
            (plan_executions db)).

(** The body of the loop over [execution.exercise_executions]. *)
Definition exercise_rate_step (exercises : list Exercise.t) (exercise_rates : list Qc)
    (ex_exec : ExerciseExecution.t) : list Qc :=
  if negb (ExerciseExecution.completed ex_exec) then
    exercise_rates ++ [Qc_of_Z 0]
  else
    match Py.next_or_none
            (λ e, Exercise.id e = ExerciseExecution.exercise_id ex_exec) exercises with
    | Some exercise =>
        if Py.truthy (Exercise.duration_minutes exercise)
           && Py.truthy (ExerciseExecution.actual_duration_minutes ex_exec) then
          let rate :=
            Py.min (Py.truediv (Py.int_of (ExerciseExecution.actual_duration_minutes ex_exec))
                               (Py.int_of (Exercise.duration_minutes exercise))
                    * Qc_of_Z 100)%Qc
                   (Qc_of_Z 100) in
          exercise_rates ++ [rate]
        else if Py.truthy (Exercise.repetitions exercise)
                && Py.truthy (ExerciseExecution.actual_repetitions ex_exec) then
          let rate :=
            Py.min (Py.truediv (Py.int_of (ExerciseExecution.actual_repetitions ex_exec))
                               (Py.int_of (Exercise.repetitions exercise))
                    * Qc_of_Z 100)%Qc
                   (Qc_of_Z 100) in
          exercise_rates ++ [rate]
        else
          exercise_rates ++ [Qc_of_Z 100]
    | None => exercise_rates ++ [Qc_of_Z 100]
    end.

(** The body of the loop over [executions]: an execution whose
    [exercise_rates] is empty appends nothing. *)
Definition execution_step (db : DB) (exercises : list Exercise.t)
    (completion_rates : list Qc) (execution : PlanExecution.t) : list Qc :=
  let exercise_rates :=
    fold_left (exercise_rate_step exercises)
              (execution_exercise_executions db (PlanExecution.id execution)) [] in
  match exercise_rates with
  | [] => completion_rates
  | _ => completion_rates ++ [(Py.sum exercise_rates / Py.len exercise_rates)%Qc]
  end.

Definition avg_rate (db : DB) (exercises : list Exercise.t)
    (executions : list PlanExecution.t) : Qc :=
  let completion_rates := fold_left (execution_step db exercises) executions [] in
  match completion_rates with
  | [] => Qc_of_Z 0
  | _ => (Py.sum completion_rates / Py.len completion_rates)%Qc
  end.

(** The [LeaderboardEntry] built for one participant, ranks at [0]. *)
Definition entry_of (db : DB) (plan_id : UUID) (exercises : list Exercise.t)
    (user_info : user_info) (user_id : UUID) : LeaderboardEntry :=
  let executions := executions_of db plan_id user_id in
  let total_executions := Z.of_nat (length executions) in
  if total_executions =? 0 then
    {| user_id := ui_user_id user_info;
       user_name := ui_user_name user_info;
       user_email := ui_user_email user_info;
       total_executions := 0;
       avg_completion_rate := Qc_of_Z 0;
       last_execution_date := None;
       completion_rate_rank := 0;
       execution_count_rank := 0 |}
  else
    {| user_id := ui_user_id user_info;
       user_name := ui_user_name user_info;
       user_email := ui_user_email user_info;
       total_executions := total_executions;
       avg_completion_rate := Py.round1 (avg_rate db exercises executions);
       last_execution_date := PlanExecution.execution_date <$> head executions;
       completion_rate_rank := 0;
       execution_count_rank := 0 |}.

(** The entries are objects: [leaderboard] and the two sorted lists
    hold references to the same ones. The heap is the list of the
    entries in allocation order and a reference is an index in it. *)
Abbreviation Heap := (list LeaderboardEntry) (only parsing).

Global Instance LeaderboardEntry_inhabited : Inhabited LeaderboardEntry :=
  populate {| user_id := 0%nat; user_name := ""; user_email := "";
              total_executions := 0; avg_completion_rate := Qc_of_Z 0;
              last_execution_date := None;
              completion_rate_rank := 0; execution_count_rank := 0 |}.

(** [leaderboard.append(LeaderboardEntry(...))] *)
Definition append_entry (db : DB) (plan_id : UUID) (exercises : list Exercise.t)
    (st : Heap * list nat) (item : UUID * user_info) : Heap * list nat :=
  let '(heap, leaderboard) := st in
  (heap ++ [entry_of db plan_id exercises item.2 item.1],
   leaderboard ++ [length heap]).

(** [entry.completion_rate_rank = i] *)
Definition set_completion_rate_rank (heap : Heap) (ia : nat * nat) : Heap :=
  let '(i, a) := ia in
  let entry := heap !!! a in
  <[a := {| user_id := user_id entry;
            user_name := user_name entry;
            user_email := user_email entry;
            total_executions := total_executions entry;
            avg_completion_rate := avg_completion_rate entry;
            last_execution_date := last_execution_date entry;
            completion_rate_rank := i;
            execution_count_rank := execution_count_rank entry |}]> heap.

(** [entry.execution_count_rank = i] *)
Definition set_execution_count_rank (heap : Heap) (ia : nat * nat) : Heap :=
  let '(i, a) := ia in
  let entry := heap !!! a in
  <[a := {| user_id := user_id entry;
            user_name := user_name entry;
            user_email := user_email entry;
            total_executions := total_executions entry;
            avg_completion_rate := avg_completion_rate entry;
            last_execution_date := last_execution_date entry;
            completion_rate_rank := completion_rate_rank entry;
            execution_count_rank := i |}]> heap.

(** Lines 226-237: the two rankings, and the list that is returned. *)
Definition rank (heap : Heap) (leaderboard : list nat) : list LeaderboardEntry :=
  let leaderboard_by_rate :=
    Py.sorted_desc Py.Qcgt_bool (λ a, avg_completion_rate (heap !!! a)) leaderboard in
  let heap := fold_left set_completion_rate_rank (Py.enumerate 1 leaderboard_by_rate) heap in
  let leaderboard_by_count :=
    Py.sorted_desc Z.gtb (λ a, total_executions (heap !!! a)) leaderboard in
  let heap := fold_left set_execution_count_rank (Py.enumerate 1 leaderboard_by_count) heap in
  (λ a, heap !!! a) <$> leaderboard_by_rate.

Definition get_plan_leaderboard (db : DB) (plan_id : UUID)
    : Py.Result (list LeaderboardEntry) :=
  plan ← Py.scalar_one (filter (λ p, FitnessPlan.id p = plan_id) (fitness_plans db));
  let exercises := plan_exercises db (FitnessPlan.id plan) in
  let members := get_plan_members db plan_id in
  participants ← participants_of db plan members;
  match participants with
  | [] => Py.Ok []
  | _ =>
      let '(heap, leaderboard) :=
        fold_left (append_entry db plan_id exercises) participants ([], []) in
      Py.Ok (rank heap leaderboard)
  end.

Definition remove_member (db : DB) (plan_id user_id : UUID) : Py.Result DB :=
  member ← Py.scalar_one_or_none
             (filter (λ m, PlanMember.plan_id m = plan_id ∧ PlanMember.user_id m = user_id)
                     (plan_members db));
  match member with
  | None => Py.Err (Py.NotFoundException "Plan membership not found")
  | Some member =>
      Py.Ok (set_plan_members db
               (filter (λ m, PlanMember.id m ≠ PlanMember.id member) (plan_members db)))
  end.

End PlanMemberService.

(** ** src/services/plan_service.py *)

(** The external scheduler (APScheduler), as the registry of its jobs. *)
Record CronTrigger := {
  day_of_week : option string;
  cron_hour : Z;
  cron_minute : Z;
  cron_second : Z;
}.

Record Job := {
  job_id : string;
  job_trigger : CronTrigger;
  job_args : string * string;
}.

Abbreviation Scheduler := (list Job) (only parsing).

Definition get_job (scheduler : Scheduler) (id : string) : option Job :=
  Py.next_or_none (λ j, job_id j = id) scheduler.

Definition remove_job (scheduler : Scheduler) (id : string) : Scheduler :=
  filter (λ j, job_id j ≠ id) scheduler.

(** [add_job(..., replace_existing=True)] *)
Definition add_job (scheduler : Scheduler) (j : Job) : Scheduler :=
  remove_job scheduler (job_id j) ++ [j].

(** [str(uuid)] *)
Definition str_uuid (u : UUID) : string := pretty u.

(** What [db.commit()] raises for a new [Exercise] row, if anything:
    an integer that does not fit its [Integer] column, a name longer than
    [String(100)], or a [CheckConstraint] of the table
    ([duration_minutes IS NULL OR duration_minutes > 0], and the same for
    [repetitions]). *)
Definition exercise_commit_error (dialect : Dialect) (exercise_data : ExerciseCreate)
    : option Py.Exception :=
  if negb (Engine.optional_integer_fits dialect (ec_duration_minutes exercise_data)
           && Engine.optional_integer_fits dialect (ec_repetitions exercise_data)
           && Engine.integer_fits dialect (ec_order_index exercise_data)) then
    Some (Engine.integer_error dialect)
  else if negb (Engine.varchar_fits dialect 100 (ec_name exercise_data)) then
    Some Py.DBAPIError
  else if negb (opt_all (λ n, 0 <? n) (ec_duration_minutes exercise_data)
                && opt_all (λ n, 0 <? n) (ec_repetitions exercise_data)) then
    Some Py.IntegrityError
  else None.

Module PlanService.

(** What [db.commit()] raises for a new plan and its exercises: the
    first error among the rows, the plan's name being a [String(50)]. *)
Definition commit_error (dialect : Dialect) (plan_data : FitnessPlanCreate)
    : option Py.Exception :=
  if negb (Engine.varchar_fits dialect 50 (fc_name plan_data)) then Some Py.DBAPIError
  else head (omap (exercise_commit_error dialect) (fc_exercises plan_data)).

(** One [Exercise(...)] row per item of the payload, [db.add]ed. *)
Definition add_exercise_row (plan_id : UUID) (db : DB) (exercise_data : ExerciseCreate) : DB :=
  let '(id, db) := uuid4 db in
  set_exercises db
    (exercises db ++
     [ {| Exercise.id := id;
          Exercise.plan_id := plan_id;
          Exercise.name := ec_name exercise_data;
          Exercise.duration_minutes := ec_duration_minutes exercise_data;
          Exercise.repetitions := ec_repetitions exercise_data;
          Exercise.intensity := ec_intensity exercise_data;
          Exercise.order_index := ec_order_index exercise_data |} ]).

Definition create_plan (db : DB) (user_id : UUID) (plan_data : FitnessPlanCreate)
    : Py.Result (FitnessPlan.t * DB) :=
  let '(id, db) := uuid4 db in
  let plan :=
    {| FitnessPlan.id := id;
       FitnessPlan.user_id := user_id;
       FitnessPlan.name := fc_name plan_data;
       FitnessPlan.description := fc_description plan_data;
       FitnessPlan.status := ACTIVE;
       FitnessPlan.deleted_at := None |} in
  let db := set_fitness_plans db (fitness_plans db ++ [plan]) in
  let db := fold_left (add_exercise_row id) (fc_exercises plan_data) db in
  match commit_error (dialect db) plan_data with
  | Some e => Py.Err e
  | None => Py.Ok (plan, db)
  end.

(** The query of [get_plan_by_id]: owner or member, and not deleted. *)
Definition visible_plans (db : DB) (user_id plan_id : UUID) : list FitnessPlan.t :=
  filter (λ p, FitnessPlan.id p = plan_id
               ∧ (FitnessPlan.user_id p = user_id
                  ∨ FitnessPlan.id p ∈ member_plan_ids db user_id)
               ∧ FitnessPlan.deleted_at p = None)
         (fitness_plans db).

Definition get_plan_by_id (db : DB) (user_id plan_id : UUID) : Py.Result FitnessPlan.t :=
  plan ← Py.scalar_one_or_none (visible_plans db user_id plan_id);
  match plan with
  | None => Py.Err (Py.NotFoundException "Fitness plan not found")
  | Some plan => Py.Ok plan
  end.

(** [db.commit()] of a changed plan row: the row with its primary key
    is written back. *)
Definition write_plan (db : DB) (plan : FitnessPlan.t) : DB :=
  set_fitness_plans db
    ((λ p, if decide (FitnessPlan.id p = FitnessPlan.id plan) then plan else p)
       <$> fitness_plans db).

(** The fields the request carries are set on the row. The commit
    raises for a name set to null (the column is [nullable=False]) and,
    under PostgreSQL, for a name longer than [String(50)]. *)
Definition update_plan (db : DB) (user_id plan_id : UUID) (plan_data : FitnessPlanUpdate)
    : Py.Result (FitnessPlan.t * DB) :=
  plan ← get_plan_by_id db user_id plan_id;
  match fu_name plan_data with
  | Some None => Py.Err Py.IntegrityError
  | name =>
      let plan :=
        {| FitnessPlan.id := FitnessPlan.id plan;
           FitnessPlan.user_id := FitnessPlan.user_id plan;
           FitnessPlan.name :=
             match name with
             | Some (Some n) => n
             | _ => FitnessPlan.name plan
             end;
           FitnessPlan.description :=
             default (FitnessPlan.description plan) (fu_description plan_data);
           FitnessPlan.status := FitnessPlan.status plan;
           FitnessPlan.deleted_at := FitnessPlan.deleted_at plan |} in
      if Engine.varchar_fits (dialect db) 50 (FitnessPlan.name plan) then
        Py.Ok (plan, write_plan db plan)
      else Py.Err Py.DBAPIError
  end.

Definition reminder_job_id (plan_id reminder_id : UUID) : string :=
  "reminder_" +:+ str_uuid plan_id +:+ "_" +:+ str_uuid reminder_id.

(** The loop of [delete_plan] that cancels the reminder jobs. *)
Definition cancel_job (plan_id : UUID) (scheduler : Scheduler) (reminder : Reminder.t)
    : Scheduler :=
  let job_id := reminder_job_id plan_id (Reminder.id reminder) in
  match get_job scheduler job_id with
  | Some _ => remove_job scheduler job_id
  | None => scheduler
  end.

Definition delete_plan (now : Timestamp) (db : DB) (scheduler : option Scheduler)
    (user_id plan_id : UUID) : Py.Result (DB * option Scheduler) :=
  plan ← get_plan_by_id db user_id plan_id;
  let scheduler :=
    match scheduler with
    | Some jobs =>
        Some (fold_left (cancel_job plan_id) (plan_reminders db (FitnessPlan.id plan)) jobs)
    | None => None
    end in
  let plan :=
    {| FitnessPlan.id := FitnessPlan.id plan;
       FitnessPlan.user_id := FitnessPlan.user_id plan;
       FitnessPlan.name := FitnessPlan.name plan;
       FitnessPlan.description := FitnessPlan.description plan;
       FitnessPlan.status := FitnessPlan.status plan;
       FitnessPlan.deleted_at := Some now |} in
  Py.Ok (write_plan db plan, scheduler).

End PlanService.

(** ** src/services/exercise_service.py *)

(** "Verify plan exists and belongs to user": the query written out in
    [add_exercise], [create_reminder] and [get_plan_reminders]. *)
Definition owned_plans (db : DB) (user_id plan_id : UUID) : list FitnessPlan.t :=
  filter (λ p, FitnessPlan.id p = plan_id
               ∧ FitnessPlan.user_id p = user_id
               ∧ FitnessPlan.deleted_at p = None)
         (fitness_plans db).

Module ExerciseService.

(** The values of an exercise row, as a statement binds them. *)
Definition values (exercise : Exercise.t) : ExerciseCreate :=
  {| ec_name := Exercise.name exercise;
     ec_duration_minutes := Exercise.duration_minutes exercise;
     ec_repetitions := Exercise.repetitions exercise;
     ec_intensity := Exercise.intensity exercise;
     ec_order_index := Exercise.order_index exercise |}.

Definition add_exercise (db : DB) (user_id plan_id : UUID) (exercise_data : ExerciseCreate)
    : Py.Result (Exercise.t * DB) :=
  plan ← Py.scalar_one_or_none (owned_plans db user_id plan_id);
  match plan with
  | None => Py.Err (Py.NotFoundException "Fitness plan not found")
  | Some _ =>
      let '(id, db) := uuid4 db in
      let exercise :=
        {| Exercise.id := id;
           Exercise.plan_id := plan_id;
           Exercise.name := ec_name exercise_data;
           Exercise.duration_minutes := ec_duration_minutes exercise_data;
           Exercise.repetitions := ec_repetitions exercise_data;
           Exercise.intensity := ec_intensity exercise_data;
           Exercise.order_index := ec_order_index exercise_data |} in
      match exercise_commit_error (dialect db) exercise_data with
      | Some e => Py.Err e
      | None => Py.Ok (exercise, set_exercises db (exercises db ++ [exercise]))
      end
  end.

(** "Fetch exercise with plan ownership verification": the join of
    [update_exercise], [delete_exercise] and [get_exercise_by_id]. *)
Definition owned_exercises (db : DB) (user_id plan_id exercise_id : UUID)
    : list Exercise.t :=
  fst <$>
    filter (λ ep : Exercise.t * FitnessPlan.t,
              Exercise.id ep.1 = exercise_id
              ∧ Exercise.plan_id ep.1 = plan_id
              ∧ FitnessPlan.user_id ep.2 = user_id
              ∧ FitnessPlan.deleted_at ep.2 = None)
           (Py.join (λ ep, Exercise.plan_id ep.1 = FitnessPlan.id ep.2)
                    (exercises db) (fitness_plans db)).

Definition write_exercise (db : DB) (exercise : Exercise.t) : DB :=
  set_exercises db
    ((λ e, if decide (Exercise.id e = Exercise.id exercise) then exercise else e)
       <$> exercises db).

(** The fields the request carries are set on the row. The commit
    raises for a name, intensity or order index set to null (the columns
    are [nullable=False]) and for what the engine refuses of the new
    values. *)
Definition update_exercise (db : DB) (user_id plan_id exercise_id : UUID)
    (exercise_data : ExerciseUpdate) : Py.Result (Exercise.t * DB) :=
  exercise ← Py.scalar_one_or_none (owned_exercises db user_id plan_id exercise_id);
  match exercise with
  | None => Py.Err (Py.NotFoundException "Exercise not found")
  | Some exercise =>
      match eu_name exercise_data, eu_intensity exercise_data,
            eu_order_index exercise_data with
      | Some None, _, _ | _, Some None, _ | _, _, Some None =>
          Py.Err Py.IntegrityError
      | name, intensity, order_index =>
          let exercise :=
            {| Exercise.id := Exercise.id exercise;
               Exercise.plan_id := Exercise.plan_id exercise;
               Exercise.name :=
                 match name with
                 | Some (Some n) => n
                 | _ => Exercise.name exercise
                 end;
               Exercise.duration_minutes :=
                 default (Exercise.duration_minutes exercise)
                         (eu_duration_minutes exercise_data);
               Exercise.repetitions :=
                 default (Exercise.repetitions exercise)
                         (eu_repetitions exercise_data);
               Exercise.intensity :=
                 match intensity with
                 | Some (Some i) => i
                 | _ => Exercise.intensity exercise
                 end;
               Exercise.order_index :=
                 match order_index with
                 | Some (Some i) => i
                 | _ => Exercise.order_index exercise
                 end |} in
          match exercise_commit_error (dialect db) (values exercise) with
          | Some e => Py.Err e
          | None => Py.Ok (exercise, write_exercise db exercise)
          end
      end
  end.

(** [exercise_execution.exercise_id] refers to the exercise without an
    [ON DELETE] rule: where foreign keys are enforced the commit of the
    delete raises when an exercise execution refers to the exercise;
    where they are not, such exercise executions stay, as the completion
    calculator expects ("exercise not found in plan"). *)
Definition delete_exercise (db : DB) (user_id plan_id exercise_id : UUID)
    : Py.Result DB :=
  exercise ← Py.scalar_one_or_none (owned_exercises db user_id plan_id exercise_id);
  match exercise with
  | None => Py.Err (Py.NotFoundException "Exercise not found")
  | Some exercise =>
      let exercise_count := Z.of_nat (length (plan_exercises db plan_id)) in
      if exercise_count <=? 1 then
        Py.Err (Py.BusinessRuleViolationException
                  "Cannot delete the last exercise from a plan. A plan must have at least one exercise.")
      else if Engine.foreign_keys (dialect db)
              && bool_decide (Exercise.id exercise
                              ∈ ExerciseExecution.exercise_id <$> exercise_executions db) then
        Py.Err Py.IntegrityError
      else
        Py.Ok (set_exercises db
                 (filter (λ e, Exercise.id e ≠ Exercise.id exercise) (exercises db)))
  end.

Definition get_exercise_by_id (db : DB) (user_id plan_id exercise_id : UUID)
    : Py.Result Exercise.t :=
  exercise ← Py.scalar_one_or_none (owned_exercises db user_id plan_id exercise_id);
  match exercise with
  | None => Py.Err (Py.NotFoundException "Exercise not found")
  | Some exercise => Py.Ok exercise
  end.

End ExerciseService.

(** ** src/services/reminder_service.py *)

Module ReminderService.

Definition _get_job_id (plan_id reminder_id : UUID) : string :=
  "reminder_" +:+ str_uuid plan_id +:+ "_" +:+ str_uuid reminder_id.

(** [",".join(str((day - 1) % 7) for day in days_of_week)] *)
Definition cron_days (days_of_week : list Z) : string :=
  Py.str_join "," ((λ day, Py.str ((day - 1) mod 7)) <$> days_of_week).

(** Truth value of [days_of_week]: [None] and [[]] are false. *)
Definition truthy_days (days_of_week : option (list Z)) : bool :=
  match days_of_week with
  | Some (_ :: _) => true
  | _ => false
  end.

Definition _create_cron_trigger (reminder_time : time) (frequency : ReminderFrequency)
    (days_of_week : option (list Z)) : CronTrigger :=
  let hour := hour reminder_time in
  let minute := minute reminder_time in
  let second := second reminder_time in
  if bool_decide (frequency = DAILY) then
    {| day_of_week := None; cron_hour := hour; cron_minute := minute;
       cron_second := second |}
  else if bool_decide (frequency = WEEKLY) && truthy_days days_of_week then
    let cron_days := cron_days (default [] days_of_week) in
    {| day_of_week := Some cron_days; cron_hour := hour; cron_minute := minute;
       cron_second := second |}
  else if bool_decide (frequency = CUSTOM) && truthy_days days_of_week then
    let cron_days := cron_days (default [] days_of_week) in
    {| day_of_week := Some cron_days; cron_hour := hour; cron_minute := minute;
       cron_second := second |}
  else
    {| day_of_week := None; cron_hour := hour; cron_minute := minute;
       cron_second := second |}.

Definition _schedule_job (scheduler : option Scheduler) (reminder : Reminder.t)
    (plan : FitnessPlan.t) : option Scheduler :=
  match scheduler with
  | None => None
  | Some jobs =>
      let job_id := _get_job_id (FitnessPlan.id plan) (Reminder.id reminder) in
      let trigger :=
        _create_cron_trigger (Reminder.reminder_time reminder)
          (Reminder.frequency reminder) (Reminder.days_of_week reminder) in
      Some (add_job jobs
              {| job_id := job_id; job_trigger := trigger;
                 job_args := (str_uuid (FitnessPlan.id plan),
                              str_uuid (Reminder.id reminder)) |})
  end.

Definition create_reminder (db : DB) (scheduler : option Scheduler)
    (user_id plan_id : UUID) (reminder_data : ReminderCreate)
    : Py.Result (Reminder.t * DB * option Scheduler) :=
  plan ← Py.scalar_one_or_none (owned_plans db user_id plan_id);
  match plan with
  | None => Py.Err (Py.NotFoundException "Fitness plan not found")
  | Some plan =>
      let '(id, db) := uuid4 db in
      let reminder :=
        {| Reminder.id := id;
           Reminder.plan_id := plan_id;
           Reminder.reminder_time := rc_reminder_time reminder_data;
           Reminder.frequency := rc_frequency reminder_data;
           Reminder.days_of_week := rc_days_of_week reminder_data;
           Reminder.is_enabled := rc_is_enabled reminder_data |} in
      let db := set_reminders db (reminders db ++ [reminder]) in
      let scheduler :=
        if Reminder.is_enabled reminder && bool_decide (is_Some scheduler)
        then _schedule_job scheduler reminder plan
        else scheduler in
      Py.Ok (reminder, db, scheduler)
  end.

(** "Fetch reminder with plan ownership verification". *)
Definition owned_reminders (db : DB) (user_id plan_id reminder_id : UUID)
    : list Reminder.t :=
  fst <$>
    filter (λ rp : Reminder.t * FitnessPlan.t,
              Reminder.id rp.1 = reminder_id
              ∧ Reminder.plan_id rp.1 = plan_id
              ∧ FitnessPlan.user_id rp.2 = user_id
              ∧ FitnessPlan.deleted_at rp.2 = None)
           (Py.join (λ rp, Reminder.plan_id rp.1 = FitnessPlan.id rp.2)
                    (reminders db) (fitness_plans db)).

Definition write_reminder (db : DB) (reminder : Reminder.t) : DB :=
  set_reminders db
    ((λ r, if decide (Reminder.id r = Reminder.id reminder) then reminder else r)
       <$> reminders db).

Definition update_reminder (db : DB) (scheduler : option Scheduler)
    (user_id plan_id reminder_id : UUID) (reminder_data : ReminderUpdate)
    : Py.Result (Reminder.t * DB * option Scheduler) :=
  reminder ← Py.scalar_one_or_none (owned_reminders db user_id plan_id reminder_id);
  match reminder with
  | None => Py.Err (Py.NotFoundException "Reminder not found")
  | Some reminder =>
      match ru_reminder_time reminder_data, ru_frequency reminder_data,
            ru_is_enabled reminder_data with
      | Some None, _, _ | _, Some None, _ | _, _, Some None =>
          Py.Err Py.IntegrityError
      | reminder_time, frequency, is_enabled =>
          let reminder :=
            {| Reminder.id := Reminder.id reminder;
               Reminder.plan_id := Reminder.plan_id reminder;
               Reminder.reminder_time :=
                 match reminder_time with
                 | Some (Some t) => t
                 | _ => Reminder.reminder_time reminder
                 end;
               Reminder.frequency :=
                 match frequency with
                 | Some (Some f) => f
                 | _ => Reminder.frequency reminder
                 end;
               Reminder.days_of_week :=
                 default (Reminder.days_of_week reminder)
                         (ru_days_of_week reminder_data);
               Reminder.is_enabled :=
                 match is_enabled with
                 | Some (Some b) => b
                 | _ => Reminder.is_enabled reminder
                 end |} in
          let db := write_reminder db reminder in
          match scheduler with
          | None => Py.Ok (reminder, db, None)
          | Some jobs =>
              let job_id := _get_job_id plan_id reminder_id in
              let jobs :=
                match get_job jobs job_id with
                | Some _ => remove_job jobs job_id
                | None => jobs
                end in
              if Reminder.is_enabled reminder then
                plan ← Py.scalar_one
                         (filter (λ p, FitnessPlan.id p = plan_id) (fitness_plans db));
                Py.Ok (reminder, db, _schedule_job (Some jobs) reminder plan)
              else
                Py.Ok (reminder, db, Some jobs)
          end
      end
  end.

Definition delete_reminder (db : DB) (scheduler : option Scheduler)
    (user_id plan_id reminder_id : UUID) : Py.Result (DB * option Scheduler) :=
  reminder ← Py.scalar_one_or_none (owned_reminders db user_id plan_id reminder_id);
  match reminder with
  | None => Py.Err (Py.NotFoundException "Reminder not found")
  | Some reminder =>
      let scheduler :=
        match scheduler with
        | Some jobs =>
            let job_id := _get_job_id plan_id reminder_id in
            match get_job jobs job_id with
            | Some _ => Some (remove_job jobs job_id)
            | None => Some jobs
            end
        | None => None
        end in
      Py.Ok (set_reminders db
               (filter (λ r, Reminder.id r ≠ Reminder.id reminder) (reminders db)),
             scheduler)
  end.

Definition get_plan_reminders (db : DB) (user_id plan_id : UUID)
    : Py.Result (list Reminder.t) :=
  plan ← Py.scalar_one_or_none (owned_plans db user_id plan_id);
  match plan with
  | None => Py.Err (Py.NotFoundException "Fitness plan not found")
  | Some _ => Py.Ok (plan_reminders db plan_id)
  end.

End ReminderService.

(** ** src/api/routes: the requests that change the store

    A handler receives a payload that pydantic has validated and calls
    the service with the current user; [get_scheduler()] is the process
    wide scheduler handle. *)

Module Routes.

Inductive Request :=
| create_fitness_plan (user_id : UUID) (plan_data : FitnessPlanCreate)
| update_fitness_plan (user_id plan_id : UUID) (plan_data : FitnessPlanUpdate)
| delete_fitness_plan (now : Timestamp) (user_id plan_id : UUID)
| add_exercise_to_plan (user_id plan_id : UUID) (exercise_data : ExerciseCreate)
| update_exercise (user_id plan_id exercise_id : UUID) (exercise_data : ExerciseUpdate)
| delete_exercise (user_id plan_id exercise_id : UUID)
| create_reminder (user_id plan_id : UUID) (reminder_data : ReminderCreate)
| update_reminder (user_id plan_id reminder_id : UUID) (reminder_data : ReminderUpdate)
| delete_reminder (user_id plan_id reminder_id : UUID)
| invite_member (user_id plan_id : UUID) (user_email : string)
| remove_member (plan_id user_id : UUID)
| create_plan_execution (now : Timestamp) (user_id : UUID)
    (execution_data : PlanExecutionCreate)
| update_plan_execution (user_id execution_id : UUID)
    (execution_data : PlanExecutionUpdate)
| delete_plan_execution (user_id execution_id : UUID).

(** The state of the process: the store and the scheduler handle. *)
Abbreviation State := (DB * option (list Job))%type (only parsing).

Definition validated {A} (valid : bool) (r : Py.Result A) : Py.Result A :=
  if valid then r else Py.Err (Py.ValidationError "Unprocessable entity").

Definition handle (st : State) (request : Request) : Py.Result State :=
  let '(db, scheduler) := st in
  match request with
  | create_fitness_plan user_id plan_data =>
      validated (FitnessPlanCreate_valid plan_data)
        ('(_, db) ← PlanService.create_plan db user_id plan_data;
         Py.Ok (db, scheduler))
  | update_fitness_plan user_id plan_id plan_data =>
      '(_, db) ← PlanService.update_plan db user_id plan_id plan_data;
      Py.Ok (db, scheduler)
  | delete_fitness_plan now user_id plan_id =>
      PlanService.delete_plan now db scheduler user_id plan_id
  | add_exercise_to_plan user_id plan_id exercise_data =>
      validated (ExerciseCreate_valid exercise_data)
        ('(_, db) ← ExerciseService.add_exercise db user_id plan_id exercise_data;
         Py.Ok (db, scheduler))
  | update_exercise user_id plan_id exercise_id exercise_data =>
      '(_, db) ← ExerciseService.update_exercise db user_id plan_id exercise_id
                   exercise_data;
      Py.Ok (db, scheduler)
  | delete_exercise user_id plan_id exercise_id =>
      db ← ExerciseService.delete_exercise db user_id plan_id exercise_id;
      Py.Ok (db, scheduler)
  | create_reminder user_id plan_id reminder_data =>
      '(_, db, scheduler) ← ReminderService.create_reminder db scheduler user_id
                              plan_id reminder_data;
      Py.Ok (db, scheduler)
  | update_reminder user_id plan_id reminder_id reminder_data =>
      '(_, db, scheduler) ← ReminderService.update_reminder db scheduler user_id
                              plan_id reminder_id reminder_data;
      Py.Ok (db, scheduler)
  | delete_reminder user_id plan_id reminder_id =>
      ReminderService.delete_reminder db scheduler user_id plan_id reminder_id
  | invite_member user_id plan_id user_email =>
      '(_, db) ← PlanMemberService.invite_member db plan_id user_id user_email;
      Py.Ok (db, scheduler)
  | remove_member plan_id user_id =>
      db ← PlanMemberService.remove_member db plan_id user_id;
      Py.Ok (db, scheduler)
  | create_plan_execution now user_id execution_data =>
      validated (PlanExecutionCreate_valid execution_data)
        ('(_, db) ← PlanExecutionService.create_plan_execution now db user_id
                      execution_data;
         Py.Ok (db, scheduler))
  | update_plan_execution user_id execution_id execution_data =>
      '(_, db) ← PlanExecutionService.update_plan_execution db user_id execution_id
                   execution_data;
      Py.Ok (db, scheduler)
  | delete_plan_execution user_id execution_id =>
      db ← PlanExecutionService.delete_plan_execution db user_id execution_id;
      Py.Ok (db, scheduler)
  end.

(** A sequence of requests, each of which succeeds. *)
Fixpoint serve (st : State) (requests : list Request) : Py.Result State :=
  match requests with
  | [] => Py.Ok st
  | request :: requests => st ← handle st request; serve st requests
  end.

End Routes.

(** ** Specification-level notions *)

(** The arithmetic mean of a list of rates, [0] for the empty list. *)
Definition arithmetic_mean (l : list Qc) : Qc :=
  match l with
  | [] => Qc_of_Z 0
  | _ => (foldr Qcplus (Qc_of_Z 0) l / Qc_of_Z (Z.of_nat (length l)))%Qc
  end.

(** The completion rate of one exercise execution: what one turn of the
    loop of [get_plan_executions] appends to [exercise_completion_rates]. *)
Definition exercise_rate (exercises : list Exercise.t) (ex_exec : ExerciseExecution.t) : Qc :=
  default (Qc_of_Z 0) (head (PlanExecutionService.rate_step exercises ([], 0) ex_exec).1).

(** [actual / planned * 100] *)
Definition percent (actual planned : Z) : Qc :=
  (Qc_of_Z actual / Qc_of_Z planned * Qc_of_Z 100)%Qc.

(** The planned exercise an execution refers to is in the plan. *)
Definition planned (exercises : list Exercise.t) (ex_exec : ExerciseExecution.t)
    (exercise : Exercise.t) : Prop :=
  Py.next_or_none (λ e, Exercise.id e = ExerciseExecution.exercise_id ex_exec) exercises
  = Some exercise.

(** The overall completion rate of one stored execution. *)
Definition overall_rate (db : DB) (exercises : list Exercise.t)
    (execution : PlanExecution.t) : Qc :=
  PlanExecutionService.completion_rate exercises
    (execution_exercise_executions db (PlanExecution.id execution)).

(** In a list sorted by decreasing key, [x] may stand before [y]: the
    key of [y] is not greater. *)
Definition not_below {A K} (gt : K → K → bool) (key : A → K) (x y : A) : Prop :=
  gt (key y) (key x) = false.

(** The ranking loops write one field of the referenced entry. *)
Definition with_completion_rate_rank (entry : LeaderboardEntry) (i : nat) : LeaderboardEntry :=
  {| user_id := user_id entry;
     user_name := user_name entry;
     user_email := user_email entry;
     total_executions := total_executions entry;
     avg_completion_rate := avg_completion_rate entry;
     last_execution_date := last_execution_date entry;
     completion_rate_rank := i;
     execution_count_rank := execution_count_rank entry |}.

Definition with_execution_count_rank (entry : LeaderboardEntry) (i : nat) : LeaderboardEntry :=
  {| user_id := user_id entry;
     user_name := user_name entry;
     user_email := user_email entry;
     total_executions := total_executions entry;
     avg_completion_rate := avg_completion_rate entry;
     last_execution_date := last_execution_date entry;
     completion_rate_rank := completion_rate_rank entry;
     execution_count_rank := i |}.

(** A loop [for i, entry in enumerate(refs, start): entry.field = i]. *)
Definition assign (upd : LeaderboardEntry → nat → LeaderboardEntry)
    (heap : list LeaderboardEntry) (ia : nat * nat) : list LeaderboardEntry :=
  <[ia.2 := upd (heap !!! ia.2) ia.1]> heap.

(** The executions that enter the average of the leaderboard: those
    with at least one exercise execution. *)
Definition scored (db : DB) (executions : list PlanExecution.t) : list PlanExecution.t :=
  filter (λ x, execution_exercise_executions db (PlanExecution.id x) ≠ []) executions.

(** The mean of the overall rates of the given executions. *)
Definition mean_overall_rate (db : DB) (plan_id : UUID)
    (executions : list PlanExecution.t) : Qc :=
  arithmetic_mean (overall_rate db (plan_exercises db plan_id) <$> executions).

(** The constraints of the tables that the queries rely on: primary
    keys, the unique email, the unique (plan, user) pair of a membership,
    and ids drawn from the counter. *)
Record db_wf (db : DB) : Prop := {
  wf_plan_ids : NoDup (FitnessPlan.id <$> fitness_plans db);
  wf_user_emails : NoDup (User.email <$> users db);
  wf_member_pairs :
    NoDup ((λ m, (PlanMember.plan_id m, PlanMember.user_id m)) <$> plan_members db);
  wf_member_ids : ∀ m, m ∈ plan_members db → (PlanMember.id m < next_uuid db)%nat;
  wf_exercise_ids : NoDup (Exercise.id <$> exercises db);
  wf_reminder_ids : NoDup (Reminder.id <$> reminders db);
}.

(** The user owns the plan, or is a member of it, in the store. *)
Definition is_owner (db : DB) (user_id plan_id : UUID) : Prop :=
  ∃ p, p ∈ fitness_plans db ∧ FitnessPlan.id p = plan_id ∧ FitnessPlan.user_id p = user_id.

Definition is_member (db : DB) (user_id plan_id : UUID) : Prop :=
  ∃ m, m ∈ plan_members db ∧ PlanMember.plan_id m = plan_id ∧ PlanMember.user_id m = user_id.

(** No plan with this id is stored. *)
Definition plan_absent (db : DB) (plan_id : UUID) : Prop :=
  ∀ p, p ∈ fitness_plans db → FitnessPlan.id p ≠ plan_id.

(** The store after a call: a call that raised has committed nothing. *)
Definition store_after (db : DB) (r : Py.Result DB) : DB :=
  match r with
  | Py.Ok db' => db'
  | Py.Err _ => db
  end.

(** Every plan that is not deleted has at least one exercise; the ids of
    the exercises are distinct and were drawn from the counter. *)
Record plans_keep_exercises (db : DB) : Prop := {
  pke_ids : NoDup (Exercise.id <$> exercises db);
  pke_fresh : ∀ e, e ∈ exercises db → (Exercise.id e < next_uuid db)%nat;
  pke_count :
    ∀ p, p ∈ fitness_plans db → FitnessPlan.deleted_at p = None →
         (1 ≤ length (plan_exercises db (FitnessPlan.id p)))%nat;
}.

(** A call that leaves the plans and the exercises as they are. *)
Definition keeps_plans_and_exercises (db db' : DB) : Prop :=
  fitness_plans db' = fitness_plans db
  ∧ exercises db' = exercises db
  ∧ (next_uuid db ≤ next_uuid db')%nat.

(** The days of the week, and the two ways of numbering them: the
    reminder's 1 (Monday) to 7 (Sunday), as the schema documents it. *)
Inductive Weekday := Mon | Tue | Wed | Thu | Fri | Sat | Sun.

Global Instance Weekday_eq_dec : EqDecision Weekday.
Proof. solve_decision. Defined.

Definition weekday_of_reminder (day : Z) : option Weekday :=
  match day with
  | 1 => Some Mon | 2 => Some Tue | 3 => Some Wed | 4 => Some Thu
  | 5 => Some Fri | 6 => Some Sat | 7 => Some Sun
  | _ => None
  end.

(** Modelled from the spec: the external scheduler (APScheduler), which
    is not part of the repository. Its convention for a day of the week
    is 0-based, 0 for Monday to 6 for Sunday. *)
Definition weekday_of_cron (n : Z) : option Weekday :=
  match n with
  | 0 => Some Mon | 1 => Some Tue | 2 => Some Wed | 3 => Some Thu
  | 4 => Some Fri | 5 => Some Sat | 6 => Some Sun
  | _ => None
  end.

Definition digit_of (c : Ascii.ascii) : option Z :=
  (if Ascii.eqb c "0" then Some 0 else if Ascii.eqb c "1" then Some 1
   else if Ascii.eqb c "2" then Some 2 else if Ascii.eqb c "3" then Some 3
   else if Ascii.eqb c "4" then Some 4 else if Ascii.eqb c "5" then Some 5
   else if Ascii.eqb c "6" then Some 6 else if Ascii.eqb c "7" then Some 7
   else if Ascii.eqb c "8" then Some 8 else if Ascii.eqb c "9" then Some 9
   else None)%char.

(** Modelled from the spec: how the external scheduler reads the
    [day_of_week] expression the translator writes, a comma-separated
    list of numbers. [cur] is the number being read. *)
Fixpoint parse_days (s : string) (cur : option Z) : list Z :=
  match s with
  | EmptyString => option_list cur
  | String c s' =>
      if Ascii.eqb c ","%char then option_list cur ++ parse_days s' None
      else match digit_of c with
           | Some k => parse_days s' (Some (10 * default 0 cur + k))
           | None => parse_days s' cur
           end
  end.

(** Modelled from the spec: a trigger without [day_of_week] fires every
    day; one with it fires on the days its expression lists. *)
Definition fires_on (trigger : CronTrigger) (w : Weekday) : Prop :=
  match day_of_week trigger with
  | None => True
  | Some expression => Some w ∈ weekday_of_cron <$> parse_days expression None
  end.

(** The trigger fires at the time of day of the reminder. *)
Definition fires_at (trigger : CronTrigger) (t : time) : Prop :=
  cron_hour trigger = hour t
  ∧ cron_minute trigger = minute t
  ∧ cron_second trigger = second t.

(** ** Example data

    A store with two users, Alice (1) and Bob (2). Alice owns plan 10,
    with a 30 minute run (20) and 10 push-ups (21), and has invited Bob.
    Alice logged the plan twice: execution 30 with the run completed and
    no actual value, and execution 31 without any exercise execution.
    Bob logged it once: execution 32, the run completed with 10 actual
    minutes. *)
Definition alice : User.t :=
  {| User.id := 1; User.email := "alice@example.com"; User.password_hash := "";
     User.full_name := Some "Alice" |}.

Definition bob : User.t :=
  {| User.id := 2; User.email := "bob@example.com"; User.password_hash := "";
     User.full_name := None |}.

Definition plan10 : FitnessPlan.t :=
  {| FitnessPlan.id := 10; FitnessPlan.user_id := 1; FitnessPlan.name := "Morning";
     FitnessPlan.description := None; FitnessPlan.status := ACTIVE;
     FitnessPlan.deleted_at := None |}.

Definition run20 : Exercise.t :=
  {| Exercise.id := 20; Exercise.plan_id := 10; Exercise.name := "Run";
     Exercise.duration_minutes := Some 30; Exercise.repetitions := None;
     Exercise.intensity := MEDIUM; Exercise.order_index := 0 |}.

Definition pushups21 : Exercise.t :=
  {| Exercise.id := 21; Exercise.plan_id := 10; Exercise.name := "Push-ups";
     Exercise.duration_minutes := None; Exercise.repetitions := Some 10;
     Exercise.intensity := HIGH; Exercise.order_index := 1 |}.

Definition execution (id user_id : UUID) (date : Date) : PlanExecution.t :=
  {| PlanExecution.id := id; PlanExecution.plan_id := 10;
     PlanExecution.user_id := user_id; PlanExecution.execution_date := date;
     PlanExecution.notes := None; PlanExecution.created_at := date |}.

Definition exercise_execution (id plan_execution_id exercise_id : UUID)
    (completed : bool) (actual_duration_minutes actual_repetitions : option Z)
    : ExerciseExecution.t :=
  {| ExerciseExecution.id := id;
     ExerciseExecution.plan_execution_id := plan_execution_id;
     ExerciseExecution.exercise_id := exercise_id;
     ExerciseExecution.completed := completed;
     ExerciseExecution.actual_duration_minutes := actual_duration_minutes;
     ExerciseExecution.actual_repetitions := actual_repetitions;
     ExerciseExecution.notes := None |}.

Definition db_demo : DB :=
  {| dialect := PostgreSQL;
     users := [alice; bob];
     fitness_plans := [plan10];
     exercises := [run20; pushups21];
     reminders := [];
     plan_members :=
       [ {| PlanMember.id := 50; PlanMember.plan_id := 10; PlanMember.user_id := 2;
            PlanMember.invited_by := Some 1%nat |} ];
     plan_executions := [execution 30 1 5; execution 31 1 6; execution 32 2 7];
     exercise_executions :=
       [ exercise_execution 40 30 20 true None None;
         exercise_execution 41 32 20 true (Some 10) None ];
     next_uuid := 100 |}.

(** The store before Bob was invited, and a store in which the plan has
    the run as its only exercise. *)
Definition db_before_invite : DB := set_plan_members db_demo [].

Definition db_single : DB := set_exercises db_demo [run20].

(** The end-to-end scenario: Alice creates a plan with two exercises
    (the plan gets id 0, the exercises 1 and 2), adds a third (3), and
    deletes the first two. *)
Definition exercise_payload (name : string) : ExerciseCreate :=
  {| ec_name := name; ec_duration_minutes := Some 30; ec_repetitions := None;
     ec_intensity := MEDIUM; ec_order_index := 0 |}.

Definition scenario : list Routes.Request :=
  [ Routes.create_fitness_plan 1
      {| fc_name := "Morning"; fc_description := None;
         fc_exercises := [exercise_payload "Run"; exercise_payload "Row"] |};
    Routes.add_exercise_to_plan 1 0 (exercise_payload "Swim");
    Routes.delete_exercise 1 0 1;
    Routes.delete_exercise 1 0 2 ].

(** Half past seven in the morning. *)
Definition half_past_seven : time := {| hour := 7; minute := 30; second := 0 |}.

(** A request to rename a plan. *)
Definition rename : FitnessPlanUpdate :=
  {| fu_name := Some (Some "Taken over"); fu_description := None |}.

(** Two exercise executions that are not stored: the run completed in
    45 minutes, and the push-ups not completed, with values recorded. *)
Definition overrun : ExerciseExecution.t :=
  exercise_execution 43 33 20 true (Some 45) None.

Definition skipped : ExerciseExecution.t :=
  exercise_execution 44 33 21 false (Some 45) (Some 99).

(** Ids are drawn from the counter and foreign keys refer to stored
    rows, so every id in the tables is below the counter; and the
    executions have distinct primary keys. *)
Record db_fresh (db : DB) : Prop := {
  fresh_plans :
    Forall (λ p, (FitnessPlan.id p < next_uuid db)%nat) (fitness_plans db);
  fresh_exercises :
    Forall (λ e, (Exercise.id e < next_uuid db)%nat
                 ∧ (Exercise.plan_id e < next_uuid db)%nat) (exercises db);
  fresh_reminders :
    Forall (λ r, (Reminder.id r < next_uuid db)%nat
                 ∧ (Reminder.plan_id r < next_uuid db)%nat) (reminders db);
  fresh_executions :
    Forall (λ x, (PlanExecution.id x < next_uuid db)%nat) (plan_executions db);
  fresh_exercise_executions :
    Forall (λ x, (ExerciseExecution.id x < next_uuid db)%nat
                 ∧ (ExerciseExecution.plan_execution_id x < next_uuid db)%nat)
           (exercise_executions db);
  fresh_execution_ids : NoDup (PlanExecution.id <$> plan_executions db);
}.

(** The rows stored for the items of an execution payload: the [i]-th
    item gets the [i]-th id drawn from [first] on. *)
Definition exercise_execution_row (plan_execution_id : UUID)
    (ix : UUID * ExerciseExecutionCreate) : ExerciseExecution.t :=
  {| ExerciseExecution.id := ix.1;
     ExerciseExecution.plan_execution_id := plan_execution_id;
     ExerciseExecution.exercise_id := xc_exercise_id ix.2;
     ExerciseExecution.completed := xc_completed ix.2;
     ExerciseExecution.actual_duration_minutes := xc_actual_duration_minutes ix.2;
     ExerciseExecution.actual_repetitions := xc_actual_repetitions ix.2;
     ExerciseExecution.notes := xc_notes ix.2 |}.

Definition exercise_execution_rows (plan_execution_id first : UUID)
    (items : list ExerciseExecutionCreate) : list ExerciseExecution.t :=
  exercise_execution_row plan_execution_id <$> zip (seq first (length items)) items.

(** The user owns the plan or is a member of it. *)
Definition participates (db : DB) (user_id plan_id : UUID) : Prop :=
  is_owner db user_id plan_id ∨ is_member db user_id plan_id.

(** Bob's log of the run: completed in 25 minutes. *)
Definition log_payload : PlanExecutionCreate :=
  {| pc_plan_id := 10; pc_execution_date := 8; pc_notes := None;
     pc_exercise_executions :=
       [ {| xc_exercise_id := 20; xc_completed := true;
            xc_actual_duration_minutes := Some 25; xc_actual_repetitions := None;
            xc_notes := None |} ] |}.

(** An update that replaces the exercise executions of an execution. *)
Definition relog_payload : PlanExecutionUpdate :=
  {| pu_execution_date := None; pu_notes := Some "again";
     pu_exercise_executions := Some (pc_exercise_executions log_payload) |}.

(** ** src/api/routes/plan_execution_routes.py: the listing *)

Module Math.
End Math.

(** src/core/config.py *)
Module Settings.
Definition default_page_size : nat := 20.
End Settings.

Module PlanExecutionRoutes.




End PlanExecutionRoutes.

(** The filters of a listing request, on one execution: it is the
    caller's, of the plan asked for, and dated within the bounds given. *)
Definition in_listing (user_id : UUID) (plan_id : option UUID)
    (start_date end_date : option Date) (x : PlanExecution.t) : bool :=
  bool_decide (PlanExecution.user_id x = user_id)
  && from_option (λ p, bool_decide (PlanExecution.plan_id x = p)) true plan_id
  && from_option (λ d, bool_decide (d ≤ PlanExecution.execution_date x)%nat) true start_date
  && from_option (λ d, bool_decide (PlanExecution.execution_date x ≤ d)%nat) true end_date.



(** The amounts stored are not negative: the planned minutes and
    repetitions of the exercises ([gt=0] in the schemas) and the recorded
    ones of the exercise executions ([ge=1]). *)
Definition nonneg_opt (o : option Z) : Prop := ∀ n, o = Some n → 0 ≤ n.

Record amounts_nonneg (db : DB) : Prop := {
  nonneg_planned :
    Forall (λ e, nonneg_opt (Exercise.duration_minutes e)
                 ∧ nonneg_opt (Exercise.repetitions e)) (exercises db);
  nonneg_actual :
    Forall (λ x, nonneg_opt (ExerciseExecution.actual_duration_minutes x)
                 ∧ nonneg_opt (ExerciseExecution.actual_repetitions x))
           (exercise_executions db);
}.


(** The row stored for an item of a plan payload, under the id drawn
    for it. *)
Definition exercise_row (plan_id : UUID) (ix : UUID * ExerciseCreate) : Exercise.t :=
  {| Exercise.id := ix.1;
     Exercise.plan_id := plan_id;
     Exercise.name := ec_name ix.2;
     Exercise.duration_minutes := ec_duration_minutes ix.2;
     Exercise.repetitions := ec_repetitions ix.2;
     Exercise.intensity := ec_intensity ix.2;
     Exercise.order_index := ec_order_index ix.2 |}.

Definition exercise_rows (plan_id first : UUID) (items : list ExerciseCreate)
    : list Exercise.t :=
  exercise_row plan_id <$> zip (seq first (length items)) items.

(** The ids of the jobs of the reminders of a plan. *)
Definition plan_job_ids (db : DB) (plan_id : UUID) : list string :=
  (λ r, PlanService.reminder_job_id plan_id (Reminder.id r)) <$> plan_reminders db plan_id.

(** A request for a plan with one exercise. *)
Definition plan_payload : FitnessPlanCreate :=
  {| fc_name := "Evening"; fc_description := None;
     fc_exercises := [exercise_payload "Walk"] |}.

(** Plan 10 with a daily reminder, and a scheduler that runs the job of
    that reminder and a job of another plan. *)
Definition reminder60 : Reminder.t :=
  {| Reminder.id := 60; Reminder.plan_id := 10; Reminder.reminder_time := half_past_seven;
     Reminder.frequency := DAILY; Reminder.days_of_week := None;
     Reminder.is_enabled := true |}.

Definition db_reminded : DB := set_reminders db_demo [reminder60].

Definition daily_job (plan_id reminder_id : UUID) : Job :=
  {| job_id := ReminderService._get_job_id plan_id reminder_id;
     job_trigger := ReminderService._create_cron_trigger half_past_seven DAILY None;
     job_args := (str_uuid plan_id, str_uuid reminder_id) |}.

Definition scheduler_demo : list Job := [daily_job 10 60; daily_job 11 61].


(** The job that [_schedule_job] registers for a reminder of a plan. *)
Definition reminder_job (plan_id : UUID) (reminder : Reminder.t) : Job :=
  {| job_id := ReminderService._get_job_id plan_id (Reminder.id reminder);
     job_trigger :=
       ReminderService._create_cron_trigger (Reminder.reminder_time reminder)
         (Reminder.frequency reminder) (Reminder.days_of_week reminder);
     job_args := (str_uuid plan_id, str_uuid (Reminder.id reminder)) |}.

(** An update names no required column as [null]. *)
Definition ReminderUpdate_keeps_required (reminder_data : ReminderUpdate) : Prop :=
  ru_reminder_time reminder_data ≠ Some None
  ∧ ru_frequency reminder_data ≠ Some None
  ∧ ru_is_enabled reminder_data ≠ Some None.

(** Requests on reminders: a weekly reminder on Monday and Friday, and
    an update that switches a reminder off. *)
Definition weekly_payload : ReminderCreate :=
  {| rc_reminder_time := half_past_seven; rc_frequency := WEEKLY;
     rc_days_of_week := Some [1; 5]; rc_is_enabled := true |}.

Definition switch_off : ReminderUpdate :=
  {| ru_reminder_time := None; ru_frequency := None; ru_days_of_week := None;
     ru_is_enabled := Some (Some false) |}.


(** ** src/api/schemas/reminder_schemas.py: the validator of the days *)

Module ReminderSchemas.

(** [sorted(list(set(v)))]: the elements of [v], each once, in
    increasing order. The order in which the set lists them does not
    show after the sort. *)
Definition sorted_set (v : list Z) : list Z := merge_sort Z.le (remove_dups v).

(** [validate_days_of_week] of [ReminderCreate] and of [ReminderUpdate],
    which have the same body. A [ValueError] raised in a validator
    surfaces as pydantic's [ValidationError]. *)
Definition validate_days_of_week (v : option (list Z)) : Py.Result (option (list Z)) :=
  match v with
  | None => Py.Ok None
  | Some [] =>
      Py.Err (Py.ValidationError "days_of_week must not be empty if provided")
  | Some days =>
      if forallb (λ day, negb ((day <? 1) || (7 <? day))) days
      then Py.Ok (Some (sorted_set days))
      else Py.Err (Py.ValidationError
                     "days_of_week must contain values between 1 and 7")
  end.

End ReminderSchemas.


(** ** src/services/reminder_service.py: the job callback *)

(** The call [send_push_notification(user_id=..., plan_id=...,
    plan_name=..., exercises=...)] that the callback makes. *)
Record PushNotification := {
  pn_user_id : UUID;
  pn_plan_id : UUID;
  pn_plan_name : string;
  pn_exercises : list Exercise.t;
}.

(** [send_reminder_notification], run by the scheduler with the
    arguments of the job; the two strings are the ids they print. The
    result is the notification sent, if any. [plan.exercises] is loaded
    with the plan. *)
Definition send_reminder_notification (db : DB) (plan_id reminder_id : UUID)
    : Py.Result (option PushNotification) :=
  plan ← Py.scalar_one_or_none
           (filter (λ p, FitnessPlan.id p = plan_id ∧ FitnessPlan.deleted_at p = None)
                   (fitness_plans db));
  match plan with
  | None => Py.Ok None
  | Some plan =>
      if bool_decide (FitnessPlan.status plan ≠ ACTIVE) then Py.Ok None
      else
        reminder ← Py.scalar_one_or_none
                     (filter (λ r, Reminder.id r = reminder_id) (reminders db));
        match reminder with
        | None => Py.Ok None
        | Some reminder =>
            if negb (Reminder.is_enabled reminder) then Py.Ok None
            else
              Py.Ok (Some {| pn_user_id := FitnessPlan.user_id plan;
                             pn_plan_id := FitnessPlan.id plan;
                             pn_plan_name := FitnessPlan.name plan;
                             pn_exercises := plan_exercises db (FitnessPlan.id plan) |})
        end
  end.


(** ** src/api/routes/plan_member_routes.py *)

Module PlanMemberRoutes.

(** What a handler answers: a response, an [HTTPException] it raised
    itself, or an exception of the service that it let through. *)
Inductive Answer (A : Type) :=
| Response (a : A)
| HTTPException (status_code : Z) (detail : string)
| Raised (e : Py.Exception).
Arguments Response {A} a.
Arguments HTTPException {A} status_code detail.
Arguments Raised {A} e.

Record PlanMemberResponse := {
  mr_id : UUID;
  mr_plan_id : UUID;
  mr_user_id : UUID;
  mr_user_email : string;
  mr_user_name : string;
  mr_invited_by : option UUID;
}.

Record PlanLeaderboardResponse := {
  lr_plan_id : UUID;
  lr_plan_name : string;
  lr_leaderboard : list LeaderboardEntry;
}.

(** [PlanMemberResponse(...)] of a member; [member.user] is read through
    the foreign key. *)
Definition member_response (db : DB) (member : PlanMember.t)
    : Py.Result PlanMemberResponse :=
  match user_of db (PlanMember.user_id member) with
  | None => Py.Err Py.AttributeError
  | Some user =>
      Py.Ok {| mr_id := PlanMember.id member;
               mr_plan_id := PlanMember.plan_id member;
               mr_user_id := PlanMember.user_id member;
               mr_user_email := User.email user;
               mr_user_name := Py.or_str (User.full_name user) (User.email user);
               mr_invited_by := PlanMember.invited_by member |}
  end.

(** [current_user] is a parameter of the handler that its body does not
    read. *)
Definition get_plan_members (db : DB) (current_user plan_id : UUID)
    : Answer (list PlanMemberResponse) :=
  let members := PlanMemberService.get_plan_members db plan_id in
  match mapM (member_response db) members with
  | Py.Ok responses => Response responses
  | Py.Err e => Raised e
  end.

Definition get_plan_leaderboard (db : DB) (current_user plan_id : UUID)
    : Answer PlanLeaderboardResponse :=
  let user_id := current_user in
  match Py.scalar_one_or_none
          (filter (λ p, FitnessPlan.id p = plan_id
                        ∧ (FitnessPlan.user_id p = user_id
                           ∨ FitnessPlan.id p ∈ member_plan_ids db user_id))
                  (fitness_plans db)) with
  | Py.Err e => Raised e
  | Py.Ok None => HTTPException 404 "Plan not found"
  | Py.Ok (Some plan) =>
      match PlanMemberService.get_plan_leaderboard db plan_id with
      | Py.Err e => Raised e
      | Py.Ok leaderboard =>
          Response {| lr_plan_id := plan_id;
                      lr_plan_name := FitnessPlan.name plan;
                      lr_leaderboard := leaderboard |}
      end
  end.

(** [except NotFoundException as e:
       raise HTTPException(status_code=e.status_code, detail=e.detail)];
    here too [current_user] is not read. *)
Definition remove_member (db : DB) (current_user plan_id user_id : UUID) : Answer DB :=
  match PlanMemberService.remove_member db plan_id user_id with
  | Py.Ok db => Response db
  | Py.Err (Py.NotFoundException detail) => HTTPException 404 detail
  | Py.Err e => Raised e
  end.

End PlanMemberRoutes.

(** Plan 10 deleted on day 9, with Bob still a member of it. *)
Definition plan10_deleted : FitnessPlan.t :=
  {| FitnessPlan.id := 10; FitnessPlan.user_id := 1; FitnessPlan.name := "Morning";
     FitnessPlan.description := None; FitnessPlan.status := ACTIVE;
     FitnessPlan.deleted_at := Some 9%nat |}.

Definition db_deleted : DB := set_fitness_plans db_demo [plan10_deleted].


(** ** src/api/routes/plans.py: the calendar export *)

Module PlansRoutes.

(** The recurrence rule of an event, [{"freq": ..., "byday": [...]}]. *)
Record RRule := {
  freq : string;
  byday : option (list string);
}.

(** The fields of an [Event] that the reminder decides: its start, its
    recurrence rule and its uid. The texts (summary, description, alarm)
    and the serialisation by the icalendar library are left out. *)
Record Event := {
  ev_dtstart : Date * time;
  ev_rrule : option RRule;
  ev_uid : string;
}.

(** [day_map.get(day)] *)
Definition day_map (day : Z) : option string :=
  match day with
  | 1 => Some "MO" | 2 => Some "TU" | 3 => Some "WE" | 4 => Some "TH"
  | 5 => Some "FR" | 6 => Some "SA" | 7 => Some "SU"
  | _ => None
  end.

(** [[day_map[day] for day in reminder.days_of_week if day in day_map]] *)
Definition byday_of (days_of_week : list Z) : list string :=
  omap day_map days_of_week.

(** The [if]/[elif] chain that adds the ["rrule"], or none. *)
Definition rrule_of (reminder : Reminder.t) : option RRule :=
  if bool_decide (Reminder.frequency reminder = DAILY) then
    Some {| freq := "daily"; byday := None |}
  else if bool_decide (Reminder.frequency reminder = WEEKLY)
          && ReminderService.truthy_days (Reminder.days_of_week reminder) then
    Some {| freq := "weekly";
            byday := Some (byday_of (default [] (Reminder.days_of_week reminder))) |}
  else if bool_decide (Reminder.frequency reminder = CUSTOM)
          && ReminderService.truthy_days (Reminder.days_of_week reminder) then
    Some {| freq := "weekly";
            byday := Some (byday_of (default [] (Reminder.days_of_week reminder))) |}
  else None.

(** One turn of the loop over the reminders; [today] is
    [datetime.now().date()]. *)
Definition add_event (today : Date) (plan_id : UUID) (events : list Event)
    (reminder : Reminder.t) : list Event :=
  if negb (Reminder.is_enabled reminder) then events
  else
    events ++
    [ {| ev_dtstart := (today, Reminder.reminder_time reminder);
         ev_rrule := rrule_of reminder;
         ev_uid := str_uuid plan_id +:+ "-" +:+ str_uuid (Reminder.id reminder)
                   +:+ "@fitness-plan" |} ].

(** The events of the calendar that is returned. *)
Definition export_plan_calendar (today : Date) (db : DB) (current_user plan_id : UUID)
    : Py.Result (list Event) :=
  plan ← PlanService.get_plan_by_id db current_user plan_id;
  reminders ← ReminderService.get_plan_reminders db current_user plan_id;
  Py.Ok (fold_left (add_event today plan_id) reminders []).

End PlansRoutes.

(** The event the export writes for a reminder. *)
Definition calendar_event (today : Date) (plan_id : UUID) (reminder : Reminder.t)
    : PlansRoutes.Event :=
  {| PlansRoutes.ev_dtstart := (today, Reminder.reminder_time reminder);
     PlansRoutes.ev_rrule := PlansRoutes.rrule_of reminder;
     PlansRoutes.ev_uid := str_uuid plan_id +:+ "-" +:+ str_uuid (Reminder.id reminder)
                           +:+ "@fitness-plan" |}.

(** A weekly reminder for which no days were chosen. *)
Definition reminder61 : Reminder.t :=
  {| Reminder.id := 61; Reminder.plan_id := 10; Reminder.reminder_time := half_past_seven;
     Reminder.frequency := WEEKLY; Reminder.days_of_week := None;
     Reminder.is_enabled := true |}.


(** ** What a commit accepts *)

(** The rows of an execution payload that the engine accepts: the
    recorded amounts fit the [Integer] columns and, where foreign keys
    are enforced, every row names a stored exercise. *)
Definition execution_rows_accepted (db : DB) (items : list ExerciseExecutionCreate)
    : Prop :=
  Forall (λ x,
            Engine.optional_integer_fits (dialect db) (xc_actual_duration_minutes x)
            ∧ Engine.optional_integer_fits (dialect db) (xc_actual_repetitions x)
            ∧ (Engine.foreign_keys (dialect db) →
               xc_exercise_id x ∈ Exercise.id <$> exercises db))
         items.

(** The integers of an exercise payload fit the [Integer] columns. *)
Definition exercise_fits (dialect : Dialect) (x : ExerciseCreate) : Prop :=
  Engine.optional_integer_fits dialect (ec_duration_minutes x)
  ∧ Engine.optional_integer_fits dialect (ec_repetitions x)
  ∧ Engine.integer_fits dialect (ec_order_index x).

(** No exercise execution refers to the exercise. *)
Definition unreferenced (db : DB) (exercise : Exercise.t) : Prop :=
  Exercise.id exercise ∉ ExerciseExecution.exercise_id <$> exercise_executions db.

(** The example store under SQLite. *)
Definition db_lite : DB :=
  {| dialect := SQLite;
     users := users db_demo;
     fitness_plans := fitness_plans db_demo;
     exercises := exercises db_demo;
     reminders := reminders db_demo;
     plan_members := plan_members db_demo;
     plan_executions := plan_executions db_demo;
     exercise_executions := exercise_executions db_demo;
     next_uuid := next_uuid db_demo |}.

(** Payloads that the schemas accept and the [Integer] columns do not
    hold: a run of 2^63 minutes, logged and planned. *)
Definition log_overflow : PlanExecutionCreate :=
  {| pc_plan_id := 10; pc_execution_date := 8; pc_notes := None;
     pc_exercise_executions :=
       [ {| xc_exercise_id := 20; xc_completed := true;
            xc_actual_duration_minutes := Some (2 ^ 63); xc_actual_repetitions := None;
            xc_notes := None |} ] |}.

Definition exercise_overflow : ExerciseCreate :=
  {| ec_name := "Run"; ec_duration_minutes := Some (2 ^ 63); ec_repetitions := None;
     ec_intensity := MEDIUM; ec_order_index := 0 |}.

(** A payload that logs an exercise that is not stored. *)
Definition log_unknown_exercise : PlanExecutionCreate :=
  {| pc_plan_id := 10; pc_execution_date := 8; pc_notes := None;
     pc_exercise_executions :=
       [ {| xc_exercise_id := 29; xc_completed := true;
            xc_actual_duration_minutes := Some 25; xc_actual_repetitions := None;
            xc_notes := None |} ] |}.

(** A plan name of 42 characters in 126 bytes: 42 times the character
    U+6668, whose UTF-8 bytes are E6 99 A8. *)
Definition name42 : string :=
  String.concat ""
    (replicate 42 (String "230"%char (String "153"%char (String "168"%char "")))).

(** ** The completion calculator *)

Section Calculator.
Variable exercises : list Exercise.t.

Lemma rate_step_appends rates c x :
  PlanExecutionService.rate_step exercises (rates, c) x
  = (rates ++ [exercise_rate exercises x],
     if ExerciseExecution.completed x then c + 1 else c).
Proof.
  unfold exercise_rate, PlanExecutionService.rate_step.
  destruct (ExerciseExecution.completed x); simpl; [|done].
  destruct (Py.next_or_none _ _); [|done].
  repeat (match goal with |- context [if ?b then _ else _] => destruct b end);
    done.
Qed.

Lemma exercise_rate_step_appends rates x :
  PlanMemberService.exercise_rate_step exercises rates x
  = rates ++ [exercise_rate exercises x].
Proof.
  unfold exercise_rate, PlanMemberService.exercise_rate_step,
    PlanExecutionService.rate_step.
  destruct (ExerciseExecution.completed x); simpl; [|done].
  destruct (Py.next_or_none _ _); [|done].
  repeat (match goal with |- context [if ?b then _ else _] => destruct b end);
    done.
Qed.
End Calculator.

Section Means.
Local Open Scope Qc_scope.

Lemma Qc_of_Z_0 : Qc_of_Z 0 = 0.
Proof. by apply Qc_is_canon. Qed.

Lemma fold_left_Qcplus (l : list Qc) (a : Qc) :
  fold_left Qcplus l a = a + foldr Qcplus (Qc_of_Z 0) l.
Proof.
  revert a. induction l as [|x l IH]; intros a; simpl.
  - rewrite Qc_of_Z_0. ring.
  - rewrite IH. ring.
Qed.

Lemma Py_sum_foldr (l : list Qc) : Py.sum l = foldr Qcplus (Qc_of_Z 0) l.
Proof.
  unfold Py.sum. rewrite fold_left_Qcplus, Qc_of_Z_0. ring.
Qed.

(** [sum(l) / len(l) if l else 0] is the arithmetic mean. *)
Lemma sum_len_mean (l : list Qc) :
  match l with
  | [] => Qc_of_Z 0
  | _ => Py.sum l / Py.len l
  end = arithmetic_mean l.
Proof.
  destruct l as [|x l]; [done|].
  unfold arithmetic_mean, Py.len. by rewrite Py_sum_foldr.
Qed.
End Means.

Section Overall.
Variable exercises : list Exercise.t.

Lemma fold_rate_step xs : ∀ rates c,
  (fold_left (PlanExecutionService.rate_step exercises) xs (rates, c)).1
  = rates ++ (exercise_rate exercises <$> xs).
Proof.
  induction xs as [|x xs IH]; intros rates c; cbn [fold_left fmap list_fmap].
  - by rewrite app_nil_r.
  - rewrite rate_step_appends, IH, <- app_assoc. done.
Qed.

Lemma fold_exercise_rate_step xs : ∀ rates,
  fold_left (PlanMemberService.exercise_rate_step exercises) xs rates
  = rates ++ (exercise_rate exercises <$> xs).
Proof.
  induction xs as [|x xs IH]; intros rates; cbn [fold_left fmap list_fmap].
  - by rewrite app_nil_r.
  - rewrite exercise_rate_step_appends, IH, <- app_assoc. done.
Qed.

Lemma completion_rate_mean (xs : list ExerciseExecution.t) :
  PlanExecutionService.completion_rate exercises xs
  = arithmetic_mean (exercise_rate exercises <$> xs).
Proof.
  unfold PlanExecutionService.completion_rate,
    PlanExecutionService.exercise_completion_rates.
  rewrite fold_rate_step. simpl. apply sum_len_mean.
Qed.

(** C4. The overall completion rate that [get_plan_executions] computes
    for an execution is the arithmetic mean of the completion rates of
    its exercise executions, and it is 0 for an execution without
    exercise executions. The summary shows it rounded to one decimal. *)
Theorem overall_rate_is_mean (xs : list ExerciseExecution.t) :
  PlanExecutionService.completion_rate exercises xs
  = arithmetic_mean (exercise_rate exercises <$> xs)
  ∧ PlanExecutionService.completion_rate exercises [] = Qc_of_Z 0.
Proof. split; [apply completion_rate_mean | done]. Qed.
End Overall.

(** The summary of an execution shows its overall rate rounded. *)
Lemma summary_completion_rate db (x : PlanExecution.t) (s : PlanExecutionSummary) :
  PlanExecutionService.summary db x = Py.Ok s →
  ∃ plan,
    plan_of db (PlanExecution.plan_id x) = Some plan
    ∧ ps_completion_rate s
      = Py.round1 (arithmetic_mean
                     (exercise_rate (plan_exercises db (FitnessPlan.id plan))
                        <$> execution_exercise_executions db (PlanExecution.id x))).
Proof.
  unfold PlanExecutionService.summary.
  destruct (plan_of db (PlanExecution.plan_id x)) as [plan|]; [|done].
  intros [= <-]. exists plan. split; [done|]. simpl.
  by rewrite completion_rate_mean.
Qed.

Section PerExercise.
Variable exercises : list Exercise.t.
Local Open Scope Qc_scope.

(** [Py.min] is the smaller of its two arguments. *)
Lemma Py_min_spec (x y : Qc) :
  (x ≤ y → Py.min x y = x) ∧ (y ≤ x → Py.min x y = y).
Proof.
  unfold Py.min, Py.Qcle_bool.
  destruct (Qle_bool x y) eqn:E.
  - apply Qle_bool_iff in E. split; [done|].
    intros H. by apply Qcle_antisym.
  - split; [|done]. intros H. apply Qle_bool_iff in H. congruence.
Qed.

Lemma Py_min_le_r (x y : Qc) : Py.min x y ≤ y.
Proof.
  unfold Py.min, Py.Qcle_bool.
  destruct (Qle_bool x y) eqn:E; [by apply Qle_bool_iff in E | apply Qcle_refl].
Qed.

Lemma truthy_pos (n : Z) : (0 < n)%Z → Py.truthy (Some n) = true.
Proof. intros H. unfold Py.truthy. destruct (Z.eqb_spec n 0); [lia | done]. Qed.

(** A plan whose exercises have distinct ids: the exercise with the
    id the execution refers to is the planned one. *)
Lemma planned_unique (x : ExerciseExecution.t) (e : Exercise.t) :
  NoDup (Exercise.id <$> exercises) →
  e ∈ exercises →
  Exercise.id e = ExerciseExecution.exercise_id x →
  planned exercises x e.
Proof.
  unfold planned, Py.next_or_none.
  induction exercises as [|e' l IH]; intros Hnd Hin Hid.
  - by apply elem_of_nil in Hin.
  - rewrite fmap_cons in Hnd. apply NoDup_cons in Hnd as [Hnotin Hnd].
    rewrite filter_cons. apply elem_of_cons in Hin as [->|Hin].
    + by rewrite decide_True.
    + rewrite decide_False; [by apply IH|].
      intros Heq. apply Hnotin. rewrite Heq, <- Hid.
      by apply list_elem_of_fmap_2.
Qed.

Lemma not_planned (x : ExerciseExecution.t) :
  (∀ e, e ∈ exercises → Exercise.id e ≠ ExerciseExecution.exercise_id x) →
  Py.next_or_none (λ e, Exercise.id e = ExerciseExecution.exercise_id x) exercises = None.
Proof.
  intros H. unfold Py.next_or_none.
  induction exercises as [|e l IH]; [done|].
  rewrite filter_cons, decide_False.
  - apply IH. intros e' He'. apply H. by right.
  - apply H. by left.
Qed.

(** C5. A completed exercise execution whose planned exercise has a
    duration and that recorded an actual duration has the rate
    min(actual / planned * 100, 100); one whose planned exercise has
    repetitions and that recorded actual repetitions, when the duration
    case does not apply, has min(actual / planned * 100, 100) on the
    repetitions; with no actual metric recorded, or with the exercise no
    longer in the plan, the rate is 100. Planned 30 minutes with 45
    actual minutes is 100. Recorded and planned values are positive, as
    the schemas and the table constraints require. *)
Theorem completed_exercise_rate (x : ExerciseExecution.t) :
  ExerciseExecution.completed x = true →
  (∀ e d a,
      planned exercises x e →
      Exercise.duration_minutes e = Some d → (0 < d)%Z →
      ExerciseExecution.actual_duration_minutes x = Some a → (0 < a)%Z →
      exercise_rate exercises x = Py.min (percent a d) (Qc_of_Z 100)
      ∧ exercise_rate exercises x ≤ Qc_of_Z 100
      ∧ (d = 30%Z → a = 45%Z → exercise_rate exercises x = Qc_of_Z 100))
  ∧ (∀ e r a,
      planned exercises x e →
      Exercise.repetitions e = Some r → (0 < r)%Z →
      ExerciseExecution.actual_repetitions x = Some a → (0 < a)%Z →
      Exercise.duration_minutes e = None
      ∨ ExerciseExecution.actual_duration_minutes x = None →
      exercise_rate exercises x = Py.min (percent a r) (Qc_of_Z 100)
      ∧ exercise_rate exercises x ≤ Qc_of_Z 100)
  ∧ (ExerciseExecution.actual_duration_minutes x = None →
     ExerciseExecution.actual_repetitions x = None →
     exercise_rate exercises x = Qc_of_Z 100)
  ∧ ((∀ e, e ∈ exercises → Exercise.id e ≠ ExerciseExecution.exercise_id x) →
     exercise_rate exercises x = Qc_of_Z 100).
Proof.
  intros Hc. unfold exercise_rate, PlanExecutionService.rate_step, planned.
  rewrite Hc. cbn [negb].
  split; [|split; [|split]].
  - intros e d a -> Hd Hdpos Ha Hapos.
    rewrite Hd, Ha, !truthy_pos by done.
    split; [done|]. split; [apply Py_min_le_r|].
    intros -> ->. by apply Qc_is_canon.
  - intros e r a -> Hr Hrpos Ha Hapos Hnodur.
    rewrite Hr, Ha, !truthy_pos by done.
    assert (Py.truthy (Exercise.duration_minutes e)
            && Py.truthy (ExerciseExecution.actual_duration_minutes x) = false) as ->.
    { destruct Hnodur as [-> | ->]; [done | apply andb_false_r]. }
    split; [done | apply Py_min_le_r].
  - intros -> ->. destruct (Py.next_or_none _ _); [|done].
    simpl. by rewrite !andb_false_r.
  - intros Hnone. by rewrite not_planned.
Qed.

(** C6. An exercise execution that is not completed has the rate 0,
    whatever its actual duration and repetitions: both in
    [get_plan_executions] and in [get_plan_leaderboard] the loop appends
    0 for it. *)
Theorem not_completed_rate_zero (x : ExerciseExecution.t) :
  ExerciseExecution.completed x = false →
  exercise_rate exercises x = Qc_of_Z 0
  ∧ (∀ rates c,
       PlanExecutionService.rate_step exercises (rates, c) x
       = (rates ++ [Qc_of_Z 0], c))
  ∧ (∀ rates,
       PlanMemberService.exercise_rate_step exercises rates x
       = rates ++ [Qc_of_Z 0]).
Proof.
  intros Hc.
  unfold exercise_rate, PlanExecutionService.rate_step,
    PlanMemberService.exercise_rate_step.
  rewrite Hc. done.
Qed.
End PerExercise.

(** ** [sorted(..., reverse=True)] *)

Section SortedDesc.
Context {A K : Type} (gt : K → K → bool) (key : A → K).

Hypothesis gt_asym : ∀ a b, gt a b = true → gt b a = false.
Hypothesis not_gt_trans : ∀ a b c, gt b a = false → gt c b = false → gt c a = false.

Local Abbreviation not_below := (not_below gt key).

Lemma insert_desc_perm x l : Py.insert_desc gt key x l ≡ₚ x :: l.
Proof.
  induction l as [|y l IH]; simpl; [done|].
  destruct (gt (key y) (key x)); [|done].
  rewrite IH. apply Permutation_swap.
Qed.

Lemma sorted_desc_perm l : Py.sorted_desc gt key l ≡ₚ l.
Proof.
  induction l as [|x l IH]; simpl; [done|].
  by rewrite insert_desc_perm, IH.
Qed.

Lemma sorted_desc_length l : length (Py.sorted_desc gt key l) = length l.
Proof. by rewrite sorted_desc_perm. Qed.

Lemma insert_desc_sorted x l :
  StronglySorted not_below l → StronglySorted not_below (Py.insert_desc gt key x l).
Proof.
  induction 1 as [|y l Hl IH Hy]; simpl.
  - repeat constructor.
  - destruct (gt (key y) (key x)) eqn:E.
    + constructor; [done|].
      rewrite insert_desc_perm. constructor; [|done].
      by apply gt_asym.
    + constructor; [by constructor|].
      constructor; [done|].
      eapply Forall_impl; [exact Hy|].
      intros z Hz. unfold not_below in *. by eapply not_gt_trans.
Qed.

Lemma sorted_desc_sorted l : StronglySorted not_below (Py.sorted_desc gt key l).
Proof.
  induction l as [|x l IH]; simpl; [constructor|by apply insert_desc_sorted].
Qed.
End SortedDesc.

Lemma Qcgt_bool_false (x y : Qc) : Py.Qcgt_bool x y = false ↔ (x ≤ y)%Qc.
Proof.
  unfold Py.Qcgt_bool, Py.Qcle_bool. rewrite negb_false_iff. apply Qle_bool_iff.
Qed.

Lemma Qcgt_bool_asym (a b : Qc) : Py.Qcgt_bool a b = true → Py.Qcgt_bool b a = false.
Proof.
  intros H. apply Qcgt_bool_false.
  destruct (Py.Qcgt_bool b a) eqn:E; [|by apply Qcgt_bool_false in E].
  apply Qclt_le_weak, Qcnot_le_lt. intros Hle.
  apply Qcgt_bool_false in Hle. congruence.
Qed.

Lemma Qcgt_bool_trans (a b c : Qc) :
  Py.Qcgt_bool b a = false → Py.Qcgt_bool c b = false → Py.Qcgt_bool c a = false.
Proof.
  rewrite !Qcgt_bool_false. intros H1 H2. by eapply Qcle_trans.
Qed.

Lemma Zgtb_asym (a b : Z) : (a >? b) = true → (b >? a) = false.
Proof. lia. Qed.

Lemma Zgtb_trans (a b c : Z) : (b >? a) = false → (c >? b) = false → (c >? a) = false.
Proof. lia. Qed.

(** ** Ranking through shared references *)

Section Assign.
Import PlanMemberService.
Variable upd : LeaderboardEntry → nat → LeaderboardEntry.

Lemma enumerate_cons {A} (start : nat) (x : A) (l : list A) :
  Py.enumerate start (x :: l) = (start, x) :: Py.enumerate (S start) l.
Proof.
  unfold Py.enumerate. rewrite imap_cons. f_equal; [f_equal; lia|].
  apply imap_ext. intros i y _. simpl. f_equal. lia.
Qed.

Lemma assign_length refs : ∀ heap start,
  length (fold_left (assign upd) (Py.enumerate start refs) heap) = length heap.
Proof.
  induction refs as [|a refs IH]; intros heap start; [done|].
  rewrite enumerate_cons. cbn [fold_left]. rewrite IH.
  unfold assign. apply length_insert.
Qed.

(** An entry no reference of the loop points to is not written. *)
Lemma assign_other refs : ∀ heap start a,
  a ∉ refs →
  fold_left (assign upd) (Py.enumerate start refs) heap !!! a = heap !!! a.
Proof.
  induction refs as [|a0 refs IH]; intros heap start a Hnotin; [done|].
  rewrite enumerate_cons. cbn [fold_left]. apply not_elem_of_cons in Hnotin as [Hne Hnotin].
  rewrite IH by done. unfold assign. simpl.
  by apply list_lookup_total_insert_ne.
Qed.

(** The entry behind the [i]-th reference gets the number [start + i]. *)
Lemma assign_at refs : ∀ heap start i a,
  NoDup refs →
  (∀ a, a ∈ refs → a < length heap)%nat →
  refs !! i = Some a →
  fold_left (assign upd) (Py.enumerate start refs) heap !!! a
  = upd (heap !!! a) (start + i)%nat.
Proof.
  induction refs as [|a0 refs IH]; intros heap start i a Hnd Hlt Hi; [done|].
  rewrite enumerate_cons. cbn [fold_left].
  apply NoDup_cons in Hnd as [Hnotin Hnd].
  destruct i as [|i]; simpl in Hi.
  - injection Hi as ->. rewrite assign_other by done.
    unfold assign. simpl. rewrite Nat.add_0_r.
    apply list_lookup_total_insert_eq. apply Hlt. by left.
  - assert (a ≠ a0) as Hne.
    { intros ->. apply Hnotin. by eapply list_elem_of_lookup_2. }
    rewrite (IH _ _ i a); [| done | | done].
    + unfold assign. simpl.
      rewrite list_lookup_total_insert_ne by done. f_equal. lia.
    + intros b Hb. unfold assign. rewrite length_insert. apply Hlt. by right.
Qed.
End Assign.

Lemma fold_left_pointwise {A B} (f g : A → B → A) (l : list B) :
  (∀ a b, f a b = g a b) → ∀ a, fold_left f l a = fold_left g l a.
Proof.
  intros Hfg. induction l as [|b l IH]; intros a; simpl; [done|].
  by rewrite Hfg, IH.
Qed.

Lemma set_completion_rate_rank_assign l heap :
  fold_left PlanMemberService.set_completion_rate_rank l heap
  = fold_left (assign with_completion_rate_rank) l heap.
Proof. apply fold_left_pointwise. by intros h [i a]. Qed.

Lemma set_execution_count_rank_assign l heap :
  fold_left PlanMemberService.set_execution_count_rank l heap
  = fold_left (assign with_execution_count_rank) l heap.
Proof. apply fold_left_pointwise. by intros h [i a]. Qed.

Section AssignPreserves.
Variable upd : LeaderboardEntry → nat → LeaderboardEntry.
Context {X : Type} (field : LeaderboardEntry → X).
Hypothesis upd_field : ∀ e i, field (upd e i) = field e.

(** A loop that writes another field leaves [field] of every entry. *)
Lemma assign_preserves refs : ∀ heap start a,
  field (fold_left (assign upd) (Py.enumerate start refs) heap !!! a)
  = field (heap !!! a).
Proof.
  induction refs as [|a0 refs IH]; intros heap start a; [done|].
  rewrite enumerate_cons. cbn [fold_left]. rewrite IH.
  unfold assign. simpl.
  destruct (decide (a = a0)) as [->|Hne].
  - destruct (decide (a0 < length heap)%nat) as [Hlt|Hge].
    + by rewrite list_lookup_total_insert_eq.
    + by rewrite list_insert_ge by lia.
  - by rewrite list_lookup_total_insert_ne.
Qed.
End AssignPreserves.

Lemma StronglySorted_lookup {A} (R : relation A) (l : list A) (i j : nat) (x y : A) :
  StronglySorted R l → l !! i = Some x → l !! j = Some y → (i < j)%nat → R x y.
Proof.
  intros Hs. revert i j.
  induction Hs as [|z l Hs IH Hz]; intros i j Hi Hj Hlt; [done|].
  destruct j as [|j]; [lia|]. simpl in Hj.
  destruct i as [|i]; simpl in Hi.
  - injection Hi as ->. eapply Forall_forall; [exact Hz|].
    by eapply list_elem_of_lookup_2.
  - eapply (IH i j); [done | done | lia].
Qed.

Section Rank.
Import PlanMemberService.
Variables (heap : list LeaderboardEntry) (leaderboard : list nat).
Hypothesis refs_nodup : NoDup leaderboard.
Hypothesis refs_bound : ∀ a, a ∈ leaderboard → (a < length heap)%nat.

Let rate_key (a : nat) : Qc := avg_completion_rate (heap !!! a).
Let by_rate : list nat := Py.sorted_desc Py.Qcgt_bool rate_key leaderboard.
Let heap1 : list LeaderboardEntry :=
  fold_left (assign with_completion_rate_rank) (Py.enumerate 1 by_rate) heap.
Let count_key (a : nat) : Z := total_executions (heap1 !!! a).
Let by_count : list nat := Py.sorted_desc Z.gtb count_key leaderboard.
Let heap2 : list LeaderboardEntry :=
  fold_left (assign with_execution_count_rank) (Py.enumerate 1 by_count) heap1.

Lemma rank_unfold : rank heap leaderboard = (λ a, heap2 !!! a) <$> by_rate.
Proof.
  unfold rank. rewrite set_completion_rate_rank_assign.
  by rewrite set_execution_count_rank_assign.
Qed.

Lemma by_rate_perm : by_rate ≡ₚ leaderboard.
Proof. apply sorted_desc_perm. Qed.

Lemma by_count_perm : by_count ≡ₚ leaderboard.
Proof. apply sorted_desc_perm. Qed.

Lemma heap1_length : length heap1 = length heap.
Proof. apply assign_length. Qed.

(** What the returned list holds behind a reference: the entry as it
    was built, with its place in each of the two sorted lists. *)
Lemma rank_entry i j a :
  by_rate !! i = Some a → by_count !! j = Some a →
  heap2 !!! a
  = with_execution_count_rank
      (with_completion_rate_rank (heap !!! a) (1 + i)) (1 + j).
Proof.
  intros Hi Hj. unfold heap2.
  rewrite (assign_at _ by_count heap1 1 j a); [| | | done].
  - f_equal. unfold heap1. apply assign_at; [| | done].
    + by rewrite by_rate_perm.
    + intros b Hb. apply refs_bound. by rewrite <- by_rate_perm.
  - by rewrite by_count_perm.
  - intros b Hb. rewrite heap1_length. apply refs_bound. by rewrite <- by_count_perm.
Qed.

Lemma by_count_index a : a ∈ by_rate → ∃ j, by_count !! j = Some a.
Proof.
  intros Ha. apply list_elem_of_lookup_1.
  by rewrite by_count_perm, <- by_rate_perm.
Qed.

Lemma by_rate_index a : a ∈ by_count → ∃ i, by_rate !! i = Some a.
Proof.
  intros Ha. apply list_elem_of_lookup_1.
  by rewrite by_rate_perm, <- by_count_perm.
Qed.

Lemma rank_length : length (rank heap leaderboard) = length leaderboard.
Proof. rewrite rank_unfold, length_fmap. apply sorted_desc_length. Qed.

(** In the returned order the completion-rate ranks are 1, 2, ..., N. *)
Lemma rank_completion_rate_ranks :
  completion_rate_rank <$> rank heap leaderboard = seq 1 (length leaderboard).
Proof.
  rewrite rank_unfold. apply list_eq. intros i.
  rewrite !list_lookup_fmap.
  destruct (by_rate !! i) as [a|] eqn:Hi; simpl.
  - destruct (by_count_index a) as [j Hj]; [by eapply list_elem_of_lookup_2|].
    rewrite (rank_entry i j a) by done. simpl.
    symmetry. apply lookup_seq_lt.
    apply lookup_lt_Some in Hi. unfold by_rate in Hi.
    by rewrite sorted_desc_length in Hi.
  - symmetry. apply lookup_seq_ge.
    apply lookup_ge_None in Hi. unfold by_rate in Hi.
    by rewrite sorted_desc_length in Hi.
Qed.

(** The execution-count ranks are 1, 2, ..., N in the other order. *)
Lemma rank_execution_count_ranks :
  execution_count_rank <$> rank heap leaderboard ≡ₚ seq 1 (length leaderboard).
Proof.
  rewrite rank_unfold.
  trans (execution_count_rank <$> ((λ a, heap2 !!! a) <$> by_count)).
  { by rewrite by_rate_perm, by_count_perm. }
  match goal with |- ?l ≡ₚ _ => assert (l = seq 1 (length leaderboard)) as -> end;
    [|done].
  apply list_eq. intros j. rewrite !list_lookup_fmap.
  destruct (by_count !! j) as [a|] eqn:Hj; simpl.
  - destruct (by_rate_index a) as [i Hi]; [by eapply list_elem_of_lookup_2|].
    rewrite (rank_entry i j a) by done. simpl.
    symmetry. apply lookup_seq_lt.
    apply lookup_lt_Some in Hj. unfold by_count in Hj.
    by rewrite sorted_desc_length in Hj.
  - symmetry. apply lookup_seq_ge.
    apply lookup_ge_None in Hj. unfold by_count in Hj.
    by rewrite sorted_desc_length in Hj.
Qed.

(** The ranking loops change the ranks only. *)
Lemma rank_field {X} (field : LeaderboardEntry → X) (a : nat) :
  (∀ e i, field (with_completion_rate_rank e i) = field e) →
  (∀ e i, field (with_execution_count_rank e i) = field e) →
  field (heap2 !!! a) = field (heap !!! a).
Proof.
  intros H1 H2. unfold heap2, heap1.
  rewrite (assign_preserves _ field H2). apply (assign_preserves _ field H1).
Qed.

Lemma rank_elem entry :
  entry ∈ rank heap leaderboard →
  ∃ a, a ∈ leaderboard ∧ entry = heap2 !!! a.
Proof.
  rewrite rank_unfold. intros (a & -> & Ha)%list_elem_of_fmap.
  exists a. split; [by rewrite <- by_rate_perm | done].
Qed.

(** The returned list is in decreasing order of average completion rate. *)
Lemma rank_sorted :
  StronglySorted (λ e1 e2, (avg_completion_rate e2 ≤ avg_completion_rate e1)%Qc)
                 (rank heap leaderboard).
Proof.
  rewrite rank_unfold.
  apply (StronglySorted_fmap _ (not_below Py.Qcgt_bool rate_key)).
  - intros a b Hab. rewrite !(rank_field avg_completion_rate) by done.
    by apply Qcgt_bool_false.
  - apply sorted_desc_sorted; [apply Qcgt_bool_asym | apply Qcgt_bool_trans].
Qed.

(** A smaller completion-rate rank goes with a rate that is not smaller. *)
Lemma rank_completion_rate_order e1 e2 :
  e1 ∈ rank heap leaderboard → e2 ∈ rank heap leaderboard →
  (completion_rate_rank e1 < completion_rate_rank e2)%nat →
  (avg_completion_rate e2 ≤ avg_completion_rate e1)%Qc.
Proof.
  intros [i1 H1]%list_elem_of_lookup_1 [i2 H2]%list_elem_of_lookup_1 Hlt.
  pose proof rank_completion_rate_ranks as Hr.
  assert (completion_rate_rank e1 = 1 + i1)%nat as E1.
  { pose proof (f_equal (λ l, l !! i1) Hr) as E. simpl in E.
    rewrite list_lookup_fmap, H1 in E. simpl in E. symmetry in E.
    apply lookup_seq in E. lia. }
  assert (completion_rate_rank e2 = 1 + i2)%nat as E2.
  { pose proof (f_equal (λ l, l !! i2) Hr) as E. simpl in E.
    rewrite list_lookup_fmap, H2 in E. simpl in E. symmetry in E.
    apply lookup_seq in E. lia. }
  apply (StronglySorted_lookup
           (λ e1 e2, (avg_completion_rate e2 ≤ avg_completion_rate e1)%Qc)
           (rank heap leaderboard) i1 i2);
    [apply rank_sorted | done | done | lia].
Qed.

(** A smaller execution-count rank goes with a count that is not smaller. *)
Lemma rank_execution_count_order e1 e2 :
  e1 ∈ rank heap leaderboard → e2 ∈ rank heap leaderboard →
  (execution_count_rank e1 < execution_count_rank e2)%nat →
  total_executions e2 ≤ total_executions e1.
Proof.
  rewrite rank_unfold.
  intros (a1 & -> & Ha1)%list_elem_of_fmap (a2 & -> & Ha2)%list_elem_of_fmap.
  destruct (list_elem_of_lookup_1 _ _ Ha1) as [i1 Hi1].
  destruct (list_elem_of_lookup_1 _ _ Ha2) as [i2 Hi2].
  destruct (by_count_index a1 Ha1) as [j1 Hj1].
  destruct (by_count_index a2 Ha2) as [j2 Hj2].
  rewrite (rank_entry i1 j1 a1), (rank_entry i2 j2 a2) by done. simpl.
  intros Hlt.
  assert (not_below Z.gtb count_key a1 a2) as Hnb.
  { apply (StronglySorted_lookup (not_below Z.gtb count_key) by_count j1 j2);
      [| done | done | lia].
    apply sorted_desc_sorted; [apply Zgtb_asym | apply Zgtb_trans]. }
  unfold not_below, count_key, heap1 in Hnb.
  rewrite !(assign_preserves _ total_executions) in Hnb by done. lia.
Qed.

(** Every returned entry is one of the entries that were built, with
    its fields other than the ranks as they were. *)
Lemma rank_elem_built entry :
  entry ∈ rank heap leaderboard →
  ∃ a, a ∈ leaderboard
       ∧ user_id entry = user_id (heap !!! a)
       ∧ total_executions entry = total_executions (heap !!! a)
       ∧ avg_completion_rate entry = avg_completion_rate (heap !!! a)
       ∧ last_execution_date entry = last_execution_date (heap !!! a).
Proof.
  intros (a & Ha & ->)%rank_elem. exists a.
  by rewrite !rank_field.
Qed.

Lemma rank_user_ids :
  user_id <$> rank heap leaderboard ≡ₚ (λ a, user_id (heap !!! a)) <$> leaderboard.
Proof.
  rewrite rank_unfold, <- by_rate_perm, <- list_fmap_compose.
  match goal with |- ?l ≡ₚ ?k => assert (l = k) as ->; [|done] end.
  apply list_fmap_ext. intros i a _. simpl. by rewrite rank_field.
Qed.
End Rank.

(** ** The participants and the entries of the leaderboard *)

Section Participants.
Import PlanMemberService.

Lemma dict_set_keys d k v :
  (dict_set d k v).*1 = if decide (k ∈ d.*1) then d.*1 else d.*1 ++ [k].
Proof.
  induction d as [|[k' v'] d IH]; [done|].
  cbn [dict_set]. rewrite (fmap_cons fst _ d). cbn [fst].
  destruct (decide (k' = k)) as [->|Hne]; rewrite fmap_cons; cbn [fst].
  - rewrite decide_True; [done | by left].
  - rewrite IH. destruct (decide (k ∈ d.*1)) as [Hin|Hnotin].
    + rewrite decide_True; [done | by right].
    + rewrite decide_False; [done|].
      intros [?|?]%elem_of_cons; congruence.
Qed.

Lemma dict_set_elem d k v kv :
  kv ∈ dict_set d k v → kv = (k, v) ∨ kv ∈ d.
Proof.
  induction d as [|[k' v'] d IH]; simpl.
  - intros ->%list_elem_of_singleton. by left.
  - destruct (decide (k' = k)) as [->|Hne].
    + intros [->|Hin]%elem_of_cons; [by left | right; by right].
    + intros [->|Hin]%elem_of_cons; [right; by left|].
      destruct (IH Hin) as [->|Hd]; [by left | right; by right].
Qed.

Lemma add_member_err db members e :
  fold_left (add_member db) members (Py.Err e) = Py.Err e.
Proof. induction members as [|m members IH]; simpl; done. Qed.

(** The keys of [participants] are the owner and the members, each
    once, and the value at a key carries that key. *)
Lemma add_members_keys db members : ∀ d ps,
  fold_left (add_member db) members (Py.Ok d) = Py.Ok ps →
  NoDup d.*1 →
  (∀ kv, kv ∈ d → ui_user_id kv.2 = kv.1) →
  NoDup ps.*1
  ∧ (∀ k, k ∈ ps.*1 ↔ k ∈ d.*1 ∨ k ∈ PlanMember.user_id <$> members)
  ∧ (∀ kv, kv ∈ ps → ui_user_id kv.2 = kv.1).
Proof.
  induction members as [|m members IH]; intros d ps Hfold Hnd Hwf;
    cbn [fold_left] in Hfold.
  - injection Hfold as <-. split; [done|]. split; [|done].
    intros k. rewrite fmap_nil. split; [by left|]. by intros [?|?%elem_of_nil].
  - destruct (add_member db (Py.Ok d) m) as [d'|e] eqn:E;
      [|by rewrite add_member_err in Hfold].
    unfold add_member in E. simpl in E.
    destruct (user_of db (PlanMember.user_id m)) as [user|]; [|done].
    injection E as <-.
    apply IH in Hfold as (Hnd' & Hkeys & Hwf').
    + split; [done|]. split; [|done].
      intros k. rewrite Hkeys, dict_set_keys, fmap_cons, elem_of_cons.
      destruct (decide (PlanMember.user_id m ∈ d.*1)) as [Hin|Hnotin].
      * split; [tauto|]. intros [?|[->|?]]; tauto.
      * rewrite elem_of_app, list_elem_of_singleton. tauto.
    + rewrite dict_set_keys. destruct (decide _); [done|].
      apply NoDup_app. split; [done|]. split; [|apply NoDup_singleton].
      intros k Hk ->%list_elem_of_singleton. done.
    + intros kv [->|Hin]%dict_set_elem; [done | by apply Hwf].
Qed.

Lemma participants_keys db plan members ps :
  participants_of db plan members = Py.Ok ps →
  ps.*1 ≡ₚ remove_dups (FitnessPlan.user_id plan :: (PlanMember.user_id <$> members))
  ∧ (∀ kv, kv ∈ ps → ui_user_id kv.2 = kv.1).
Proof.
  unfold participants_of. destruct (user_of db _) as [owner|]; [|done].
  intros (Hnd & Hkeys & Hwf)%add_members_keys.
  - split; [|done]. apply NoDup_Permutation; [done | apply NoDup_remove_dups |].
    intros k. rewrite Hkeys, elem_of_remove_dups, elem_of_cons. simpl.
    rewrite list_elem_of_singleton. done.
  - simpl. apply NoDup_singleton.
  - simpl. by intros kv ->%list_elem_of_singleton.
Qed.

(** The loop over the participants allocates one entry for each. *)
Lemma append_entries db plan_id exercises ps : ∀ heap leaderboard,
  fold_left (append_entry db plan_id exercises) ps (heap, leaderboard)
  = (heap ++ ((λ item, entry_of db plan_id exercises item.2 item.1) <$> ps),
     leaderboard ++ seq (length heap) (length ps)).
Proof.
  induction ps as [|item ps IH]; intros heap leaderboard; simpl.
  - by rewrite !app_nil_r.
  - rewrite IH, length_app, <- !app_assoc. simpl.
    by rewrite Nat.add_1_r.
Qed.

Lemma entry_of_user_id db plan_id exercises info uid :
  user_id (entry_of db plan_id exercises info uid) = ui_user_id info.
Proof. unfold entry_of. by destruct (_ =? _). Qed.
End Participants.

Section Leaderboard.
Import PlanMemberService.

Lemma scalar_one_inv {A} (rows : list A) (r : A) :
  Py.scalar_one rows = Py.Ok r → rows = [r].
Proof. destruct rows as [|r' [|? ?]]; simpl; congruence. Qed.

Lemma scalar_one_or_none_inv {A} (rows : list A) (o : option A) :
  Py.scalar_one_or_none rows = Py.Ok o →
  match o with Some r => rows = [r] | None => rows = [] end.
Proof.
  destruct rows as [|r' [|? ?]]; simpl; intros H; simplify_eq; done.
Qed.

(** The entries that [get_plan_leaderboard] builds, before ranking. *)
Lemma get_plan_leaderboard_inv db plan_id lb :
  get_plan_leaderboard db plan_id = Py.Ok lb →
  ∃ plan ps,
    plan ∈ fitness_plans db
    ∧ FitnessPlan.id plan = plan_id
    ∧ participants_of db plan (get_plan_members db plan_id) = Py.Ok ps
    ∧ lb = rank ((λ item, entry_of db plan_id (plan_exercises db plan_id) item.2 item.1)
                   <$> ps)
                (seq 0 (length ps)).
Proof.
  unfold get_plan_leaderboard.
  destruct (Py.scalar_one _) as [plan|] eqn:Hplan; [|done].
  apply scalar_one_inv in Hplan.
  assert (plan ∈ filter (λ p, FitnessPlan.id p = plan_id) (fitness_plans db)) as Hin.
  { rewrite Hplan. by left. }
  apply list_elem_of_filter in Hin as [Hid Hin].
  cbn [mbind Result_bind Py.bind]. rewrite Hid.
  destruct (participants_of _ _ _) as [ps|] eqn:Hps; [|done].
  intros Hlb. exists plan, ps. repeat split; [done | done | done |].
  cbn [mbind Result_bind Py.bind] in Hlb.
  destruct ps as [|item ps]; [by injection Hlb as <-|].
  rewrite append_entries in Hlb. by injection Hlb as <-.
Qed.

Lemma built_heap_lookup {A} (f : LeaderboardEntry → A) (heap : list LeaderboardEntry) :
  (λ a, f (heap !!! a)) <$> seq 0 (length heap) = f <$> heap.
Proof.
  apply list_eq. intros i. rewrite !list_lookup_fmap.
  destruct (heap !! i) as [e|] eqn:Hi; simpl.
  - rewrite lookup_seq_lt by by eapply lookup_lt_Some. simpl.
    by rewrite (list_lookup_total_correct _ _ _ Hi).
  - rewrite lookup_seq_ge; [done|]. by apply lookup_ge_None.
Qed.

(** C8. A leaderboard of N entries, one for each participant (the
    owner and the members, each once): the completion-rate ranks are a
    permutation of 1..N, given in decreasing order of average completion
    rate; the execution-count ranks are a permutation of 1..N, given in
    decreasing order of total executions; and the list is returned in
    decreasing order of average completion rate. *)
Theorem leaderboard_ranks db plan_id lb :
  get_plan_leaderboard db plan_id = Py.Ok lb →
  completion_rate_rank <$> lb ≡ₚ seq 1 (length lb)
  ∧ execution_count_rank <$> lb ≡ₚ seq 1 (length lb)
  ∧ (∀ e1 e2, e1 ∈ lb → e2 ∈ lb →
       (completion_rate_rank e1 < completion_rate_rank e2)%nat →
       (avg_completion_rate e2 ≤ avg_completion_rate e1)%Qc)
  ∧ (∀ e1 e2, e1 ∈ lb → e2 ∈ lb →
       (execution_count_rank e1 < execution_count_rank e2)%nat →
       total_executions e2 ≤ total_executions e1)
  ∧ StronglySorted (λ e1 e2, (avg_completion_rate e2 ≤ avg_completion_rate e1)%Qc) lb
  ∧ ∃ plan, plan ∈ fitness_plans db ∧ FitnessPlan.id plan = plan_id
      ∧ user_id <$> lb
        ≡ₚ remove_dups (FitnessPlan.user_id plan
                        :: (PlanMember.user_id <$> get_plan_members db plan_id)).
Proof.
  intros (plan & ps & Hin & Hid & Hps & ->)%get_plan_leaderboard_inv.
  set (heap := (λ item, entry_of db plan_id (plan_exercises db plan_id) item.2 item.1)
                 <$> ps).
  assert (length heap = length ps) as Hlen by apply length_fmap.
  rewrite <- Hlen.
  assert (∀ a, a ∈ seq 0 (length heap) → (a < length heap)%nat) as Hb.
  { intros a Ha%elem_of_seq. lia. }
  pose proof (NoDup_seq 0 (length heap)) as Hnd.
  rewrite rank_length, length_seq.
  split; [by rewrite rank_completion_rate_ranks, length_seq|].
  split; [by rewrite rank_execution_count_ranks, length_seq|].
  split; [intros e1 e2; by apply rank_completion_rate_order|].
  split; [intros e1 e2; by apply rank_execution_count_order|].
  split; [apply rank_sorted|].
  exists plan. split; [done|]. split; [done|].
  rewrite rank_user_ids, built_heap_lookup.
  apply participants_keys in Hps as [Hkeys Hwf]. rewrite <- Hkeys.
  unfold heap. rewrite <- list_fmap_compose.
  match goal with |- ?l ≡ₚ ?k => assert (l = k) as ->; [|done] end.
  apply list_fmap_ext. intros i item Hitem. simpl.
  rewrite entry_of_user_id. apply Hwf. by eapply list_elem_of_lookup_2.
Qed.
End Leaderboard.

Section LeaderboardAverage.
Import PlanMemberService.
Variables (db : DB) (exercises : list Exercise.t).

Lemma round1_0 : Py.round1 (Qc_of_Z 0) = Qc_of_Z 0.
Proof. by apply Qc_is_canon. Qed.

(** One turn of the loop over the executions appends the overall rate
    of the execution, if the execution has exercise executions. *)
Lemma execution_step_appends completion_rates execution :
  execution_step db exercises completion_rates execution
  = completion_rates ++ (overall_rate db exercises <$> scored db [execution]).
Proof.
  unfold execution_step, scored. rewrite fold_exercise_rate_step, app_nil_l.
  rewrite filter_cons, filter_nil.
  destruct (execution_exercise_executions db (PlanExecution.id execution))
    as [|x xs] eqn:E.
  - rewrite decide_False by naive_solver. cbn [fmap list_fmap].
    by rewrite app_nil_r.
  - rewrite decide_True by done. cbn [fmap list_fmap].
    unfold overall_rate. rewrite E.
    rewrite (completion_rate_mean exercises (x :: xs)).
    by rewrite <- (sum_len_mean (exercise_rate exercises <$> x :: xs)).
Qed.

Lemma fold_execution_step executions : ∀ completion_rates,
  fold_left (execution_step db exercises) executions completion_rates
  = completion_rates ++ (overall_rate db exercises <$> scored db executions).
Proof.
  induction executions as [|x xs IH]; intros rates; cbn [fold_left].
  - by rewrite app_nil_r.
  - rewrite IH, execution_step_appends, <- app_assoc. f_equal.
    rewrite <- fmap_app. f_equal. unfold scored.
    by rewrite <- filter_app.
Qed.

Lemma avg_rate_is_mean executions :
  avg_rate db exercises executions
  = arithmetic_mean (overall_rate db exercises <$> scored db executions).
Proof.
  unfold avg_rate. rewrite fold_execution_step. simpl. apply sum_len_mean.
Qed.

(** Rounding to one decimal moves a number by at most a twentieth, so
    by less than a tenth. *)
Lemma round1_close (x : Qc) :
  (x - Qc_of_Z 1 / Qc_of_Z 20 ≤ Py.round1 x)%Qc
  ∧ (Py.round1 x ≤ x + Qc_of_Z 1 / Qc_of_Z 20)%Qc
  ∧ (x - Qc_of_Z 1 / Qc_of_Z 10 < Py.round1 x)%Qc
  ∧ (Py.round1 x < x + Qc_of_Z 1 / Qc_of_Z 10)%Qc.
Proof.
  unfold Py.round1.
  set (n := (Qnum x * 10)%Z). set (d := Z.pos (Qden x)).
  pose proof (Z.div_mod n d ltac:(done)) as Hdm.
  pose proof (Z.mod_pos_bound n d ltac:(done)) as Hr.
  set (q := (n / d)%Z) in *. set (r := (n mod d)%Z) in *.
  set (q' := match (2 * r ?= d)%Z with
             | Lt => q
             | Gt => (q + 1)%Z
             | Eq => if Z.even q then q else (q + 1)%Z
             end).
  assert (- d ≤ 2 * (q' * d - n) ≤ d)%Z as Hq'.
  { unfold q'. destruct (Z.compare_spec (2 * r) d), (Z.even q); nia. }
  clearbody q'. clear Hdm Hr q r.
  unfold Qcle, Qclt, Qcminus, Qcplus, Qcopp, Qcdiv, Qcmult, Qcinv, Q2Qc, Qc_of_Z;
    cbn [this].
  rewrite !Qred_correct.
  destruct x as [[a b] Hx]. cbn in n, d. subst n d.
  unfold Qle, Qlt, Qplus, Qmult, Qopp, Qinv, inject_Z; cbn.
  repeat split; nia.
Qed.

Lemma entry_of_avg plan_id info uid :
  avg_completion_rate (entry_of db plan_id exercises info uid)
  = Py.round1 (arithmetic_mean
                 (overall_rate db exercises <$> scored db (executions_of db plan_id uid))).
Proof.
  unfold entry_of.
  destruct (executions_of db plan_id uid) as [|x xs] eqn:E; simpl.
  - by rewrite round1_0.
  - by rewrite avg_rate_is_mean.
Qed.
End LeaderboardAverage.

(** C1, as the code has it. The average completion rate of a leaderboard
    entry is the arithmetic mean of the overall completion rates of those
    executions of the participant that have at least one exercise
    execution, up to the rounding to one decimal: it differs from that
    mean by less than a tenth. Executions without exercise executions are
    left out of the mean. A participant with no execution, or with none
    that has exercise executions, gets 0. (The entry is not stated to be
    the mean rounded on its exact value: the code rounds the binary
    float, which at 23 of 80 planned minutes gives 28.7 for the mean
    28.75.) *)
Theorem leaderboard_avg_completion_rate db plan_id lb entry :
  PlanMemberService.get_plan_leaderboard db plan_id = Py.Ok lb →
  entry ∈ lb →
  let executions := PlanMemberService.executions_of db plan_id (user_id entry) in
  let mean := mean_overall_rate db plan_id (scored db executions) in
  (mean - Qc_of_Z 1 / Qc_of_Z 10 < avg_completion_rate entry)%Qc
  ∧ (avg_completion_rate entry < mean + Qc_of_Z 1 / Qc_of_Z 10)%Qc
  ∧ (scored db executions = [] → avg_completion_rate entry = Qc_of_Z 0).
Proof.
  intros (plan & ps & Hin & Hid & Hps & ->)%get_plan_leaderboard_inv Hentry.
  apply rank_elem_built in Hentry as (a & Ha & Huid & _ & Havg & _).
  apply elem_of_seq in Ha.
  destruct (lookup_lt_is_Some_2 ps a) as [item Hitem]; [lia|].
  rewrite (list_lookup_total_correct _ a
             (PlanMemberService.entry_of db plan_id (plan_exercises db plan_id)
                item.2 item.1)) in Huid, Havg
    by (by rewrite list_lookup_fmap, Hitem).
  rewrite entry_of_user_id in Huid.
  apply participants_keys in Hps as [_ Hwf].
  rewrite (Hwf item) in Huid by by eapply list_elem_of_lookup_2.
  rewrite entry_of_avg, <- Huid in Havg.
  cbn zeta. rewrite Havg. fold (mean_overall_rate db plan_id).
  match goal with
  | |- context [Py.round1 ?x] => destruct (round1_close x) as (_ & _ & Hlo & Hhi)
  end.
  split; [exact Hlo|]. split; [exact Hhi|].
  intros E. unfold mean_overall_rate. rewrite E. apply round1_0.
Qed.

(** C1, as the specification states it, fails on [db_demo]. Alice has one
    execution at 100 and one without exercise executions: her entry shows
    100, and the mean with the empty execution counted as 0 is 50. (These
    rates are whole numbers, the same in the code's floats.) *)
Lemma leaderboard_avg_not_mean_of_all_executions :
  ∃ e1 e2,
    PlanMemberService.get_plan_leaderboard db_demo 10 = Py.Ok [e1; e2]
    ∧ user_id e1 = 1%nat
    ∧ length (PlanMemberService.executions_of db_demo 10 1) = 2%nat
    ∧ length (scored db_demo (PlanMemberService.executions_of db_demo 10 1)) = 1%nat
    ∧ avg_completion_rate e1 = Qc_of_Z 100
    ∧ mean_overall_rate db_demo 10 (PlanMemberService.executions_of db_demo 10 1)
      = Qc_of_Z 50
    ∧ avg_completion_rate e1
      ≠ mean_overall_rate db_demo 10 (PlanMemberService.executions_of db_demo 10 1).
Proof.
  eexists _, _. split; [vm_compute; reflexivity|].
  repeat split; try (by apply Qc_is_canon; vm_compute).
  intros H. apply (f_equal this) in H. vm_compute in H. discriminate.
Qed.

(** ** The theorems at the example data *)

Lemma completed_exercise_rate_witness :
  ExerciseExecution.completed overrun = true
  ∧ planned [run20; pushups21] overrun run20
  ∧ exercise_rate [run20; pushups21] overrun = Qc_of_Z 100.
Proof.
  split; [reflexivity|]. split; [reflexivity|].
  destruct (completed_exercise_rate [run20; pushups21] overrun eq_refl) as [H _].
  destruct (H run20 30 45 eq_refl eq_refl eq_refl eq_refl eq_refl) as (_ & _ & H3).
  exact (H3 eq_refl eq_refl).
Defined.

Lemma not_completed_rate_zero_witness :
  ExerciseExecution.completed skipped = false
  ∧ exercise_rate [run20; pushups21] skipped = Qc_of_Z 0.
Proof.
  split; [reflexivity|].
  exact (proj1 (not_completed_rate_zero [run20; pushups21] skipped eq_refl)).
Defined.

Lemma leaderboard_ranks_witness :
  ∃ lb,
    PlanMemberService.get_plan_leaderboard db_demo 10 = Py.Ok lb
    ∧ length lb = 2%nat
    ∧ completion_rate_rank <$> lb ≡ₚ seq 1 (length lb)
    ∧ execution_count_rank <$> lb ≡ₚ seq 1 (length lb).
Proof.
  eexists. split; [vm_compute; reflexivity|]. split; [reflexivity|].
  match goal with
  | |- context [completion_rate_rank <$> ?lb] =>
      pose proof (leaderboard_ranks db_demo 10 lb) as H
  end.
  destruct H as (H1 & H2 & _); [vm_compute; reflexivity|].
  exact (conj H1 H2).
Defined.

Lemma leaderboard_avg_completion_rate_witness :
  ∃ lb entry,
    PlanMemberService.get_plan_leaderboard db_demo 10 = Py.Ok lb
    ∧ entry ∈ lb
    ∧ user_id entry = 1%nat
    ∧ mean_overall_rate db_demo 10
        (scored db_demo (PlanMemberService.executions_of db_demo 10 1))
      = Qc_of_Z 100
    ∧ (Qc_of_Z 100 - Qc_of_Z 1 / Qc_of_Z 10 < avg_completion_rate entry)%Qc
    ∧ (avg_completion_rate entry < Qc_of_Z 100 + Qc_of_Z 1 / Qc_of_Z 10)%Qc.
Proof.
  assert (mean_overall_rate db_demo 10
            (scored db_demo (PlanMemberService.executions_of db_demo 10 1))
          = Qc_of_Z 100) as Hmean by (by apply Qc_is_canon; vm_compute).
  eexists _, _. split; [vm_compute; reflexivity|].
  match goal with
  | |- _ ∈ ?lb ∧ _ =>
      pose proof (λ e, leaderboard_avg_completion_rate db_demo 10 lb e) as H
  end.
  split; [by left|]. split; [reflexivity|]. split; [exact Hmean|].
  match goal with
  | |- (_ < avg_completion_rate ?e)%Qc ∧ _ => destruct (H e) as (Hlo & Hhi & _)
  end; [vm_compute; reflexivity | by left |].
  cbn zeta in Hlo, Hhi.
  change (user_id _) with 1%nat in Hlo, Hhi.
  rewrite Hmean in Hlo, Hhi. exact (conj Hlo Hhi).
Defined.

(** ** Access to a plan *)

Lemma filter_none {A} (P : A → Prop) `{∀ x, Decision (P x)} (l : list A) :
  (∀ x, x ∈ l → ¬ P x) → filter P l = [].
Proof.
  intros Hno. destruct (filter P l) as [|x k] eqn:E; [done|].
  assert (x ∈ filter P l) as Hx by (rewrite E; by left).
  apply list_elem_of_filter in Hx as [HP Hin]. by destruct (Hno x).
Qed.

(** A key that is unique in the table selects exactly its row. *)
Lemma filter_unique {A K} `{EqDecision K} (key : A → K) (l : list A) (x : A) :
  NoDup (key <$> l) → x ∈ l → filter (λ y, key y = key x) l = [x].
Proof.
  induction l as [|y l IH]; intros Hnd Hin; [by apply elem_of_nil in Hin|].
  rewrite fmap_cons in Hnd. apply NoDup_cons in Hnd as [Hnotin Hnd].
  rewrite filter_cons. apply elem_of_cons in Hin as [->|Hin].
  - rewrite decide_True by done. f_equal. apply filter_none.
    intros z Hz Heq. apply Hnotin. rewrite <- Heq. by apply list_elem_of_fmap_2.
  - rewrite decide_False; [by apply IH|].
    intros Heq. apply Hnotin. rewrite Heq. by apply list_elem_of_fmap_2.
Qed.

Lemma member_plan_ids_elem db user_id plan_id :
  plan_id ∈ member_plan_ids db user_id ↔ is_member db user_id plan_id.
Proof.
  unfold member_plan_ids, is_member. rewrite list_elem_of_fmap. split.
  - intros (m & -> & [Hu Hin]%list_elem_of_filter). by exists m.
  - intros (m & Hin & Hp & Hu). exists m. split; [done|].
    by apply list_elem_of_filter.
Qed.

(** C9. A user who is neither the owner nor a member of a plan gets
    NotFound from [get_plan_by_id], whether or not the plan exists; and
    the exception is the one raised, for any user, when no plan with that
    id is in the store: the two cases cannot be told apart. *)
Theorem get_plan_by_id_hides_existence db user_id plan_id :
  ¬ is_owner db user_id plan_id →
  ¬ is_member db user_id plan_id →
  PlanService.get_plan_by_id db user_id plan_id
  = Py.Err (Py.NotFoundException "Fitness plan not found")
  ∧ (∀ db' user_id',
       plan_absent db' plan_id →
       PlanService.get_plan_by_id db' user_id' plan_id
       = PlanService.get_plan_by_id db user_id plan_id)
  ∧ (∀ e, PlanService.get_plan_by_id db user_id plan_id = Py.Err e →
          Py.kind e = Py.NotFound).
Proof.
  intros Hown Hmem.
  assert (PlanService.get_plan_by_id db user_id plan_id
          = Py.Err (Py.NotFoundException "Fitness plan not found")) as E.
  { unfold PlanService.get_plan_by_id, PlanService.visible_plans.
    rewrite filter_none; [done|].
    intros p Hp (Hid & [Hu | Hm] & _).
    - apply Hown. by exists p.
    - apply Hmem. apply member_plan_ids_elem. by rewrite <- Hid. }
  split; [done|]. split.
  - intros db' user_id' Habs. rewrite E.
    unfold PlanService.get_plan_by_id, PlanService.visible_plans.
    rewrite filter_none; [done|].
    intros p Hp (Hid & _). by apply (Habs p).
  - intros e. rewrite E. by intros [= <-].
Qed.

Lemma get_plan_by_id_hides_existence_witness :
  ¬ is_owner db_demo 3 10
  ∧ ¬ is_member db_demo 3 10
  ∧ is_owner db_demo 1 10
  ∧ PlanService.get_plan_by_id db_demo 3 10
    = Py.Err (Py.NotFoundException "Fitness plan not found").
Proof.
  assert (¬ is_owner db_demo 3 10) as H1.
  { intros (p & Hp & _ & Hu). apply list_elem_of_singleton in Hp as ->. done. }
  assert (¬ is_member db_demo 3 10) as H2.
  { intros (m & Hm & _ & Hu). apply list_elem_of_singleton in Hm as ->. done. }
  split; [done|]. split; [done|]. split.
  - exists plan10. split; [by left | done].
  - exact (proj1 (get_plan_by_id_hides_existence db_demo 3 10 H1 H2)).
Defined.

(** ** Inviting a member *)

Lemma filter_key_cases {A K} `{EqDecision K} (key : A → K) (l : list A) (k : K) :
  NoDup (key <$> l) →
  (filter (λ y, key y = k) l = [] ∧ ∀ x, x ∈ l → key x ≠ k)
  ∨ ∃ x, x ∈ l ∧ key x = k ∧ filter (λ y, key y = k) l = [x].
Proof.
  intros Hnd. destruct (decide (k ∈ key <$> l)) as [Hin|Hnotin].
  - right. apply list_elem_of_fmap in Hin as (x & -> & Hx).
    exists x. split; [done|]. split; [done|]. by apply filter_unique.
  - left. assert (∀ x, x ∈ l → key x ≠ k) as Hno.
    { intros x Hx <-. apply Hnotin. by apply list_elem_of_fmap_2. }
    split; [|done]. by apply filter_none.
Qed.

Lemma member_pair_filter db plan_id user_id :
  filter (λ m, PlanMember.plan_id m = plan_id ∧ PlanMember.user_id m = user_id)
         (plan_members db)
  = filter (λ m, (PlanMember.plan_id m, PlanMember.user_id m) = (plan_id, user_id))
           (plan_members db).
Proof.
  apply list_filter_iff. intros m. split; [by intros [-> ->] | by intros [= -> ->]].
Qed.

Lemma new_member_reload db (member : PlanMember.t) :
  (∀ m, m ∈ plan_members db → (PlanMember.id m < next_uuid db)%nat) →
  PlanMember.id member = next_uuid db →
  filter (λ m, PlanMember.id m = next_uuid db) (plan_members db ++ [member])
  = [member].
Proof.
  intros Hlt Hid. rewrite filter_app, filter_none.
  - by rewrite filter_cons, decide_True.
  - intros m Hm Heq. apply Hlt in Hm. lia.
Qed.

(** C10. [invite_member] does not look at the inviter. Whoever the
    inviter is, inviting by email an existing user who is not a member of
    an existing plan succeeds and stores the membership; a failure is
    NotFound for an absent plan, NotFound for an unknown email, or the
    already-member error, and it is the same failure for every inviter. *)
Theorem invite_member_ignores_inviter db plan_id inviter_user_id invitee_email :
  db_wf db →
  (∀ plan invitee,
     plan ∈ fitness_plans db → FitnessPlan.id plan = plan_id →
     invitee ∈ users db → User.email invitee = invitee_email →
     ¬ is_member db (User.id invitee) plan_id →
     let member :=
       {| PlanMember.id := next_uuid db;
          PlanMember.plan_id := plan_id;
          PlanMember.user_id := User.id invitee;
          PlanMember.invited_by := Some inviter_user_id |} in
     PlanMemberService.invite_member db plan_id inviter_user_id invitee_email
     = Py.Ok (member, set_plan_members (uuid4 db).2 (plan_members db ++ [member])))
  ∧ (∀ e,
       PlanMemberService.invite_member db plan_id inviter_user_id invitee_email = Py.Err e →
       (e = Py.NotFoundException "Plan not found" ∧ plan_absent db plan_id)
       ∨ (e = Py.NotFoundException ("User with email " +:+ invitee_email +:+ " not found")
          ∧ ∀ u, u ∈ users db → User.email u ≠ invitee_email)
       ∨ (e = Py.AppException "User is already a member of this plan" "ALREADY_MEMBER" 400
          ∧ ∃ u, u ∈ users db ∧ User.email u = invitee_email
                 ∧ is_member db (User.id u) plan_id))
  ∧ (∀ e inviter',
       PlanMemberService.invite_member db plan_id inviter_user_id invitee_email = Py.Err e →
       PlanMemberService.invite_member db plan_id inviter' invitee_email = Py.Err e).
Proof.
  intros Hwf.
  pose proof (filter_key_cases FitnessPlan.id (fitness_plans db) plan_id
                (wf_plan_ids db Hwf)) as Hplan.
  pose proof (filter_key_cases User.email (users db) invitee_email
                (wf_user_emails db Hwf)) as Huser.
  unfold PlanMemberService.invite_member.
  destruct Hplan as [[Ep Hnop] | (plan & Hplan_in & Hplan_id & Ep)]; rewrite Ep; simpl.
  { split; [intros plan ? Hin Hid; by destruct (Hnop plan)|].
    split; [|done]. intros e [= <-]. by left. }
  destruct Huser as [[Eu Hnou] | (invitee & Hu_in & Hu_email & Eu)]; rewrite Eu; simpl.
  { split; [intros ? invitee _ _ Hin Hemail; by destruct (Hnou invitee)|].
    split; [|done]. intros e [= <-]. right. by left. }
  rewrite member_pair_filter.
  destruct (filter_key_cases (λ m, (PlanMember.plan_id m, PlanMember.user_id m))
              (plan_members db) (plan_id, User.id invitee) (wf_member_pairs db Hwf))
    as [[Em Hnom] | (m & Hm_in & Hm_pair & Em)]; rewrite Em; simpl.
  - rewrite new_member_reload; [| apply (wf_member_ids db Hwf) | done]. simpl.
    split; [|split; done].
    intros plan' invitee' _ _ Hin' Hemail' _.
    assert (invitee' = invitee) as ->; [|done].
    assert (invitee' ∈ filter (λ y, User.email y = invitee_email) (users db)) as Hf
      by by apply list_elem_of_filter.
    rewrite Eu in Hf. by apply list_elem_of_singleton in Hf.
  - injection Hm_pair as Hmp Hmu.
    split; [|split; [|done]].
    + intros plan' invitee' _ _ Hin' Hemail' Hnot. exfalso. apply Hnot.
      assert (invitee' = invitee) as ->.
      { assert (invitee' ∈ filter (λ y, User.email y = invitee_email) (users db)) as Hf
          by by apply list_elem_of_filter.
        rewrite Eu in Hf. by apply list_elem_of_singleton in Hf. }
      by exists m.
    + intros e [= <-]. right. right. split; [done|].
      exists invitee. split; [done|]. split; [done|]. by exists m.
Qed.

Lemma db_demo_wf : db_wf db_demo.
Proof.
  split; try compute_done.
  intros m ->%list_elem_of_singleton. simpl. lia.
Qed.

Lemma db_before_invite_wf : db_wf db_before_invite.
Proof.
  split; try apply db_demo_wf; simpl; [apply NoDup_nil_2|].
  by intros m ?%elem_of_nil.
Qed.

(** A user (3) who is neither owner nor member, and is not even stored,
    invites Bob to Alice's plan. *)
Lemma invite_member_ignores_inviter_witness :
  db_wf db_before_invite
  ∧ ¬ is_owner db_before_invite 3 10
  ∧ ¬ is_member db_before_invite 3 10
  ∧ ∃ member db',
      PlanMemberService.invite_member db_before_invite 10 3 "bob@example.com"
      = Py.Ok (member, db')
      ∧ PlanMember.user_id member = 2%nat
      ∧ plan_members db' = [member].
Proof.
  split; [apply db_before_invite_wf|].
  split; [intros (p & ->%list_elem_of_singleton & _ & Hu); done|].
  split; [by intros (m & ?%elem_of_nil & _)|].
  destruct (invite_member_ignores_inviter db_before_invite 10 3
              "bob@example.com" db_before_invite_wf) as [H _].
  eexists _, _. split.
  - apply (H plan10 bob); [by left | done | by right; left | done |].
    by intros (m & ?%elem_of_nil & _).
  - done.
Defined.

(** ** Ownership and the writes on the contents of a plan *)

Lemma elem_of_join {A B} (on : A * B → Prop) `{∀ ab, Decision (on ab)}
    (l : list A) (k : list B) (ab : A * B) :
  ab ∈ Py.join on l k ↔ on ab ∧ ab.1 ∈ l ∧ ab.2 ∈ k.
Proof.
  unfold Py.join. rewrite list_elem_of_filter, list_elem_of_bind.
  split.
  - intros (Hon & a & (b & Hab & Hb)%list_elem_of_bind & Ha).
    apply list_elem_of_singleton in Hab as ->. done.
  - intros (Hon & Ha & Hb). split; [done|]. exists ab.1. split; [|done].
    apply list_elem_of_bind. exists ab.2. split; [|done].
    apply list_elem_of_singleton. by destruct ab.
Qed.

Lemma NoDup_join {A B} (on : A * B → Prop) `{∀ ab, Decision (on ab)}
    (l : list A) (k : list B) :
  NoDup l → NoDup k → NoDup (Py.join on l k).
Proof.
  intros Hl Hk. unfold Py.join. apply NoDup_filter.
  apply NoDup_bind; [| |done].
  - intros a1 a2 ab _ _ (b1 & H1 & _)%list_elem_of_bind (b2 & H2 & _)%list_elem_of_bind.
    apply list_elem_of_singleton in H1, H2. congruence.
  - intros a _. apply NoDup_bind; [| |done].
    + intros b1 b2 ab _ _ H1%list_elem_of_singleton H2%list_elem_of_singleton.
      congruence.
    + intros b _. apply NoDup_singleton.
Qed.

Lemma NoDup_singleton_eq {A} (l : list A) (x : A) :
  NoDup l → (∀ y, y ∈ l ↔ y = x) → l = [x].
Proof.
  intros Hnd Hx. apply Permutation_singleton_r.
  apply NoDup_Permutation; [done | apply NoDup_singleton |].
  intros y. by rewrite Hx, list_elem_of_singleton.
Qed.

Section Ownership.
Variables (db : DB) (user_id plan_id : UUID).

Lemma owned_plans_not_owner :
  ¬ is_owner db user_id plan_id → owned_plans db user_id plan_id = [].
Proof.
  intros Hno. apply filter_none. intros p Hp (Hid & Hu & _).
  apply Hno. by exists p.
Qed.

Lemma owned_exercises_not_owner exercise_id :
  ¬ is_owner db user_id plan_id →
  ExerciseService.owned_exercises db user_id plan_id exercise_id = [].
Proof.
  intros Hno. unfold ExerciseService.owned_exercises.
  rewrite filter_none; [done|].
  intros [e p] (Hon & _ & Hp)%elem_of_join (_ & Hpid & Hu & _). simpl in *.
  apply Hno. exists p. split; [done|]. split; [congruence | done].
Qed.

Lemma owned_reminders_not_owner reminder_id :
  ¬ is_owner db user_id plan_id →
  ReminderService.owned_reminders db user_id plan_id reminder_id = [].
Proof.
  intros Hno. unfold ReminderService.owned_reminders.
  rewrite filter_none; [done|].
  intros [r p] (Hon & _ & Hp)%elem_of_join (_ & Hpid & Hu & _). simpl in *.
  apply Hno. exists p. split; [done|]. split; [congruence | done].
Qed.

(** The part of C2 that holds: a user who does not own the plan, member
    or not, gets NotFound from every write on its exercises and
    reminders. *)
Lemma non_owner_content_writes_not_found scheduler :
  ¬ is_owner db user_id plan_id →
  (∀ data, ExerciseService.add_exercise db user_id plan_id data
           = Py.Err (Py.NotFoundException "Fitness plan not found"))
  ∧ (∀ id data, ExerciseService.update_exercise db user_id plan_id id data
                = Py.Err (Py.NotFoundException "Exercise not found"))
  ∧ (∀ id, ExerciseService.delete_exercise db user_id plan_id id
           = Py.Err (Py.NotFoundException "Exercise not found"))
  ∧ (∀ data, ReminderService.create_reminder db scheduler user_id plan_id data
             = Py.Err (Py.NotFoundException "Fitness plan not found"))
  ∧ (∀ id data, ReminderService.update_reminder db scheduler user_id plan_id id data
                = Py.Err (Py.NotFoundException "Reminder not found"))
  ∧ (∀ id, ReminderService.delete_reminder db scheduler user_id plan_id id
           = Py.Err (Py.NotFoundException "Reminder not found")).
Proof.
  intros Hno.
  unfold ExerciseService.add_exercise, ExerciseService.update_exercise,
    ExerciseService.delete_exercise, ReminderService.create_reminder,
    ReminderService.update_reminder, ReminderService.delete_reminder.
  repeat split; intros;
    rewrite ?owned_plans_not_owner, ?owned_exercises_not_owner,
      ?owned_reminders_not_owner by done; done.
Qed.

(** The owner's ownership query finds the plan. *)
Lemma owned_plans_owner plan :
  NoDup (FitnessPlan.id <$> fitness_plans db) →
  plan ∈ fitness_plans db →
  FitnessPlan.id plan = plan_id →
  FitnessPlan.user_id plan = user_id →
  FitnessPlan.deleted_at plan = None →
  owned_plans db user_id plan_id = [plan].
Proof.
  intros Hnd Hin Hid Hu Hdel. unfold owned_plans.
  apply NoDup_singleton_eq; [by eapply NoDup_filter, NoDup_fmap_1|].
  intros p. rewrite list_elem_of_filter. split; [|by intros ->].
  intros ((Hpid & _) & Hpin).
  assert (p ∈ filter (λ y, FitnessPlan.id y = FitnessPlan.id plan) (fitness_plans db))
    as Hf by (apply list_elem_of_filter; split; [congruence | done]).
  rewrite filter_unique in Hf by done. by apply list_elem_of_singleton in Hf.
Qed.

Lemma owned_exercises_owner plan exercise :
  NoDup (FitnessPlan.id <$> fitness_plans db) →
  NoDup (Exercise.id <$> exercises db) →
  plan ∈ fitness_plans db →
  FitnessPlan.id plan = plan_id →
  FitnessPlan.user_id plan = user_id →
  FitnessPlan.deleted_at plan = None →
  exercise ∈ exercises db →
  Exercise.plan_id exercise = plan_id →
  ExerciseService.owned_exercises db user_id plan_id (Exercise.id exercise)
  = [exercise].
Proof.
  intros Hndp Hnde Hp Hpid Hu Hdel He Hepid.
  unfold ExerciseService.owned_exercises.
  rewrite (NoDup_singleton_eq _ (exercise, plan)); [done | |].
  - apply NoDup_filter, NoDup_join; by eapply NoDup_fmap_1.
  - intros [e p]. rewrite list_elem_of_filter, elem_of_join. simpl. split.
    + intros ((Heid & Hep & _ & _) & Hon & Hein & Hpin).
      f_equal.
      * assert (e ∈ filter (λ y, Exercise.id y = Exercise.id exercise) (exercises db))
          as Hf by by apply list_elem_of_filter.
        rewrite filter_unique in Hf by done. by apply list_elem_of_singleton in Hf.
      * assert (p ∈ filter (λ y, FitnessPlan.id y = FitnessPlan.id plan) (fitness_plans db))
          as Hf by (apply list_elem_of_filter; split; [congruence | done]).
        rewrite filter_unique in Hf by done. by apply list_elem_of_singleton in Hf.
    + intros [= -> ->]. repeat split; try done. congruence.
Qed.
End Ownership.

(** C2, at the failing input. Bob is a member of Alice's plan and not its
    owner. His [update_plan] and [delete_plan] succeed: they look the plan
    up with [get_plan_by_id], which admits members. His writes on the
    exercises and reminders of the plan are answered NotFound. *)
Theorem member_updates_and_deletes_plan :
  is_member db_demo 2 10
  ∧ ¬ is_owner db_demo 2 10
  ∧ (∃ plan db',
       PlanService.update_plan db_demo 2 10 rename = Py.Ok (plan, db')
       ∧ FitnessPlan.name plan = "Taken over"
       ∧ fitness_plans db' = [plan])
  ∧ (∃ db',
       PlanService.delete_plan 99 db_demo None 2 10 = Py.Ok (db', None)
       ∧ FitnessPlan.deleted_at <$> fitness_plans db' = [Some 99%nat])
  ∧ (∀ id, ExerciseService.delete_exercise db_demo 2 10 id
           = Py.Err (Py.NotFoundException "Exercise not found")).
Proof.
  assert (¬ is_owner db_demo 2 10) as Hno.
  { intros (p & ->%list_elem_of_singleton & _ & Hu). done. }
  split; [eexists; split; [by left | done]|].
  split; [done|].
  split; [eexists _, _; split; [reflexivity | done]|].
  split; [eexists; split; [reflexivity | done]|].
  by destruct (non_owner_content_writes_not_found db_demo 2 10 None Hno)
    as (_ & _ & H & _).
Qed.

(** ** The last exercise of a plan *)

Lemma delete_last_exercise_by_owner db user_id plan_id plan exercise :
  db_wf db →
  plan ∈ fitness_plans db →
  FitnessPlan.id plan = plan_id →
  FitnessPlan.user_id plan = user_id →
  FitnessPlan.deleted_at plan = None →
  plan_exercises db plan_id = [exercise] →
  ExerciseService.delete_exercise db user_id plan_id (Exercise.id exercise)
  = Py.Err (Py.BusinessRuleViolationException
              "Cannot delete the last exercise from a plan. A plan must have at least one exercise.").
Proof.
  intros Hwf Hp Hpid Hu Hdel Hone.
  assert (exercise ∈ plan_exercises db plan_id) as [Hepid He]%list_elem_of_filter
    by (rewrite Hone; by left).
  unfold ExerciseService.delete_exercise.
  rewrite (owned_exercises_owner db user_id plan_id plan exercise);
    [| apply Hwf | apply Hwf | done..].
  simpl. by rewrite Hone.
Qed.

(** C3, as the specification states it, fails for a caller who does not
    own the plan: Bob asks to delete the only exercise of Alice's plan and
    gets NotFound, not BusinessRuleViolation. *)
Lemma delete_last_exercise_by_non_owner_not_found :
  FitnessPlan.deleted_at plan10 = None
  ∧ plan_exercises db_single 10 = [run20]
  ∧ ExerciseService.delete_exercise db_single 2 10 20
    = Py.Err (Py.NotFoundException "Exercise not found")
  ∧ Py.kind (Py.NotFoundException "Exercise not found") ≠ Py.BusinessRuleViolation.
Proof. repeat split; done. Qed.

(** ** The exercise count of a plan over the requests *)

(** Case analysis of a call that returned: every test on the way. *)
Ltac returned H :=
  unfold uuid4 in H;
  cbn [mbind Result_bind Py.bind] in H;
  repeat (first
            [ match type of H with
              | context [@mbind _ _ _ _ _ ?r] => destruct r eqn:?
              end
            | case_match ];
          cbn [mbind Result_bind Py.bind] in H; try discriminate H);
  simplify_eq.

Lemma keeps_refl db : keeps_plans_and_exercises db db.
Proof. by repeat split. Qed.

Lemma keeps_trans db1 db2 db3 :
  keeps_plans_and_exercises db1 db2 → keeps_plans_and_exercises db2 db3 →
  keeps_plans_and_exercises db1 db3.
Proof.
  intros (Hp1 & He1 & Hn1) (Hp2 & He2 & Hn2).
  repeat split; [congruence | congruence | lia].
Qed.

Lemma keeps_invariant db db' :
  keeps_plans_and_exercises db db' → plans_keep_exercises db → plans_keep_exercises db'.
Proof.
  intros (Hp & He & Hn) [Hids Hfresh Hcount]. split.
  - by rewrite He.
  - intros e. rewrite He. intros Hin%Hfresh. lia.
  - intros p. rewrite Hp. unfold plan_exercises. rewrite He. apply Hcount.
Qed.

Lemma add_exercise_executions_keep id xs : ∀ db,
  keeps_plans_and_exercises db
    (fold_left (PlanExecutionService.add_exercise_execution id) xs db).
Proof.
  induction xs as [|x xs IH]; intros db; cbn [fold_left]; [apply keeps_refl|].
  eapply keeps_trans; [|apply IH].
  repeat split; simpl; first [done | lia].
Qed.

Ltac keeps :=
  try (eapply keeps_trans; [|apply add_exercise_executions_keep]);
  repeat split; simpl; first [done | lia].

Lemma create_reminder_keeps db s u p data r db' s' :
  ReminderService.create_reminder db s u p data = Py.Ok (r, db', s') →
  keeps_plans_and_exercises db db'.
Proof.
  unfold ReminderService.create_reminder. intros H. returned H; keeps.
Qed.

Lemma update_reminder_keeps db s u p id data r db' s' :
  ReminderService.update_reminder db s u p id data = Py.Ok (r, db', s') →
  keeps_plans_and_exercises db db'.
Proof.
  unfold ReminderService.update_reminder. intros H. returned H; keeps.
Qed.

Lemma delete_reminder_keeps db s u p id db' s' :
  ReminderService.delete_reminder db s u p id = Py.Ok (db', s') →
  keeps_plans_and_exercises db db'.
Proof.
  unfold ReminderService.delete_reminder. intros H. returned H; keeps.
Qed.

Lemma invite_member_keeps db p u email m db' :
  PlanMemberService.invite_member db p u email = Py.Ok (m, db') →
  keeps_plans_and_exercises db db'.
Proof.
  unfold PlanMemberService.invite_member. intros H. returned H; keeps.
Qed.

Lemma remove_member_keeps db p u db' :
  PlanMemberService.remove_member db p u = Py.Ok db' →
  keeps_plans_and_exercises db db'.
Proof.
  unfold PlanMemberService.remove_member. intros H. returned H; keeps.
Qed.

Lemma create_plan_execution_keeps now db u data x db' :
  PlanExecutionService.create_plan_execution now db u data = Py.Ok (x, db') →
  keeps_plans_and_exercises db db'.
Proof.
  unfold PlanExecutionService.create_plan_execution. intros H. returned H; keeps.
Qed.

Lemma update_plan_execution_keeps db u id data x db' :
  PlanExecutionService.update_plan_execution db u id data = Py.Ok (x, db') →
  keeps_plans_and_exercises db db'.
Proof.
  unfold PlanExecutionService.update_plan_execution,
    PlanExecutionService.get_plan_execution_by_id.
  intros H. returned H; keeps.
Qed.

Lemma delete_plan_execution_keeps db u id db' :
  PlanExecutionService.delete_plan_execution db u id = Py.Ok db' →
  keeps_plans_and_exercises db db'.
Proof.
  unfold PlanExecutionService.delete_plan_execution,
    PlanExecutionService.get_plan_execution_by_id.
  intros H. returned H; keeps.
Qed.

Lemma length_filter_app_l {A} (P : A → Prop) `{∀ x, Decision (P x)} (l k : list A) :
  (length (filter P l) ≤ length (filter P (l ++ k)))%nat.
Proof. rewrite filter_app, length_app. lia. Qed.

Lemma length_filter_fmap {A} (P : A → Prop) `{∀ x, Decision (P x)} (f : A → A)
    (l : list A) :
  (∀ x, x ∈ l → P (f x) ↔ P x) →
  length (filter P (f <$> l)) = length (filter P l).
Proof.
  induction l as [|x l IH]; intros Hf; [done|].
  rewrite fmap_cons, !filter_cons.
  assert (P (f x) ↔ P x) as Hx by (apply Hf; by left).
  assert (length (filter P (f <$> l)) = length (filter P l)) as Hl.
  { apply IH. intros y Hy. apply Hf. by right. }
  destruct (decide (P (f x))), (decide (P x)); simpl; tauto || lia.
Qed.

(** Deleting the row with a primary key takes exactly that row away. *)
Lemma delete_row_perm {A K} `{EqDecision K} (key : A → K) (l : list A) (x : A) :
  NoDup (key <$> l) → x ∈ l →
  x :: filter (λ y, key y ≠ key x) l ≡ₚ l.
Proof.
  intros Hnd Hin.
  rewrite <- (filter_app_complement (λ y, key y = key x) l) at 2.
  by rewrite filter_unique.
Qed.

Lemma add_exercise_rows plan_id data : ∀ db,
  let db' := fold_left (PlanService.add_exercise_row plan_id) data db in
  fitness_plans db' = fitness_plans db
  ∧ next_uuid db' = (next_uuid db + length data)%nat
  ∧ ∃ new,
      exercises db' = exercises db ++ new
      ∧ Exercise.id <$> new = seq (next_uuid db) (length data)
      ∧ Forall (λ e, Exercise.plan_id e = plan_id) new.
Proof.
  induction data as [|x data IH]; intros db; cbn [fold_left].
  - simpl. split; [done|]. split; [lia|]. exists []. by rewrite app_nil_r.
  - destruct (IH (PlanService.add_exercise_row plan_id db x))
      as (Hp & Hn & new & He & Hids & Hpl).
    cbn zeta. rewrite Hp, Hn, He. simpl.
    split; [done|]. split; [lia|].
    eexists (_ :: new). rewrite <- app_assoc. split; [done|].
    split; [by rewrite fmap_cons, Hids | by constructor].
Qed.

Lemma filter_all {A} (P : A → Prop) `{∀ x, Decision (P x)} (l : list A) :
  Forall P l → filter P l = l.
Proof.
  induction 1 as [|x l Hx Hl IH]; [done|].
  by rewrite filter_cons, decide_True, IH.
Qed.

Lemma owned_exercises_elem db user_id plan_id exercise_id exercise :
  exercise ∈ ExerciseService.owned_exercises db user_id plan_id exercise_id →
  exercise ∈ exercises db
  ∧ Exercise.id exercise = exercise_id
  ∧ Exercise.plan_id exercise = plan_id.
Proof.
  unfold ExerciseService.owned_exercises.
  intros ([e p] & -> & [(Hid & Hpid & _) (_ & He & _)%elem_of_join]%list_elem_of_filter)
    %list_elem_of_fmap.
  done.
Qed.

Lemma scalar_one_or_none_elem {A} (rows : list A) (r : A) :
  Py.scalar_one_or_none rows = Py.Ok (Some r) → r ∈ rows.
Proof. intros ->%scalar_one_or_none_inv. by left. Qed.

Section Invariant.
Variable db : DB.
Hypothesis inv : plans_keep_exercises db.

Lemma create_plan_invariant user_id plan_data plan db' :
  FitnessPlanCreate_valid plan_data = true →
  PlanService.create_plan db user_id plan_data = Py.Ok (plan, db') →
  plans_keep_exercises db'.
Proof.
  intros Hvalid H. unfold PlanService.create_plan, uuid4 in H. simpl in H.
  destruct (PlanService.commit_error _ _); [done|].
  injection H as <- <-.
  match goal with
  | |- plans_keep_exercises (fold_left _ _ ?d) =>
      destruct (add_exercise_rows (next_uuid db) (fc_exercises plan_data) d)
        as (Hp & Hn & new & He & Hids & Hpl)
  end.
  simpl in Hp, Hn, He, Hids.
  destruct inv as [Hnd Hfresh Hcount].
  assert (∀ e, e ∈ new →
               (S (next_uuid db) ≤ Exercise.id e
                < S (next_uuid db) + length (fc_exercises plan_data))%nat) as Hnew.
  { intros e He'. apply (list_elem_of_fmap_2 Exercise.id) in He'.
    rewrite Hids in He'. by apply elem_of_seq in He'. }
  split.
  - rewrite He, fmap_app. apply NoDup_app. split; [done|]. split.
    + intros i (e & -> & He1)%list_elem_of_fmap (e' & Hi & He2)%list_elem_of_fmap.
      apply Hfresh in He1. apply Hnew in He2. lia.
    + rewrite Hids. apply NoDup_seq.
  - intros e. rewrite He, Hn. intros [He1%Hfresh | He2%Hnew]%elem_of_app; lia.
  - intros p. rewrite Hp. unfold plan_exercises. rewrite He.
    intros [Hin | ->%list_elem_of_singleton]%elem_of_app Hdel.
    + etrans; [by apply Hcount|]. apply length_filter_app_l.
    + simpl. rewrite filter_app, length_app, (filter_all _ new) by done.
      assert (length new = length (fc_exercises plan_data)) as ->.
      { by rewrite <- (length_fmap Exercise.id), Hids, length_seq. }
      unfold FitnessPlanCreate_valid in Hvalid.
      destruct (fc_exercises plan_data); [|simpl; lia].
      by rewrite andb_false_r in Hvalid.
Qed.

Lemma write_plan_elem plan p :
  p ∈ fitness_plans (PlanService.write_plan db plan) →
  p = plan ∨ p ∈ fitness_plans db.
Proof.
  unfold PlanService.write_plan. simpl.
  intros (q & -> & Hq)%list_elem_of_fmap. case_decide; [by left | by right].
Qed.

Lemma get_plan_by_id_elem user_id plan_id plan :
  PlanService.get_plan_by_id db user_id plan_id = Py.Ok plan →
  plan ∈ fitness_plans db ∧ FitnessPlan.deleted_at plan = None.
Proof.
  unfold PlanService.get_plan_by_id, PlanService.visible_plans. intros H.
  returned H.
  match goal with
  | E : Py.scalar_one_or_none _ = _ |- _ =>
      apply scalar_one_or_none_elem, list_elem_of_filter in E as [(_ & _ & ?) ?]
  end.
  done.
Qed.

Lemma update_plan_invariant user_id plan_id plan_data plan db' :
  PlanService.update_plan db user_id plan_id plan_data = Py.Ok (plan, db') →
  plans_keep_exercises db'.
Proof.
  unfold PlanService.update_plan. intros H.
  destruct (PlanService.get_plan_by_id db user_id plan_id) as [old|] eqn:E;
    [|done].
  apply get_plan_by_id_elem in E as [Hold Hdel].
  destruct inv as [Hnd Hfresh Hcount].
  returned H;
    (split; [done | done |];
     intros p [-> | Hp]%write_plan_elem Hd;
     [exact (Hcount old Hold Hdel) | exact (Hcount p Hp Hd)]).
Qed.

Lemma delete_plan_invariant now scheduler user_id plan_id db' scheduler' :
  PlanService.delete_plan now db scheduler user_id plan_id = Py.Ok (db', scheduler') →
  plans_keep_exercises db'.
Proof.
  unfold PlanService.delete_plan. intros H.
  destruct (PlanService.get_plan_by_id db user_id plan_id) as [old|] eqn:E;
    [|done].
  destruct inv as [Hnd Hfresh Hcount].
  returned H;
    (split; [done | done |];
     intros p [-> | Hp]%write_plan_elem Hd; [done | exact (Hcount p Hp Hd)]).
Qed.

Lemma add_exercise_invariant user_id plan_id exercise_data exercise db' :
  ExerciseService.add_exercise db user_id plan_id exercise_data = Py.Ok (exercise, db') →
  plans_keep_exercises db'.
Proof.
  unfold ExerciseService.add_exercise. intros H. returned H.
  destruct inv as [Hnd Hfresh Hcount]. split; simpl.
  - rewrite fmap_app. apply NoDup_app. split; [done|].
    split; [|apply NoDup_singleton].
    intros i (e & -> & He%Hfresh)%list_elem_of_fmap ?%list_elem_of_singleton.
    simpl in *. lia.
  - intros e [He%Hfresh | ->%list_elem_of_singleton]%elem_of_app; simpl; lia.
  - intros p Hp Hd. unfold plan_exercises. simpl.
    etrans; [by apply Hcount|]. apply length_filter_app_l.
Qed.
End Invariant.

Section ExerciseInvariant.
Variable db : DB.
Hypothesis inv : plans_keep_exercises db.

Lemma write_exercise_invariant old new :
  old ∈ exercises db →
  Exercise.id new = Exercise.id old →
  Exercise.plan_id new = Exercise.plan_id old →
  plans_keep_exercises (ExerciseService.write_exercise db new).
Proof.
  intros Hold Hid Hpid. destruct inv as [Hnd Hfresh Hcount].
  set (f := λ e, if decide (Exercise.id e = Exercise.id new) then new else e).
  assert (∀ e, e ∈ exercises db →
               Exercise.id (f e) = Exercise.id e
               ∧ Exercise.plan_id (f e) = Exercise.plan_id e) as Hf.
  { intros e He. unfold f. case_decide as Heq; [|done]. split; [done|].
    assert (e ∈ filter (λ y, Exercise.id y = Exercise.id old) (exercises db)) as Hin
      by (apply list_elem_of_filter; split; [congruence | done]).
    rewrite filter_unique in Hin by done.
    apply list_elem_of_singleton in Hin as ->. done. }
  assert (Exercise.id <$> (f <$> exercises db) = Exercise.id <$> exercises db) as Hids.
  { rewrite <- list_fmap_compose. apply list_fmap_ext.
    intros i e He. apply Hf. by eapply list_elem_of_lookup_2. }
  split; simpl; fold f.
  - by rewrite Hids.
  - intros e' (e & -> & He)%list_elem_of_fmap.
    rewrite (proj1 (Hf e He)). by apply Hfresh.
  - intros p Hp Hd. unfold plan_exercises. simpl. fold f.
    rewrite length_filter_fmap; [by apply Hcount|].
    intros e He. by rewrite (proj2 (Hf e He)).
Qed.

Lemma update_exercise_invariant user_id plan_id exercise_id exercise_data exercise db' :
  ExerciseService.update_exercise db user_id plan_id exercise_id exercise_data
  = Py.Ok (exercise, db') →
  plans_keep_exercises db'.
Proof.
  unfold ExerciseService.update_exercise. intros H.
  destruct (Py.scalar_one_or_none _) as [[old|]|] eqn:E; [|done..].
  apply scalar_one_or_none_elem, owned_exercises_elem in E as (Hold & _ & _).
  returned H; by apply (write_exercise_invariant old).
Qed.

Lemma delete_exercise_invariant user_id plan_id exercise_id db' :
  ExerciseService.delete_exercise db user_id plan_id exercise_id = Py.Ok db' →
  plans_keep_exercises db'.
Proof.
  unfold ExerciseService.delete_exercise. intros H.
  destruct (Py.scalar_one_or_none _) as [[old|]|] eqn:E; [|done..].
  apply scalar_one_or_none_elem, owned_exercises_elem in E as (Hold & _ & Hpid).
  cbn [mbind Result_bind Py.bind] in H.
  destruct (_ <=? 1) eqn:Hcnt; [done|].
  destruct (_ && _); [done|]. injection H as <-.
  apply Z.leb_gt in Hcnt.
  destruct inv as [Hnd Hfresh Hcount].
  pose proof (delete_row_perm Exercise.id (exercises db) old Hnd Hold) as Hperm.
  split; simpl.
  - rewrite <- Hperm, fmap_cons in Hnd. by apply NoDup_cons in Hnd as [_ ?].
  - intros e [_ He]%list_elem_of_filter. by apply Hfresh.
  - intros p Hp Hd. unfold plan_exercises in *. simpl.
    pose proof (Hcount p Hp Hd) as Hc.
    rewrite <- Hperm, filter_cons in Hc, Hcnt.
    destruct (decide (FitnessPlan.id p = plan_id)) as [->|Hne].
    + rewrite decide_True in Hcnt by done. simpl in Hcnt. lia.
    + rewrite decide_False in Hc by congruence. done.
Qed.
End ExerciseInvariant.

(** Every request that succeeds keeps the invariant. *)
Lemma handle_invariant db scheduler request db' scheduler' :
  plans_keep_exercises db →
  Routes.handle (db, scheduler) request = Py.Ok (db', scheduler') →
  plans_keep_exercises db'.
Proof.
  intros inv H. destruct request; cbn [Routes.handle] in H;
    unfold Routes.validated in H.
  - destruct (FitnessPlanCreate_valid plan_data) eqn:Hv; [|done].
    destruct (PlanService.create_plan _ _ _) as [[plan d]|] eqn:E; [|done].
    injection H as <- <-. by eapply create_plan_invariant.
  - destruct (PlanService.update_plan _ _ _ _) as [[plan d]|] eqn:E; [|done].
    injection H as <- <-. by eapply update_plan_invariant.
  - by eapply delete_plan_invariant.
  - destruct (ExerciseCreate_valid exercise_data); [|done].
    destruct (ExerciseService.add_exercise _ _ _ _) as [[e d]|] eqn:E; [|done].
    injection H as <- <-. by eapply add_exercise_invariant.
  - destruct (ExerciseService.update_exercise _ _ _ _ _) as [[e d]|] eqn:E; [|done].
    injection H as <- <-. by eapply update_exercise_invariant.
  - destruct (ExerciseService.delete_exercise _ _ _ _) as [d|] eqn:E; [|done].
    injection H as <- <-. by eapply delete_exercise_invariant.
  - destruct (ReminderService.create_reminder _ _ _ _ _) as [[[r d] s]|] eqn:E; [|done].
    injection H as <- <-. eapply keeps_invariant; [|done]. by eapply create_reminder_keeps.
  - destruct (ReminderService.update_reminder _ _ _ _ _ _) as [[[r d] s]|] eqn:E; [|done].
    injection H as <- <-. eapply keeps_invariant; [|done]. by eapply update_reminder_keeps.
  - eapply keeps_invariant; [|done]. by eapply delete_reminder_keeps.
  - destruct (PlanMemberService.invite_member _ _ _ _) as [[m d]|] eqn:E; [|done].
    injection H as <- <-. eapply keeps_invariant; [|done]. by eapply invite_member_keeps.
  - destruct (PlanMemberService.remove_member _ _ _) as [d|] eqn:E; [|done].
    injection H as <- <-. eapply keeps_invariant; [|done]. by eapply remove_member_keeps.
  - destruct (PlanExecutionCreate_valid execution_data); [|done].
    destruct (PlanExecutionService.create_plan_execution _ _ _ _) as [[x d]|] eqn:E;
      [|done].
    injection H as <- <-. eapply keeps_invariant; [|done].
    by eapply create_plan_execution_keeps.
  - destruct (PlanExecutionService.update_plan_execution _ _ _ _) as [[x d]|] eqn:E;
      [|done].
    injection H as <- <-. eapply keeps_invariant; [|done].
    by eapply update_plan_execution_keeps.
  - destruct (PlanExecutionService.delete_plan_execution _ _ _) as [d|] eqn:E; [|done].
    injection H as <- <-. eapply keeps_invariant; [|done].
    by eapply delete_plan_execution_keeps.
Qed.

Lemma serve_invariant requests : ∀ db scheduler db' scheduler',
  plans_keep_exercises db →
  Routes.serve (db, scheduler) requests = Py.Ok (db', scheduler') →
  plans_keep_exercises db'.
Proof.
  induction requests as [|request requests IH]; intros db s db' s' inv H;
    cbn [Routes.serve] in H.
  - by injection H as <- <-.
  - destruct (Routes.handle (db, s) request) as [[d1 s1]|] eqn:E; [|done].
    cbn [mbind Result_bind Py.bind] in H.
    eapply IH; [|done]. by eapply handle_invariant.
Qed.

Lemma empty_db_invariant dialect : plans_keep_exercises (empty_db dialect).
Proof.
  split; simpl; [apply NoDup_nil_2 | by intros e ?%elem_of_nil
                | by intros p ?%elem_of_nil].
Qed.

(** C3, as the code has it. When the owner of a plan that is not deleted
    asks to delete its only exercise, [delete_exercise] raises
    BusinessRuleViolation and the store is as before. Asked by a user who
    does not own the plan, it raises NotFound, whatever the number of
    exercises, and the store is as before: the ownership join comes
    before the count. Whoever asks, a call on a plan with at most one
    exercise never returns, so the exercise stays. Over any sequence of
    requests that all succeed, on either engine, every plan that is not
    deleted keeps at least one exercise. *)
Theorem last_exercise_is_kept :
  (∀ db user_id plan_id plan exercise,
     db_wf db →
     plan ∈ fitness_plans db →
     FitnessPlan.id plan = plan_id →
     FitnessPlan.user_id plan = user_id →
     FitnessPlan.deleted_at plan = None →
     plan_exercises db plan_id = [exercise] →
     let r := ExerciseService.delete_exercise db user_id plan_id (Exercise.id exercise) in
     (∃ detail, r = Py.Err (Py.BusinessRuleViolationException detail))
     ∧ (∀ e, r = Py.Err e → Py.kind e = Py.BusinessRuleViolation)
     ∧ plan_exercises (store_after db r) plan_id = [exercise])
  ∧ (∀ db user_id plan_id exercise_id,
       ¬ is_owner db user_id plan_id →
       let r := ExerciseService.delete_exercise db user_id plan_id exercise_id in
       r = Py.Err (Py.NotFoundException "Exercise not found")
       ∧ (∀ e, r = Py.Err e → Py.kind e = Py.NotFound)
       ∧ store_after db r = db)
  ∧ (∀ db user_id plan_id exercise_id,
       (length (plan_exercises db plan_id) ≤ 1)%nat →
       let r := ExerciseService.delete_exercise db user_id plan_id exercise_id in
       (∃ e, r = Py.Err e) ∧ store_after db r = db)
  ∧ (∀ requests db scheduler db' scheduler' p,
       plans_keep_exercises db →
       Routes.serve (db, scheduler) requests = Py.Ok (db', scheduler') →
       p ∈ fitness_plans db' → FitnessPlan.deleted_at p = None →
       (1 ≤ length (plan_exercises db' (FitnessPlan.id p)))%nat)
  ∧ ∀ dialect, plans_keep_exercises (empty_db dialect).
Proof.
  split; [|split; [|split; [|split]]].
  - intros db user_id plan_id plan exercise Hwf Hp Hid Hu Hdel Hone r.
    unfold r. rewrite (delete_last_exercise_by_owner db user_id plan_id plan) by done.
    split; [by eexists|]. split; [by intros e [= <-]|done].
  - intros db user_id plan_id exercise_id Hno r.
    assert (r = Py.Err (Py.NotFoundException "Exercise not found")) as ->.
    { unfold r, ExerciseService.delete_exercise.
      by rewrite owned_exercises_not_owner. }
    split; [done|]. split; [by intros e [= <-]|done].
  - intros db user_id plan_id exercise_id Hle r.
    assert (∃ e, r = Py.Err e) as [e He]; [|rewrite He; split; [by exists e | done]].
    unfold r, ExerciseService.delete_exercise.
    destruct (Py.scalar_one_or_none _) as [[old|]|]; cbn [mbind Result_bind Py.bind];
      [|by eexists..].
    destruct (_ <=? 1) eqn:Hcnt; [by eexists|].
    apply Z.leb_gt in Hcnt. lia.
  - intros requests db scheduler db' scheduler' p inv Hserve.
    apply (pke_count db'). by eapply serve_invariant.
  - apply empty_db_invariant.
Qed.

(** The theorem at the example data: Alice cannot delete the only
    exercise of her plan, and Bob, a member who does not own it, is
    answered NotFound; after the end-to-end scenario her plan has one
    exercise left, which a further deletion does not remove. *)
Lemma last_exercise_is_kept_witness :
  db_wf db_single
  ∧ plan_exercises db_single 10 = [run20]
  ∧ (∃ detail,
       ExerciseService.delete_exercise db_single 1 10 20
       = Py.Err (Py.BusinessRuleViolationException detail))
  ∧ ¬ is_owner db_single 2 10
  ∧ ExerciseService.delete_exercise db_single 2 10 20
    = Py.Err (Py.NotFoundException "Exercise not found")
  ∧ ∃ db',
      Routes.serve (empty_db PostgreSQL, None) scenario = Py.Ok (db', None)
      ∧ length (plan_exercises db' 0) = 1%nat
      ∧ ∀ p, p ∈ fitness_plans db' → FitnessPlan.deleted_at p = None →
             (1 ≤ length (plan_exercises db' (FitnessPlan.id p)))%nat.
Proof.
  destruct last_exercise_is_kept as (HA & HN & _ & HB & Hempty).
  assert (db_wf db_single) as Hwf.
  { split; try apply db_demo_wf. compute_done. }
  assert (¬ is_owner db_single 2 10) as Hno.
  { intros (p & ->%list_elem_of_singleton & _ & Hu). done. }
  split; [done|]. split; [reflexivity|]. split; [|split; [done|split]].
  - by destruct (HA db_single 1%nat 10%nat plan10 run20 Hwf) as [H _];
      [by left | done..].
  - by destruct (HN db_single 2%nat 10%nat 20%nat Hno) as [H _].
  - eexists. split; [reflexivity|]. split; [reflexivity|].
    intros p. eapply (HB scenario (empty_db PostgreSQL) None); [done | reflexivity].
Defined.

(** A name is measured in its characters, as pydantic and PostgreSQL
    measure it: a plan name of 42 characters in 126 bytes passes the
    schema and is stored. *)
Lemma plan_name_counted_in_characters :
  String.length name42 = 126%nat
  ∧ Py.len_str name42 = 42%nat
  ∧ ∃ db',
      Routes.handle (empty_db PostgreSQL, None)
        (Routes.create_fitness_plan 1
           {| fc_name := name42; fc_description := None;
              fc_exercises := [exercise_payload "Run"] |})
      = Py.Ok (db', None)
      ∧ FitnessPlan.name <$> fitness_plans db' = [name42].
Proof.
  split; [vm_compute; reflexivity|]. split; [vm_compute; reflexivity|].
  eexists. split; vm_compute; reflexivity.
Qed.

(** ** The reminder schedule translator *)

Lemma cron_day_digit (day : Z) :
  1 ≤ day ≤ 7 →
  ∃ c, Py.str ((day - 1) mod 7) = String c EmptyString
       ∧ Ascii.eqb c ","%char = false
       ∧ digit_of c = Some ((day - 1) mod 7)
       ∧ weekday_of_cron ((day - 1) mod 7) = weekday_of_reminder day.
Proof.
  intros H.
  assert (day = 1 ∨ day = 2 ∨ day = 3 ∨ day = 4 ∨ day = 5 ∨ day = 6 ∨ day = 7)
    as [->|[->|[->|[->|[->|[->| ->]]]]]] by lia;
    eexists; (split; [vm_compute; reflexivity|]); done.
Qed.

Lemma cron_days_cons (day : Z) (days : list Z) :
  ReminderService.cron_days (day :: days)
  = match days with
    | [] => Py.str ((day - 1) mod 7)
    | _ => Py.str ((day - 1) mod 7) +:+ "," +:+ ReminderService.cron_days days
    end.
Proof. by destruct days. Qed.

Lemma parse_digit (c : Ascii.ascii) (k : Z) :
  Ascii.eqb c ","%char = false → digit_of c = Some k →
  parse_days (String c EmptyString) None = [k]
  ∧ ∀ rest, parse_days (String c (String ","%char rest)) None
            = k :: parse_days rest None.
Proof.
  intros Hc Hd. split; [|intros rest]; cbn [parse_days]; rewrite Hc, Hd; simpl;
    by destruct k.
Qed.

(** The scheduler reads back the days the translator wrote. *)
Lemma parse_cron_days (days : list Z) :
  Forall (λ day, 1 ≤ day ≤ 7) days →
  weekday_of_cron <$> parse_days (ReminderService.cron_days days) None
  = weekday_of_reminder <$> days.
Proof.
  induction 1 as [|day days Hday Hdays IH]; [done|].
  rewrite cron_days_cons.
  destruct (cron_day_digit day Hday) as (c & -> & Hc & Hd & Hw).
  destruct (parse_digit c _ Hc Hd) as [H1 H2].
  destruct days as [|day' days].
  - rewrite H1, !fmap_cons, Hw. done.
  - change (String c "" +:+ "," +:+ ReminderService.cron_days (day' :: days))
      with (String c (String ","%char (ReminderService.cron_days (day' :: days)))).
    rewrite H2, !fmap_cons, Hw. f_equal. exact IH.
Qed.

(** C7. The translator is a function of the time, the frequency and the
    weekdays. The trigger always fires at the given time. For [daily] it
    fires every day, whatever the weekdays. For [weekly] or [custom] with
    a non-empty weekday list it carries the weekdays, each 1..7 written as
    the scheduler's 0..6, and fires on exactly those days, 1 being the
    scheduler's Monday. For [weekly] or [custom] without weekdays it is the
    daily trigger. *)
Theorem create_cron_trigger_cases (reminder_time : time)
    (frequency : ReminderFrequency) (days_of_week : option (list Z)) :
  let trigger :=
    ReminderService._create_cron_trigger reminder_time frequency days_of_week in
  let daily :=
    ReminderService._create_cron_trigger reminder_time DAILY None in
  fires_at trigger reminder_time
  ∧ (frequency = DAILY → trigger = daily ∧ ∀ w, fires_on trigger w)
  ∧ (∀ days,
       frequency ≠ DAILY → days_of_week = Some days → days ≠ [] →
       day_of_week trigger
       = Some (Py.str_join "," ((λ day, Py.str ((day - 1) mod 7)) <$> days))
       ∧ (Forall (λ day, 1 ≤ day ≤ 7) days →
          (∀ w, fires_on trigger w ↔ Some w ∈ weekday_of_reminder <$> days)
          ∧ (1 ∈ days → fires_on trigger Mon)))
  ∧ (frequency ≠ DAILY → days_of_week = None ∨ days_of_week = Some [] →
     trigger = daily ∧ ∀ w, fires_on trigger w).
Proof.
  unfold ReminderService._create_cron_trigger.
  split; [|split; [|split]].
  - by destruct frequency, days_of_week as [[|? ?]|].
  - by intros ->.
  - intros days Hf -> Hne.
    assert (day_of_week
              (ReminderService._create_cron_trigger reminder_time frequency (Some days))
            = Some (ReminderService.cron_days days)) as E.
    { unfold ReminderService._create_cron_trigger.
      by destruct frequency, days as [|? ?]. }
    unfold ReminderService._create_cron_trigger in E. split; [exact E|].
    intros Hdays. unfold fires_on. rewrite E, parse_cron_days by done.
    split; [done|]. intros H1.
    by apply (list_elem_of_fmap_2 weekday_of_reminder) in H1.
  - intros Hf [-> | ->]; by destruct frequency.
Qed.

Lemma create_cron_trigger_cases_witness :
  WEEKLY ≠ DAILY
  ∧ Forall (λ day, 1 ≤ day ≤ 7) [1; 3; 5]
  ∧ day_of_week (ReminderService._create_cron_trigger half_past_seven WEEKLY (Some [1; 3; 5]))
    = Some "0,2,4"
  ∧ fires_on (ReminderService._create_cron_trigger half_past_seven WEEKLY (Some [1; 3; 5])) Mon
  ∧ ReminderService._create_cron_trigger half_past_seven DAILY (Some [1; 3; 5])
    = ReminderService._create_cron_trigger half_past_seven DAILY None.
Proof.
  assert (Forall (λ day, 1 ≤ day ≤ 7) [1; 3; 5]) as Hdays
    by (repeat constructor; lia).
  split; [done|]. split; [done|].
  destruct (create_cron_trigger_cases half_past_seven WEEKLY (Some [1; 3; 5]))
    as (_ & _ & H & _).
  destruct (H [1; 3; 5]) as [Hd Hf]; [done..|].
  split; [exact Hd|]. split.
  - destruct (Hf Hdays) as [_ HMon]. apply HMon. by left.
  - by destruct (create_cron_trigger_cases half_past_seven DAILY (Some [1; 3; 5]))
      as (_ & [H' _] & _).
Defined.

(** ** Logging, reading and deleting plan executions *)

Lemma add_exercise_executions_rows id items : ∀ db,
  let db' := fold_left (PlanExecutionService.add_exercise_execution id) items db in
  exercise_executions db'
  = exercise_executions db ++ exercise_execution_rows id (next_uuid db) items
  ∧ next_uuid db' = (next_uuid db + length items)%nat
  ∧ plan_executions db' = plan_executions db
  ∧ fitness_plans db' = fitness_plans db
  ∧ plan_members db' = plan_members db.
Proof.
  induction items as [|x items IH]; intros db; cbn [fold_left].
  - cbn zeta. unfold exercise_execution_rows. simpl.
    rewrite app_nil_r. repeat split; lia.
  - destruct (IH (PlanExecutionService.add_exercise_execution id db x))
      as (He & Hn & Hx & Hp & Hm).
    cbn zeta. rewrite He, Hn, Hx, Hp, Hm. simpl.
    rewrite <- app_assoc. repeat split; lia.
Qed.

Lemma add_exercise_executions_engine id items : ∀ db,
  let db' := fold_left (PlanExecutionService.add_exercise_execution id) items db in
  dialect db' = dialect db ∧ exercises db' = exercises db.
Proof.
  induction items as [|x items IH]; intros db; cbn [fold_left]; [done|].
  destruct (IH (PlanExecutionService.add_exercise_execution id db x)) as [Hd He].
  cbn zeta. by rewrite Hd, He.
Qed.

(** The commit of the rows of a payload raises exactly when the engine
    does not accept them. *)
Lemma commit_error_accepted db db' items :
  dialect db' = dialect db → exercises db' = exercises db →
  (execution_rows_accepted db items →
   PlanExecutionService.commit_error db' items = None)
  ∧ (¬ execution_rows_accepted db items →
     ∃ e, PlanExecutionService.commit_error db' items = Some e
          ∧ Py.kind e = Py.Internal).
Proof.
  intros Hd He.
  unfold PlanExecutionService.commit_error, execution_rows_accepted.
  rewrite Hd, He.
  set (fits := λ x, Engine.optional_integer_fits (dialect db)
                      (xc_actual_duration_minutes x)
                    && Engine.optional_integer_fits (dialect db)
                         (xc_actual_repetitions x)).
  set (known := λ x, bool_decide (xc_exercise_id x ∈ Exercise.id <$> exercises db)).
  assert (forallb fits items ↔ Forall (λ x, fits x) items) as Hfits
    by apply forallb_True.
  assert (forallb known items ↔ Forall (λ x, known x) items) as Hknown
    by apply forallb_True.
  rewrite Forall_forall in Hfits, Hknown.
  destruct (forallb fits items) eqn:Ef; cbn [negb].
  - destruct (Engine.foreign_keys (dialect db) && negb (forallb known items)) eqn:Ek.
    + apply andb_prop in Ek as [Efk Ek]. apply negb_true_iff in Ek.
      split; [|by eexists]. intros Hacc. rewrite Forall_forall in Hacc.
      assert (Is_true (forallb known items)) as Hk; [|by rewrite Ek in Hk].
      apply Hknown. intros x Hx. apply bool_decide_pack.
      apply (Hacc x Hx). by rewrite Efk.
    + split; [done|]. intros Hno. destruct Hno. apply Forall_forall. intros x Hx.
      pose proof (proj1 Hfits I x Hx) as [H1 H2]%andb_True.
      split; [done|]. split; [done|]. intros Hfk.
      destruct (Engine.foreign_keys (dialect db)); [|done].
      apply negb_false_iff in Ek.
      assert (Is_true (forallb known items)) as Hk by by rewrite Ek.
      pose proof (proj1 Hknown Hk x Hx) as Hin. unfold known in Hin.
      by apply bool_decide_unpack in Hin.
  - split; [|intros _; eexists; split; [done | by destruct (dialect db)]].
    intros Hacc. rewrite Forall_forall in Hacc.
    assert (Is_true false) as []. apply Hfits. intros x Hx.
    destruct (Hacc x Hx) as (H1 & H2 & _). by apply andb_True.
Qed.

Lemma accessible_plans_participant db user_id plan :
  NoDup (FitnessPlan.id <$> fitness_plans db) →
  plan ∈ fitness_plans db →
  participates db user_id (FitnessPlan.id plan) →
  PlanExecutionService.accessible_plans db user_id (FitnessPlan.id plan) = [plan].
Proof.
  intros Hnd Hin Hpart. unfold PlanExecutionService.accessible_plans.
  apply NoDup_singleton_eq; [by eapply NoDup_filter, NoDup_fmap_1|].
  intros p. rewrite list_elem_of_filter. split.
  - intros ((Hpid & _) & Hpin).
    assert (p ∈ filter (λ y, FitnessPlan.id y = FitnessPlan.id plan) (fitness_plans db))
      as Hf by by apply list_elem_of_filter.
    rewrite filter_unique in Hf by done. by apply list_elem_of_singleton in Hf.
  - intros ->. split; [|done]. split; [done|].
    destruct Hpart as [(q & Hq & Hid & Hu) | Hmem].
    + left. assert (q = plan) as <-; [|done].
      assert (q ∈ filter (λ y, FitnessPlan.id y = FitnessPlan.id plan) (fitness_plans db))
        as Hf by by apply list_elem_of_filter.
      rewrite filter_unique in Hf by done. by apply list_elem_of_singleton in Hf.
    + right. by apply member_plan_ids_elem.
Qed.

Lemma filter_fresh_key {A} (key : A → nat) (l : list A) (n : nat) :
  Forall (λ x, (key x < n)%nat) l → filter (λ x, key x = n) l = [].
Proof.
  intros H. apply filter_none. intros x Hx Heq.
  eapply Forall_forall in H; [|done]. simpl in H. lia.
Qed.

(** A user who neither owns the plan nor is a member of it cannot log an
    execution of it: [create_plan_execution] raises NotFound. *)
Theorem create_plan_execution_requires_access now db user_id execution_data :
  ¬ participates db user_id (pc_plan_id execution_data) →
  PlanExecutionService.create_plan_execution now db user_id execution_data
  = Py.Err (Py.NotFoundException "Fitness plan not found").
Proof.
  intros Hno. unfold PlanExecutionService.create_plan_execution,
    PlanExecutionService.accessible_plans.
  rewrite filter_none; [done|].
  intros p Hp (Hid & [Hu | Hm]); apply Hno.
  - left. by exists p.
  - right. apply member_plan_ids_elem. by rewrite <- Hid.
Qed.

Lemma create_plan_execution_requires_access_witness :
  ¬ participates db_demo 3 10
  ∧ ∀ now notes items,
      PlanExecutionService.create_plan_execution now db_demo 3
        {| pc_plan_id := 10; pc_execution_date := now; pc_notes := notes;
           pc_exercise_executions := items |}
      = Py.Err (Py.NotFoundException "Fitness plan not found").
Proof.
  assert (¬ participates db_demo 3 10) as Hno.
  { intros [(p & ->%list_elem_of_singleton & _ & Hu)
           | (m & ->%list_elem_of_singleton & _ & Hu)]; done. }
  split; [done|]. intros now notes items.
  by apply create_plan_execution_requires_access.
Defined.

(** The owner or a member of a plan, deleted or not, logs an execution
    whose rows the engine accepts (the recorded amounts fit the Integer
    columns and, where foreign keys are enforced, every row names a
    stored exercise): the execution is stored with a fresh id under the
    caller's name, its exercise executions are exactly the rows of the
    payload, in order, the exercise executions of the other executions
    are as before, and the caller reads the new execution back by its
    id. When the engine does not accept a row, the commit raises and
    nothing is stored. *)
Theorem create_plan_execution_stores now db user_id execution_data plan :
  db_wf db → db_fresh db →
  plan ∈ fitness_plans db →
  FitnessPlan.id plan = pc_plan_id execution_data →
  participates db user_id (pc_plan_id execution_data) →
  (execution_rows_accepted db (pc_exercise_executions execution_data) →
   ∃ x db',
     PlanExecutionService.create_plan_execution now db user_id execution_data
     = Py.Ok (x, db')
     ∧ PlanExecution.id x = next_uuid db
     ∧ PlanExecution.user_id x = user_id
     ∧ PlanExecution.plan_id x = pc_plan_id execution_data
     ∧ plan_executions db' = plan_executions db ++ [x]
     ∧ execution_exercise_executions db' (PlanExecution.id x)
       = exercise_execution_rows (next_uuid db) (S (next_uuid db))
           (pc_exercise_executions execution_data)
     ∧ (∀ y, y ∈ plan_executions db →
             execution_exercise_executions db' (PlanExecution.id y)
             = execution_exercise_executions db (PlanExecution.id y))
     ∧ PlanExecutionService.get_plan_execution_by_id db' user_id (PlanExecution.id x)
       = Py.Ok x)
  ∧ (¬ execution_rows_accepted db (pc_exercise_executions execution_data) →
     ∃ e,
       PlanExecutionService.create_plan_execution now db user_id execution_data
       = Py.Err e
       ∧ Py.kind e = Py.Internal).
Proof.
  intros Hwf Hfresh Hplan Hid Hpart.
  unfold PlanExecutionService.create_plan_execution.
  rewrite <- Hid in Hpart |- *.
  rewrite accessible_plans_participant; [| apply Hwf | done..].
  cbn [mbind Result_bind Py.bind Py.scalar_one_or_none]. unfold uuid4.
  match goal with
  | |- context [fold_left _ ?items ?d] =>
      destruct (add_exercise_executions_rows (next_uuid db) items d)
        as (He & Hn & Hx & _ & _);
      destruct (add_exercise_executions_engine (next_uuid db) items d) as [Hd Hex];
      destruct (commit_error_accepted db (fold_left
                  (PlanExecutionService.add_exercise_execution (next_uuid db)) items d)
                  items Hd Hex) as [Hok Hraise]
  end.
  simpl in He, Hn, Hx.
  split; [|intros Hno; destruct (Hraise Hno) as (e & -> & Hkind); by exists e].
  intros Hacc. rewrite (Hok Hacc).
  eexists _, _. split; [reflexivity|]. simpl.
  split; [done|]. split; [done|]. split; [done|]. split; [by rewrite Hx|].
  assert (∀ k (items : list ExerciseExecutionCreate) first,
            filter (λ r, ExerciseExecution.plan_execution_id r = k)
                   (exercise_execution_rows k first items)
            = exercise_execution_rows k first items) as Hown.
  { intros k items first. apply filter_all, Forall_forall.
    by intros r (ix & -> & _)%list_elem_of_fmap. }
  split; [|split].
  - unfold execution_exercise_executions. rewrite He, filter_app, Hown.
    rewrite filter_none; [done|].
    intros r Hr Heq.
    pose proof (fresh_exercise_executions db Hfresh) as Hf.
    eapply Forall_forall in Hf; [|done]. simpl in Hf. lia.
  - intros y Hy. unfold execution_exercise_executions.
    rewrite He, filter_app, (filter_none _ (exercise_execution_rows _ _ _));
      [by rewrite app_nil_r|].
    intros r (ix & -> & _)%list_elem_of_fmap Heq. simpl in Heq.
    pose proof (fresh_executions db Hfresh) as Hf.
    eapply Forall_forall in Hf; [|done]. simpl in Hf. lia.
  - unfold PlanExecutionService.get_plan_execution_by_id. rewrite Hx.
    rewrite filter_app, filter_none.
    + rewrite filter_cons, decide_True by done. done.
    + intros y Hy [Heq _].
      pose proof (fresh_executions db Hfresh) as Hf.
      eapply Forall_forall in Hf; [|done]. simpl in Hf. lia.
Qed.

Lemma db_demo_fresh : db_fresh db_demo.
Proof. split; compute_done. Qed.

(** Bob logs a run of 25 minutes; a run of 2^63 minutes, which the
    schema accepts, is refused by the commit. *)
Lemma create_plan_execution_stores_witness :
  db_wf db_demo ∧ db_fresh db_demo
  ∧ plan10 ∈ fitness_plans db_demo
  ∧ participates db_demo 2 10
  ∧ execution_rows_accepted db_demo (pc_exercise_executions log_payload)
  ∧ (∃ x db',
       PlanExecutionService.create_plan_execution 9 db_demo 2 log_payload = Py.Ok (x, db')
       ∧ PlanExecution.id x = 100%nat
       ∧ PlanExecutionService.get_plan_execution_by_id db' 2 100 = Py.Ok x)
  ∧ PlanExecutionCreate_valid log_overflow = true
  ∧ ¬ execution_rows_accepted db_demo (pc_exercise_executions log_overflow)
  ∧ ∃ e, PlanExecutionService.create_plan_execution 9 db_demo 2 log_overflow = Py.Err e
         ∧ Py.kind e = Py.Internal.
Proof.
  assert (participates db_demo 2 10) as Hpart.
  { right. eexists. split; [by left | done]. }
  assert (execution_rows_accepted db_demo (pc_exercise_executions log_payload)) as Hacc.
  { repeat constructor. }
  assert (¬ execution_rows_accepted db_demo (pc_exercise_executions log_overflow)) as Hno.
  { intros [[H _] _]%Forall_cons. exact H. }
  split; [apply db_demo_wf|]. split; [apply db_demo_fresh|].
  split; [by left|]. split; [done|]. split; [done|]. split; [|split; [done|split; [done|]]].
  - destruct (create_plan_execution_stores 9 db_demo 2 log_payload plan10
                db_demo_wf db_demo_fresh) as [H _]; [by left | done | done |].
    destruct (H Hacc) as (x & db' & Hc & Hid & _ & _ & _ & _ & _ & Hget).
    exists x, db'. split; [done|]. split; [exact Hid|].
    rewrite Hid in Hget. exact Hget.
  - destruct (create_plan_execution_stores 9 db_demo 2 log_overflow plan10
                db_demo_wf db_demo_fresh) as [_ H]; [by left | done | done |].
    exact (H Hno).
Defined.

Lemma filter_filter_implies {A} (P Q : A → Prop) `{∀ x, Decision (P x)}
    `{∀ x, Decision (Q x)} (l : list A) :
  (∀ x, P x → Q x) → filter P (filter Q l) = filter P l.
Proof.
  intros HPQ. induction l as [|x l IH]; [done|].
  rewrite !filter_cons. destruct (decide (Q x)) as [HQ|HQ].
  - rewrite filter_cons. by rewrite IH.
  - rewrite IH. rewrite decide_False; [done|]. intros HP. by apply HQ, HPQ.
Qed.

Lemma filter_filter_excludes {A} (P Q : A → Prop) `{∀ x, Decision (P x)}
    `{∀ x, Decision (Q x)} (l : list A) :
  (∀ x, P x → ¬ Q x) → filter P (filter Q l) = [].
Proof.
  intros HPQ. apply filter_none.
  intros x [HQ _]%list_elem_of_filter HP. by apply (HPQ x).
Qed.

Lemma own_execution_found db user_id (x : PlanExecution.t) :
  NoDup (PlanExecution.id <$> plan_executions db) →
  x ∈ plan_executions db →
  PlanExecution.user_id x = user_id →
  PlanExecutionService.get_plan_execution_by_id db user_id (PlanExecution.id x)
  = Py.Ok x.
Proof.
  intros Hnd Hin Hu. unfold PlanExecutionService.get_plan_execution_by_id.
  rewrite (NoDup_singleton_eq _ x); [done | by eapply NoDup_filter, NoDup_fmap_1 |].
  intros y. rewrite list_elem_of_filter. split; [|by intros ->].
  intros ((Hid & _) & Hy).
  assert (y ∈ filter (λ z, PlanExecution.id z = PlanExecution.id x) (plan_executions db))
    as Hf by by apply list_elem_of_filter.
  rewrite filter_unique in Hf by done. by apply list_elem_of_singleton in Hf.
Qed.

(** The executions of another user cannot be read, changed or deleted:
    when no execution with the id belongs to the caller, the three
    methods raise NotFound, also for an execution of a shared plan. *)
Theorem plan_execution_of_other_user_not_found db user_id execution_id :
  (∀ x, x ∈ plan_executions db → PlanExecution.id x = execution_id →
        PlanExecution.user_id x ≠ user_id) →
  PlanExecutionService.get_plan_execution_by_id db user_id execution_id
  = Py.Err (Py.NotFoundException "Plan execution not found")
  ∧ (∀ execution_data,
       PlanExecutionService.update_plan_execution db user_id execution_id execution_data
       = Py.Err (Py.NotFoundException "Plan execution not found"))
  ∧ PlanExecutionService.delete_plan_execution db user_id execution_id
    = Py.Err (Py.NotFoundException "Plan execution not found").
Proof.
  intros Hno.
  assert (PlanExecutionService.get_plan_execution_by_id db user_id execution_id
          = Py.Err (Py.NotFoundException "Plan execution not found")) as E.
  { unfold PlanExecutionService.get_plan_execution_by_id.
    rewrite filter_none; [done|]. intros x Hx [Hid Hu]. by apply (Hno x). }
  unfold PlanExecutionService.update_plan_execution,
    PlanExecutionService.delete_plan_execution.
  by rewrite E.
Qed.

Lemma plan_execution_of_other_user_not_found_witness :
  execution 32 2 7 ∈ plan_executions db_demo
  ∧ PlanExecutionService.get_plan_execution_by_id db_demo 2 32
    = Py.Ok (execution 32 2 7)
  ∧ PlanExecutionService.get_plan_execution_by_id db_demo 1 32
    = Py.Err (Py.NotFoundException "Plan execution not found")
  ∧ PlanExecutionService.delete_plan_execution db_demo 1 32
    = Py.Err (Py.NotFoundException "Plan execution not found").
Proof.
  split; [by right; right; left|]. split; [reflexivity|].
  destruct (plan_execution_of_other_user_not_found db_demo 1 32) as (H1 & _ & H3);
    [|done].
  apply (Forall_forall
           (λ x, PlanExecution.id x = 32%nat → PlanExecution.user_id x ≠ 1%nat)).
  compute_done.
Defined.

(** Deleting an own execution takes away that execution and, with it,
    its exercise executions, and nothing else: the other executions and
    their exercise executions stay, and the deleted execution is no longer
    found. *)
Theorem delete_plan_execution_cascades db user_id (x : PlanExecution.t) :
  NoDup (PlanExecution.id <$> plan_executions db) →
  x ∈ plan_executions db →
  PlanExecution.user_id x = user_id →
  ∃ db',
    PlanExecutionService.delete_plan_execution db user_id (PlanExecution.id x)
    = Py.Ok db'
    ∧ x :: plan_executions db' ≡ₚ plan_executions db
    ∧ execution_exercise_executions db' (PlanExecution.id x) = []
    ∧ (∀ k, k ≠ PlanExecution.id x →
            execution_exercise_executions db' k = execution_exercise_executions db k)
    ∧ PlanExecutionService.get_plan_execution_by_id db' user_id (PlanExecution.id x)
      = Py.Err (Py.NotFoundException "Plan execution not found").
Proof.
  intros Hnd Hin Hu. unfold PlanExecutionService.delete_plan_execution.
  rewrite own_execution_found by done. cbn [mbind Result_bind Py.bind].
  eexists. split; [reflexivity|]. simpl.
  split; [by apply delete_row_perm|]. split; [|split].
  - unfold execution_exercise_executions. simpl.
    apply filter_filter_excludes. intros r Hr Hne. by apply Hne.
  - intros k Hk. unfold execution_exercise_executions. simpl.
    apply filter_filter_implies. intros r Hr. congruence.
  - unfold PlanExecutionService.get_plan_execution_by_id. simpl.
    rewrite filter_filter_excludes; [done|]. intros y [Hy _] Hne. by apply Hne.
Qed.

Lemma delete_plan_execution_cascades_witness :
  NoDup (PlanExecution.id <$> plan_executions db_demo)
  ∧ execution 32 2 7 ∈ plan_executions db_demo
  ∧ ∃ db',
      PlanExecutionService.delete_plan_execution db_demo 2 32 = Py.Ok db'
      ∧ execution_exercise_executions db' 32 = []
      ∧ execution_exercise_executions db' 30 = execution_exercise_executions db_demo 30.
Proof.
  assert (execution 32 2 7 ∈ plan_executions db_demo) as Hin
    by (by right; right; left).
  split; [compute_done|]. split; [done|].
  destruct (delete_plan_execution_cascades db_demo 2 (execution 32 2 7))
    as (db' & H & _ & Hx & Hk & _); [compute_done | done | done |].
  exists db'. split; [done|]. split; [done|]. by apply Hk.
Defined.

(** Updating an own execution keeps its id, plan, user and creation
    time. When the request carries exercise executions that the engine
    accepts (the recorded amounts fit the Integer columns and, where
    foreign keys are enforced, every row names a stored exercise), the
    stored ones of this execution are replaced by the rows of the
    request; when it carries none, they stay. The exercise executions of
    other executions stay in both cases. When the engine does not accept
    a row of the request, the commit raises and nothing is changed. *)
Theorem update_plan_execution_replaces db user_id (x : PlanExecution.t) execution_data :
  NoDup (PlanExecution.id <$> plan_executions db) →
  x ∈ plan_executions db →
  PlanExecution.user_id x = user_id →
  let rows := default [] (pu_exercise_executions execution_data) in
  (execution_rows_accepted db rows →
   ∃ x' db',
     PlanExecutionService.update_plan_execution db user_id (PlanExecution.id x)
       execution_data
     = Py.Ok (x', db')
     ∧ PlanExecution.id x' = PlanExecution.id x
     ∧ PlanExecution.plan_id x' = PlanExecution.plan_id x
     ∧ PlanExecution.user_id x' = user_id
     ∧ PlanExecution.created_at x' = PlanExecution.created_at x
     ∧ execution_exercise_executions db' (PlanExecution.id x)
       = match pu_exercise_executions execution_data with
         | Some new => exercise_execution_rows (PlanExecution.id x) (next_uuid db) new
         | None => execution_exercise_executions db (PlanExecution.id x)
         end
     ∧ (∀ k, k ≠ PlanExecution.id x →
             execution_exercise_executions db' k = execution_exercise_executions db k))
  ∧ (¬ execution_rows_accepted db rows →
     ∃ e,
       PlanExecutionService.update_plan_execution db user_id (PlanExecution.id x)
         execution_data
       = Py.Err e
       ∧ Py.kind e = Py.Internal).
Proof.
  intros Hnd Hin Hu. unfold PlanExecutionService.update_plan_execution.
  rewrite own_execution_found by done. cbn [mbind Result_bind Py.bind].
  destruct (pu_exercise_executions execution_data) as [new|];
    cbn [from_option id]; cbn zeta.
  2:{ split; [|intros []; constructor]. intros _.
      unfold PlanExecutionService.commit_error. cbn [forallb negb].
      rewrite andb_false_r.
      eexists _, _. split; [reflexivity|]. simpl. by repeat split. }
  match goal with
  | |- context [fold_left _ new ?d] =>
      destruct (add_exercise_executions_rows (PlanExecution.id x) new d)
        as (He & _);
      destruct (add_exercise_executions_engine (PlanExecution.id x) new d) as [Hd Hex];
      destruct (commit_error_accepted db (fold_left
                  (PlanExecutionService.add_exercise_execution (PlanExecution.id x))
                  new d) new Hd Hex) as [Hok Hraise]
  end.
  split; [|intros Hno; destruct (Hraise Hno) as (e & -> & Hkind); by exists e].
  intros Hacc. rewrite (Hok Hacc).
  eexists _, _. split; [reflexivity|]. simpl.
  split; [done|]. split; [done|]. split; [done|]. split; [done|].
  simpl in He. unfold execution_exercise_executions. rewrite He. split.
  - rewrite filter_app, filter_filter_excludes
      by (intros r Hr Hne; by apply Hne).
    apply filter_all, Forall_forall.
    by intros r (ix & -> & _)%list_elem_of_fmap.
  - intros k Hk. rewrite filter_app, filter_filter_implies
      by (intros r Hr; congruence).
    rewrite (filter_none _ (exercise_execution_rows _ _ _)); [by rewrite app_nil_r|].
    by intros r (ix & -> & _)%list_elem_of_fmap.
Qed.

(** Alice logs the run again for her execution 31; with an exercise
    that is not stored, the commit is refused where foreign keys are
    enforced. *)
Lemma update_plan_execution_replaces_witness :
  NoDup (PlanExecution.id <$> plan_executions db_demo)
  ∧ execution 31 1 6 ∈ plan_executions db_demo
  ∧ execution_exercise_executions db_demo 31 = []
  ∧ execution_rows_accepted db_demo (pc_exercise_executions log_payload)
  ∧ (∃ x' db',
       PlanExecutionService.update_plan_execution db_demo 1 31 relog_payload
       = Py.Ok (x', db')
       ∧ length (execution_exercise_executions db' 31) = 1%nat)
  ∧ ¬ execution_rows_accepted db_demo (pc_exercise_executions log_unknown_exercise)
  ∧ ∃ e,
      PlanExecutionService.update_plan_execution db_demo 1 31
        {| pu_execution_date := None; pu_notes := None;
           pu_exercise_executions :=
             Some (pc_exercise_executions log_unknown_exercise) |}
      = Py.Err e
      ∧ Py.kind e = Py.Internal.
Proof.
  assert (execution 31 1 6 ∈ plan_executions db_demo) as Hin
    by (by right; left).
  assert (NoDup (PlanExecution.id <$> plan_executions db_demo)) as Hnd
    by compute_done.
  assert (execution_rows_accepted db_demo (pc_exercise_executions log_payload)) as Hacc.
  { repeat constructor. }
  assert (¬ execution_rows_accepted db_demo
              (pc_exercise_executions log_unknown_exercise)) as Hno.
  { intros [(_ & _ & H) _]%Forall_cons. specialize (H I). revert H.
    change (29%nat ∉ Exercise.id <$> exercises db_demo). compute_done. }
  split; [done|]. split; [done|]. split; [reflexivity|]. split; [done|].
  split; [|split; [done|]].
  - destruct (update_plan_execution_replaces db_demo 1 (execution 31 1 6) relog_payload
                Hnd Hin eq_refl) as [H _].
    destruct (H Hacc) as (x' & db' & Hu & _ & _ & _ & _ & Hrows & _).
    exists x', db'. split; [done|].
    change (execution_exercise_executions db' 31)
      with (execution_exercise_executions db' (PlanExecution.id (execution 31 1 6))).
    by rewrite Hrows.
  - destruct (update_plan_execution_replaces db_demo 1 (execution 31 1 6)
                {| pu_execution_date := None; pu_notes := None;
                   pu_exercise_executions :=
                     Some (pc_exercise_executions log_unknown_exercise) |}
                Hnd Hin eq_refl) as [_ H].
    exact (H Hno).
Defined.

(** ** Listing plan executions: filters, order and pages *)

Lemma mapM_Result_Forall2 {A B} (f : A → Py.Result B) (l : list A) (k : list B) :
  mapM f l = Py.Ok k ↔ Forall2 (λ x y, f x = Py.Ok y) l k.
Proof.
  revert k. induction l as [|x l IH]; intros k; simpl.
  - split; [by intros [= <-] | by inversion 1].
  - split.
    + destruct (f x) as [y|] eqn:Ey; [|done]. simpl.
      destruct (mapM f l) as [k'|] eqn:Ek; [|done]. simpl.
      intros [= <-]. constructor; [done | by apply IH].
    + inversion 1 as [|? y ? k' Hy Hk]; subst.
      apply IH in Hk. by rewrite Hy, Hk.
Qed.


Lemma StronglySorted_take_drop {A} (R : relation A) (l : list A) (n m : nat) :
  StronglySorted R l → StronglySorted R (take n (drop m l)).
Proof.
  intros H. rewrite <- (take_drop m l) in H.
  apply StronglySorted_app_1_r in H.
  rewrite <- (take_drop n (drop m l)) in H.
  by apply StronglySorted_app_1_l in H.
Qed.

Lemma StronglySorted_Forall2 {A B} (R : relation A) (R' : relation B)
    (Q : A → B → Prop) (l : list A) (k : list B) :
  (∀ x y s t, Q x s → Q y t → R x y → R' s t) →
  Forall2 Q l k → StronglySorted R l → StronglySorted R' k.
Proof.
  intros HR. induction 1 as [|x s l k Hxs Hlk IH]; [constructor|].
  intros [Hx Hl]%StronglySorted_cons.
  constructor; [by apply IH|].
  clear IH Hl. induction Hlk as [|y t l k Hyt Hlk IH]; [constructor|].
  apply Forall_cons in Hx as [Hxy Hx].
  constructor; [by eapply HR | by apply IH].
Qed.

Lemma date_created_gt_asym a b :
  PlanExecutionService.date_created_gt a b = true →
  PlanExecutionService.date_created_gt b a = false.
Proof.
  unfold PlanExecutionService.date_created_gt.
  intros H%bool_decide_eq_true. apply bool_decide_eq_false. lia.
Qed.

Lemma date_created_not_gt_trans a b c :
  PlanExecutionService.date_created_gt b a = false →
  PlanExecutionService.date_created_gt c b = false →
  PlanExecutionService.date_created_gt c a = false.
Proof.
  unfold PlanExecutionService.date_created_gt.
  intros H1%bool_decide_eq_false H2%bool_decide_eq_false.
  apply bool_decide_eq_false. lia.
Qed.

(** The query of [get_plan_executions] before it is ordered. *)
Lemma listing_query db user_id plan_id start_date end_date page page_size summaries total :
  PlanExecutionService.get_plan_executions db user_id plan_id start_date end_date
    page page_size = Py.Ok (summaries, total) →
  let key x := (PlanExecution.execution_date x, PlanExecution.created_at x) in
  let query :=
    Py.sorted_desc PlanExecutionService.date_created_gt key
      (filter (λ x, in_listing user_id plan_id start_date end_date x)
              (plan_executions db)) in
  total = Z.of_nat (length query)
  ∧ Forall2 (λ x s, PlanExecutionService.summary db x = Py.Ok s)
            (take page_size (drop ((page - 1) * page_size) query)) summaries.
Proof.
  unfold PlanExecutionService.get_plan_executions. intros H.
  assert (∀ l : list PlanExecution.t,
    match end_date with
    | Some end_date => filter (λ x, PlanExecution.execution_date x ≤ end_date)%nat
    | None => id
    end
      (match start_date with
       | Some start_date => filter (λ x, start_date ≤ PlanExecution.execution_date x)%nat
       | None => id
       end
         (match plan_id with
          | Some plan_id => filter (λ x, PlanExecution.plan_id x = plan_id)
          | None => id
          end (filter (λ x, PlanExecution.user_id x = user_id) l)))
    = filter (λ x, in_listing user_id plan_id start_date end_date x) l) as Hq.
  { intros l. unfold in_listing.
    destruct plan_id, start_date, end_date; simpl;
      rewrite ?list_filter_filter; apply list_filter_iff; intros x;
      rewrite ?andb_True, ?bool_decide_spec; cbn [Is_true]; tauto. }
  cbn zeta. rewrite <- Hq. clear Hq.
  match type of H with
  | (mapM _ (take _ (drop _ (Py.sorted_desc _ _ ?q))) ≫= _) = _ =>
      match goal with
      | |- context [Py.sorted_desc _ _ ?q'] => replace q' with q by by destruct plan_id, start_date, end_date
      end
  end.
  destruct (mapM _ _) as [k|] eqn:Ek; [|done].
  simpl in H. injection H as <- <-.
  split; [done|]. by apply mapM_Result_Forall2.
Qed.

(** A page of [get_plan_executions] shows only executions of the caller
    that pass the filters of the request, each as its summary, the most
    recent execution date first; the total counts all the executions of
    the caller that pass the filters, whatever the page. *)
Theorem get_plan_executions_lists_own db user_id plan_id start_date end_date
    page page_size summaries total :
  PlanExecutionService.get_plan_executions db user_id plan_id start_date end_date
    page page_size = Py.Ok (summaries, total) →
  total = Z.of_nat (length (filter (λ x, in_listing user_id plan_id start_date end_date x)
                                   (plan_executions db)))
  ∧ Forall (λ s, ∃ x, x ∈ plan_executions db
                      ∧ in_listing user_id plan_id start_date end_date x = true
                      ∧ PlanExecutionService.summary db x = Py.Ok s) summaries
  ∧ StronglySorted (λ s t, (ps_execution_date t ≤ ps_execution_date s)%nat) summaries.
Proof.
  intros [-> Hpage]%listing_query. split; [by rewrite sorted_desc_length|]. split.
  - apply Forall_forall. intros s Hs.
    destruct (proj1 (list_elem_of_lookup _ _) Hs) as [i Hi].
    destruct (Forall2_lookup_r _ _ _ _ _ Hpage Hi) as (x & Hx & Hsum).
    exists x. apply list_elem_of_lookup_2, subseteq_take, subseteq_drop in Hx.
    rewrite sorted_desc_perm in Hx.
    apply list_elem_of_filter in Hx as [Hf Hx].
    split; [done|]. split; [by apply Is_true_true|done].
  - eapply StronglySorted_Forall2; [|exact Hpage|].
    2:{ apply StronglySorted_take_drop, sorted_desc_sorted.
        - apply date_created_gt_asym.
        - apply date_created_not_gt_trans. }
    intros x y s t Hs Ht. unfold not_below, PlanExecutionService.date_created_gt.
    intros Hxy%bool_decide_eq_false. simpl in Hxy.
    unfold PlanExecutionService.summary in Hs, Ht.
    destruct (plan_of db (PlanExecution.plan_id x)); [|done].
    destruct (plan_of db (PlanExecution.plan_id y)); [|done].
    injection Hs as <-. injection Ht as <-. simpl. lia.
Qed.

Lemma get_plan_executions_lists_own_witness :
  ∃ s31 s30,
    PlanExecutionService.get_plan_executions db_demo 1 (Some 10%nat) None None 1 20
    = Py.Ok ([s31; s30], 2)
    ∧ ps_id s31 = 31%nat ∧ ps_id s30 = 30%nat
    ∧ (ps_execution_date s30 ≤ ps_execution_date s31)%nat.
Proof.
  destruct (PlanExecutionService.get_plan_executions db_demo 1 (Some 10%nat) None None 1 20)
    as [[summaries total]|] eqn:E; [|by vm_compute in E].
  destruct (get_plan_executions_lists_own _ _ _ _ _ _ _ _ _ E) as (Ht & _ & Hs).
  vm_compute in Ht. subst total.
  destruct summaries as [|s31 [|s30 [|]]]; try by vm_compute in E.
  exists s31, s30. split; [done|].
  apply StronglySorted_cons in Hs as [[Hd _]%Forall_cons _].
  assert (ps_id s31 = 31%nat ∧ ps_id s30 = 30%nat) as [? ?]; [|done].
  vm_compute in E. by injection E as <- <-.
Defined.




(** ** Rates are percentages *)

Section Percentages.
Local Open Scope Qc_scope.

Lemma Qcdiv_mult_cancel (s n : Qc) : n ≠ 0 → s / n * n = s.
Proof. intros. rewrite Qcmult_comm. by apply Qcmult_div_r. Qed.

Lemma Qc_of_Z_pos (n : Z) : (0 < n)%Z → 0 < Qc_of_Z n.
Proof. intros. rewrite <- Z2Qc_inj_0. by apply (proj1 (Z2Qc_inj_lt _ _)). Qed.

Lemma Qc_of_Z_nonneg (n : Z) : (0 ≤ n)%Z → 0 ≤ Qc_of_Z n.
Proof. intros. rewrite <- Z2Qc_inj_0. by apply (proj1 (Z2Qc_inj_le _ _)). Qed.

Lemma Qcdiv_le (hi s n : Qc) : 0 < n → s ≤ hi * n → s / n ≤ hi.
Proof.
  intros Hn H.
  assert (n ≠ 0) as Hn0 by (apply Qclt_not_eq in Hn; congruence).
  apply (Qcmult_le_mono_pos_r _ _ n Hn). by rewrite Qcdiv_mult_cancel.
Qed.

Lemma Qcdiv_ge (lo s n : Qc) : 0 < n → lo * n ≤ s → lo ≤ s / n.
Proof.
  intros Hn H.
  assert (n ≠ 0) as Hn0 by (apply Qclt_not_eq in Hn; congruence).
  apply (Qcmult_le_mono_pos_r _ _ n Hn). by rewrite Qcdiv_mult_cancel.
Qed.

Lemma foldr_Qcplus_le (hi : Qc) (l : list Qc) :
  Forall (λ x, x ≤ hi) l →
  foldr Qcplus (Qc_of_Z 0) l ≤ hi * Qc_of_Z (Z.of_nat (length l)).
Proof.
  induction 1 as [|x l Hhi _ IH].
  - cbn [length foldr]. change (Z.of_nat 0) with 0%Z.
    rewrite Z2Qc_inj_0, !Qcmult_0_r. apply Qcle_refl.
  - cbn [length foldr].
    rewrite Nat2Z.inj_succ, <- Z.add_1_l, Z2Qc_inj_add, Z2Qc_inj_1,
      !Qcmult_plus_distr_r, !Qcmult_1_r.
    by apply Qcplus_le_compat.
Qed.

Lemma foldr_Qcplus_ge (lo : Qc) (l : list Qc) :
  Forall (λ x, lo ≤ x) l →
  lo * Qc_of_Z (Z.of_nat (length l)) ≤ foldr Qcplus (Qc_of_Z 0) l.
Proof.
  induction 1 as [|x l Hlo _ IH].
  - cbn [length foldr]. change (Z.of_nat 0) with 0%Z.
    rewrite Z2Qc_inj_0, !Qcmult_0_r. apply Qcle_refl.
  - cbn [length foldr].
    rewrite Nat2Z.inj_succ, <- Z.add_1_l, Z2Qc_inj_add, Z2Qc_inj_1,
      !Qcmult_plus_distr_r, !Qcmult_1_r.
    by apply Qcplus_le_compat.
Qed.

(** The mean of rates that stay on one side of a bound stays there. *)
Lemma arithmetic_mean_le (hi : Qc) (l : list Qc) :
  Qc_of_Z 0 ≤ hi → Forall (λ x, x ≤ hi) l → arithmetic_mean l ≤ hi.
Proof.
  intros H0 Hl. destruct l as [|x l]; [done|].
  unfold arithmetic_mean. apply Qcdiv_le.
  - apply Qc_of_Z_pos. simpl length. lia.
  - by apply foldr_Qcplus_le.
Qed.

Lemma arithmetic_mean_ge (lo : Qc) (l : list Qc) :
  lo ≤ Qc_of_Z 0 → Forall (λ x, lo ≤ x) l → lo ≤ arithmetic_mean l.
Proof.
  intros H0 Hl. destruct l as [|x l]; [done|].
  unfold arithmetic_mean. apply Qcdiv_ge.
  - apply Qc_of_Z_pos. simpl length. lia.
  - by apply foldr_Qcplus_ge.
Qed.

(** Rounding to one decimal keeps a rate within 0 and 100. *)
Lemma round1_bounds (x : Qc) :
  (x ≤ Qc_of_Z 100 → Py.round1 x ≤ Qc_of_Z 100)
  ∧ (Qc_of_Z 0 ≤ x → Qc_of_Z 0 ≤ Py.round1 x).
Proof.
  unfold Py.round1.
  set (n := (Qnum x * 10)%Z). set (d := Z.pos (Qden x)).
  pose proof (Z.div_mod n d ltac:(done)) as Hdm.
  pose proof (Z.mod_pos_bound n d ltac:(done)) as Hr.
  set (q := (n / d)%Z) in *. set (r := (n mod d)%Z) in *.
  set (q' := match (2 * r ?= d)%Z with
             | Lt => q
             | Gt => (q + 1)%Z
             | Eq => if Z.even q then q else (q + 1)%Z
             end).
  assert (q ≤ q' ≤ q + 1)%Z as Hq'
    by (unfold q'; destruct (2 * r ?= d)%Z, (Z.even q); lia).
  assert (0 < Qc_of_Z 10) as H10 by by apply Qc_of_Z_pos.
  assert (Qc_of_Z 10 ≠ 0) as H10' by (pose proof (Qclt_not_eq _ _ H10); congruence).
  split; intros Hx; unfold Qcle, Qle in Hx; cbn in Hx; fold d in Hx.
  - apply (Qcmult_le_mono_pos_r _ _ _ H10).
    rewrite Qcdiv_mult_cancel, <- Z2Qc_inj_mul by done.
    apply (proj1 (Z2Qc_inj_le _ _)).
    assert (q ≤ 1000)%Z as Hq by nia.
    destruct (decide (q = 1000)) as [E|]; [|lia].
    assert (r = 0)%Z as Hr0 by nia.
    unfold q'. rewrite Hr0. simpl. destruct (Z.compare_spec 0 d); lia.
  - apply (Qcmult_le_mono_pos_r _ _ _ H10).
    rewrite Qcdiv_mult_cancel, <- Z2Qc_inj_mul by done.
    apply (proj1 (Z2Qc_inj_le _ _)). nia.
Qed.

Lemma Py_min_ge (z x y : Qc) : z ≤ x → z ≤ y → z ≤ Py.min x y.
Proof. intros. unfold Py.min. by destruct (Py.Qcle_bool x y). Qed.

Lemma truediv_percent_nonneg (a b : Z) :
  (0 ≤ a)%Z → (0 ≤ b)%Z → Qc_of_Z 0 ≤ Py.truediv a b * Qc_of_Z 100.
Proof.
  intros Ha Hb. rewrite Z2Qc_inj_0.
  apply Qcmult_nonneg_nonneg; [|by apply Qc_of_Z_nonneg].
  unfold Py.truediv, Qcdiv. apply Qcmult_nonneg_nonneg; [by apply Qc_of_Z_nonneg|].
  destruct (decide (b = 0%Z)) as [->|].
  - rewrite Z2Qc_inj_0. apply Qcle_refl.
  - apply Qclt_le_weak, Qcinv_pos, Qc_of_Z_pos. lia.
Qed.

Lemma exercise_rate_le_100 exercises x :
  exercise_rate exercises x ≤ Qc_of_Z 100.
Proof.
  unfold exercise_rate, PlanExecutionService.rate_step.
  repeat case_match; simpl;
    first [apply Py_min_le_r | apply Qcle_refl | by apply (proj1 (Z2Qc_inj_le _ _))].
Qed.

Lemma exercise_rate_nonneg exercises x :
  Forall (λ e, nonneg_opt (Exercise.duration_minutes e)
               ∧ nonneg_opt (Exercise.repetitions e)) exercises →
  nonneg_opt (ExerciseExecution.actual_duration_minutes x) →
  nonneg_opt (ExerciseExecution.actual_repetitions x) →
  Qc_of_Z 0 ≤ exercise_rate exercises x.
Proof.
  intros He Hd Hr.
  unfold exercise_rate, PlanExecutionService.rate_step.
  destruct (ExerciseExecution.completed x); simpl; [|apply Qcle_refl].
  destruct (Py.next_or_none _ _) as [e|] eqn:Enext; simpl;
    [|by apply (proj1 (Z2Qc_inj_le _ _))].
  assert (e ∈ exercises) as Hin.
  { unfold Py.next_or_none in Enext. apply head_Some_elem_of in Enext.
    by apply list_elem_of_filter in Enext as [_ ?]. }
  eapply Forall_forall in He as [Hed Her]; [|done].
  repeat case_match; simpl; try by apply (proj1 (Z2Qc_inj_le _ _)).
  - apply Py_min_ge; [|by apply (proj1 (Z2Qc_inj_le _ _))].
    apply truediv_percent_nonneg.
    + destruct (ExerciseExecution.actual_duration_minutes x); [by apply Hd | done].
    + destruct (Exercise.duration_minutes e); [by apply Hed | done].
  - apply Py_min_ge; [|by apply (proj1 (Z2Qc_inj_le _ _))].
    apply truediv_percent_nonneg.
    + destruct (ExerciseExecution.actual_repetitions x); [by apply Hr | done].
    + destruct (Exercise.repetitions e); [by apply Her | done].
Qed.

(** An exercise execution that was not completed has rate 0. *)
Lemma exercise_rate_not_completed exercises x :
  ExerciseExecution.completed x = false → exercise_rate exercises x = Qc_of_Z 0.
Proof.
  intros H. unfold exercise_rate, PlanExecutionService.rate_step. by rewrite H.
Qed.

Lemma overall_rate_le_100 db exercises (x : PlanExecution.t) :
  overall_rate db exercises x ≤ Qc_of_Z 100.
Proof.
  unfold overall_rate. rewrite completion_rate_mean.
  apply arithmetic_mean_le; [by apply (proj1 (Z2Qc_inj_le _ _))|].
  apply Forall_forall. intros r (y & -> & Hy)%list_elem_of_fmap.
  apply exercise_rate_le_100.
Qed.

Lemma overall_rate_nonneg db (es : list Exercise.t) (x : PlanExecution.t) :
  amounts_nonneg db →
  es ⊆ exercises db →
  Qc_of_Z 0 ≤ overall_rate db es x.
Proof.
  intros [Hp Ha] Hsub.
  unfold overall_rate. rewrite completion_rate_mean.
  apply arithmetic_mean_ge; [apply Qcle_refl|].
  apply Forall_forall. intros r (y & -> & Hy)%list_elem_of_fmap.
  apply list_elem_of_filter in Hy as [_ Hy].
  eapply Forall_forall in Ha as [? ?]; [|done].
  apply exercise_rate_nonneg; [|done..].
  apply Forall_forall. intros e He. eapply Forall_forall in Hp; [exact Hp|].
  by apply Hsub.
Qed.

(** An execution none of whose exercise executions was completed has
    rate 0. *)
Lemma overall_rate_none_completed db exercises (x : PlanExecution.t) :
  Forall (λ r, ExerciseExecution.completed r = false)
         (execution_exercise_executions db (PlanExecution.id x)) →
  overall_rate db exercises x = Qc_of_Z 0.
Proof.
  intros H. unfold overall_rate. rewrite completion_rate_mean.
  apply Qcle_antisym.
  - apply arithmetic_mean_le; [apply Qcle_refl|].
    apply Forall_forall. intros r (y & -> & Hy)%list_elem_of_fmap.
    eapply Forall_forall in H; [|done]. simpl in H.
    rewrite exercise_rate_not_completed by done. apply Qcle_refl.
  - apply arithmetic_mean_ge; [apply Qcle_refl|].
    apply Forall_forall. intros r (y & -> & Hy)%list_elem_of_fmap.
    eapply Forall_forall in H; [|done]. simpl in H.
    rewrite exercise_rate_not_completed by done. apply Qcle_refl.
Qed.
End Percentages.

(** The counter of the loop of [get_plan_executions] counts the
    completed exercise executions. *)
Lemma fold_rate_step_count exercises xs : ∀ rates c,
  (fold_left (PlanExecutionService.rate_step exercises) xs (rates, c)).2
  = c + Z.of_nat (length (filter (λ r, ExerciseExecution.completed r) xs)).
Proof.
  induction xs as [|x xs IH]; intros rates c; cbn [fold_left]; [simpl; lia|].
  rewrite filter_cons.
  destruct (PlanExecutionService.rate_step exercises (rates, c) x) as [rates' c'] eqn:E.
  rewrite IH.
  unfold PlanExecutionService.rate_step in E.
  destruct (ExerciseExecution.completed x); simpl in *.
  - assert (c' = c + 1) as -> by (repeat case_match; by simplify_eq).
    lia.
  - by simplify_eq.
Qed.

(** The summary of an execution counts its exercise executions and the
    completed ones among them, and shows a completion rate between 0 and
    100 (never above 100; not below 0 when the stored amounts are not
    negative), which is 0 when no exercise execution was completed. *)
Theorem summary_counts_and_bounds db (x : PlanExecution.t) (s : PlanExecutionSummary) :
  PlanExecutionService.summary db x = Py.Ok s →
  let rows := execution_exercise_executions db (PlanExecution.id x) in
  ps_total_exercises s = Z.of_nat (length rows)
  ∧ ps_completed_exercises s
    = Z.of_nat (length (filter (λ r, ExerciseExecution.completed r) rows))
  ∧ 0 ≤ ps_completed_exercises s ≤ ps_total_exercises s
  ∧ (ps_completion_rate s ≤ Qc_of_Z 100)%Qc
  ∧ (amounts_nonneg db → (Qc_of_Z 0 ≤ ps_completion_rate s)%Qc)
  ∧ (ps_completed_exercises s = 0 → ps_completion_rate s = Qc_of_Z 0).
Proof.
  unfold PlanExecutionService.summary.
  destruct (plan_of db (PlanExecution.plan_id x)) as [plan|]; [|done].
  intros [= <-]. cbn zeta. simpl.
  unfold PlanExecutionService.exercise_completion_rates.
  rewrite fold_rate_step_count, Z.add_0_l.
  set (rows := execution_exercise_executions db (PlanExecution.id x)).
  set (exercises := plan_exercises db (FitnessPlan.id plan)).
  pose proof (length_filter (λ r, Is_true (ExerciseExecution.completed r)) rows) as Hle.
  change (PlanExecutionService.completion_rate exercises rows)
    with (overall_rate db exercises x).
  split; [done|]. split; [done|]. split; [lia|]. split; [|split].
  - apply round1_bounds, overall_rate_le_100.
  - intros Hnn. apply round1_bounds, overall_rate_nonneg; [done|].
    intros e He. by apply list_elem_of_filter in He as [_ ?].
  - intros Hnone. rewrite overall_rate_none_completed; [apply round1_0|].
    apply Forall_forall. intros r Hr.
    destruct (ExerciseExecution.completed r) eqn:Ec; [|done].
    assert (r ∈ filter (λ r, Is_true (ExerciseExecution.completed r)) rows) as Hin
      by (apply list_elem_of_filter; by rewrite Ec).
    destruct (filter _ rows); [by apply elem_of_nil in Hin | simpl in Hnone; lia].
Qed.

Lemma db_demo_amounts_nonneg : amounts_nonneg db_demo.
Proof.
  split; repeat constructor; by intros n [= <-].
Qed.

Lemma summary_counts_and_bounds_witness :
  ∃ s,
    PlanExecutionService.summary db_demo (execution 32 2 7) = Py.Ok s
    ∧ ps_total_exercises s = 1 ∧ ps_completed_exercises s = 1
    ∧ (Qc_of_Z 0 ≤ ps_completion_rate s ≤ Qc_of_Z 100)%Qc.
Proof.
  destruct (PlanExecutionService.summary db_demo (execution 32 2 7)) as [s|] eqn:E;
    [|by vm_compute in E].
  exists s. split; [done|].
  destruct (summary_counts_and_bounds _ _ _ E) as (Ht & Hc & _ & Hhi & Hlo & _).
  split; [exact Ht|]. split; [exact Hc|].
  split; [apply Hlo, db_demo_amounts_nonneg | exact Hhi].
Defined.

(** ** The statistics of a leaderboard entry *)

Section LeaderboardStatistics.
Import PlanMemberService.

(** The values of [participants] are read from the user rows. *)
Lemma add_members_info db members : ∀ d ps,
  fold_left (add_member db) members (Py.Ok d) = Py.Ok ps →
  (∀ kv, kv ∈ d → ∃ user, user_of db kv.1 = Some user ∧ kv.2 = info_of kv.1 user) →
  ∀ kv, kv ∈ ps → ∃ user, user_of db kv.1 = Some user ∧ kv.2 = info_of kv.1 user.
Proof.
  induction members as [|m members IH]; intros d ps Hfold Hd;
    cbn [fold_left] in Hfold.
  - by injection Hfold as <-.
  - unfold add_member at 2 in Hfold. cbn [mbind Result_bind Py.bind] in Hfold.
    destruct (user_of db (PlanMember.user_id m)) as [user|] eqn:Hu;
      [|by rewrite add_member_err in Hfold].
    eapply IH; [exact Hfold|].
    intros kv [->|Hin]%dict_set_elem; [by exists user | by apply Hd].
Qed.

Lemma participants_info db plan members ps :
  participants_of db plan members = Py.Ok ps →
  ∀ kv, kv ∈ ps → ∃ user, user_of db kv.1 = Some user ∧ kv.2 = info_of kv.1 user.
Proof.
  unfold participants_of.
  destruct (user_of db (FitnessPlan.user_id plan)) as [owner|] eqn:Ho; [|done].
  intros Hfold. eapply add_members_info; [exact Hfold|].
  intros kv ->%list_elem_of_singleton. by exists owner.
Qed.

(** Every returned entry was built by [entry_of] for a participant. *)
Lemma leaderboard_entry_built db plan_id lb entry :
  get_plan_leaderboard db plan_id = Py.Ok lb →
  entry ∈ lb →
  ∃ user,
    user_of db (user_id entry) = Some user
    ∧ let built := entry_of db plan_id (plan_exercises db plan_id)
                     (info_of (user_id entry) user) (user_id entry) in
      user_name entry = user_name built
      ∧ user_email entry = user_email built
      ∧ total_executions entry = total_executions built
      ∧ avg_completion_rate entry = avg_completion_rate built
      ∧ last_execution_date entry = last_execution_date built.
Proof.
  intros (plan & ps & Hin & Hid & Hps & ->)%get_plan_leaderboard_inv Hentry.
  apply rank_elem in Hentry as (a & Ha & ->).
  rewrite !rank_field by done.
  apply elem_of_seq in Ha.
  destruct (lookup_lt_is_Some_2 ps a) as [item Hitem]; [lia|].
  rewrite !(list_lookup_total_correct _ a
              (entry_of db plan_id (plan_exercises db plan_id) item.2 item.1))
    by (by rewrite list_lookup_fmap, Hitem).
  apply list_elem_of_lookup_2 in Hitem.
  destruct (participants_info _ _ _ _ Hps item Hitem) as (user & Hu & Hinfo).
  rewrite entry_of_user_id, Hinfo. simpl. exists user. done.
Qed.

Lemma entry_of_total_executions db plan_id exercises info uid :
  total_executions (entry_of db plan_id exercises info uid)
  = Z.of_nat (length (executions_of db plan_id uid)).
Proof.
  unfold entry_of. destruct (Z.eqb_spec (Z.of_nat (length (executions_of db plan_id uid))) 0);
    simpl; congruence.
Qed.

Lemma entry_of_last_execution_date db plan_id exercises info uid :
  last_execution_date (entry_of db plan_id exercises info uid)
  = PlanExecution.execution_date <$> head (executions_of db plan_id uid).
Proof.
  unfold entry_of. destruct (executions_of db plan_id uid); done.
Qed.

Lemma entry_of_names db plan_id exercises user uid :
  let built := entry_of db plan_id exercises (info_of uid user) uid in
  user_email built = User.email user
  ∧ user_name built = Py.or_str (User.full_name user) (User.email user).
Proof. unfold entry_of. by destruct (_ =? _). Qed.

(** An entry of the leaderboard shows the participant's email, and as
    name the full name or, without one, the email; it counts the
    participant's executions of the plan; its last execution date is the
    latest of their dates, and there is none without executions; and its
    average completion rate lies between 0 and 100 (not below 0 when the
    stored amounts are not negative). *)
Theorem leaderboard_entry_statistics db plan_id lb entry :
  get_plan_leaderboard db plan_id = Py.Ok lb →
  entry ∈ lb →
  let own :=
    filter (λ x, PlanExecution.plan_id x = plan_id
                 ∧ PlanExecution.user_id x = user_id entry) (plan_executions db) in
  (∃ user, user_of db (user_id entry) = Some user
           ∧ user_email entry = User.email user
           ∧ user_name entry
             = match User.full_name user with
               | Some (String c s) => String c s
               | _ => User.email user
               end)
  ∧ total_executions entry = Z.of_nat (length own)
  ∧ match last_execution_date entry with
    | None => own = []
    | Some d =>
        (∃ x, x ∈ own ∧ PlanExecution.execution_date x = d)
        ∧ Forall (λ x, (PlanExecution.execution_date x ≤ d)%nat) own
    end
  ∧ (avg_completion_rate entry ≤ Qc_of_Z 100)%Qc
  ∧ (amounts_nonneg db → (Qc_of_Z 0 ≤ avg_completion_rate entry)%Qc).
Proof.
  intros Hlb Hentry own.
  destruct (leaderboard_entry_built _ _ _ _ Hlb Hentry)
    as (user & Hu & Hname & Hemail & Htotal & Havg & Hlast).
  cbn zeta in *.
  destruct (entry_of_names db plan_id (plan_exercises db plan_id) user (user_id entry))
    as [He Hn].
  rewrite He in Hemail. rewrite Hn in Hname.
  rewrite entry_of_total_executions in Htotal.
  rewrite entry_of_last_execution_date in Hlast.
  rewrite entry_of_avg in Havg.
  assert (executions_of db plan_id (user_id entry) ≡ₚ own) as Hperm
    by apply sorted_desc_perm.
  split; [|split; [|split; [|split]]].
  - exists user. split; [done|]. split; [done|].
    rewrite Hname. by destruct (User.full_name user) as [[|]|].
  - by rewrite Htotal, Hperm.
  - rewrite Hlast.
    assert (StronglySorted
              (not_below (λ a b : nat, bool_decide (b < a)%nat)
                 PlanExecution.execution_date)
              (executions_of db plan_id (user_id entry))) as Hsorted.
    { apply sorted_desc_sorted.
      - intros a b H%bool_decide_eq_true. apply bool_decide_eq_false. lia.
      - intros a b c H1%bool_decide_eq_false H2%bool_decide_eq_false.
        apply bool_decide_eq_false. lia. }
    destruct (executions_of db plan_id (user_id entry)) as [|x xs] eqn:E; simpl.
    + by apply Permutation_nil_l in Hperm.
    + split.
      * exists x. split; [|done]. rewrite <- Hperm. by left.
      * rewrite <- Hperm. apply StronglySorted_cons in Hsorted as [Hx _].
        constructor; [done|].
        eapply Forall_impl; [exact Hx|]. intros y Hy.
        unfold not_below in Hy. apply bool_decide_eq_false in Hy. simpl. lia.
  - rewrite Havg. apply round1_bounds, arithmetic_mean_le;
      [by apply (proj1 (Z2Qc_inj_le _ _))|].
    apply Forall_forall. intros r (y & -> & _)%list_elem_of_fmap.
    apply overall_rate_le_100.
  - intros Hnn. rewrite Havg. apply round1_bounds, arithmetic_mean_ge;
      [apply Qcle_refl|].
    apply Forall_forall. intros r (y & -> & _)%list_elem_of_fmap.
    apply overall_rate_nonneg; [done|].
    intros e He'. by apply list_elem_of_filter in He' as [_ ?].
Qed.
End LeaderboardStatistics.

Lemma leaderboard_entry_statistics_witness :
  ∃ lb entry,
    PlanMemberService.get_plan_leaderboard db_demo 10 = Py.Ok lb
    ∧ entry ∈ lb
    ∧ user_id entry = 2%nat
    ∧ user_name entry = "bob@example.com"
    ∧ total_executions entry = 1
    ∧ last_execution_date entry = Some 7%nat
    ∧ (avg_completion_rate entry ≤ Qc_of_Z 100)%Qc.
Proof.
  eexists _, _. split; [vm_compute; reflexivity|].
  match goal with
  | |- _ ∈ ?lb ∧ _ =>
      pose proof (λ e, leaderboard_entry_statistics db_demo 10 lb e) as H
  end.
  split; [by right; left|]. split; [reflexivity|]. split; [reflexivity|].
  split; [reflexivity|]. split; [reflexivity|].
  match goal with
  | |- (avg_completion_rate ?e ≤ _)%Qc => destruct (H e) as (_ & _ & _ & H' & _)
  end; [vm_compute; reflexivity | by right; left | exact H'].
Defined.

(** ** Membership: inviting, access, removing *)

(** A participant of a plan that is not deleted reads it. *)
Lemma get_plan_by_id_participant db user_id plan :
  NoDup (FitnessPlan.id <$> fitness_plans db) →
  plan ∈ fitness_plans db →
  FitnessPlan.deleted_at plan = None →
  participates db user_id (FitnessPlan.id plan) →
  PlanService.get_plan_by_id db user_id (FitnessPlan.id plan) = Py.Ok plan.
Proof.
  intros Hnd Hin Hdel Hpart.
  unfold PlanService.get_plan_by_id, PlanService.visible_plans.
  rewrite (NoDup_singleton_eq _ plan); [done | by eapply NoDup_filter, NoDup_fmap_1 |].
  intros p. rewrite list_elem_of_filter.
  assert (∀ q, q ∈ fitness_plans db → FitnessPlan.id q = FitnessPlan.id plan → q = plan)
    as Huniq.
  { intros q Hq Hid.
    assert (q ∈ filter (λ y, FitnessPlan.id y = FitnessPlan.id plan) (fitness_plans db))
      as Hf by by apply list_elem_of_filter.
    rewrite filter_unique in Hf by done. by apply list_elem_of_singleton in Hf. }
  split.
  - intros ((Hpid & _) & Hpin). by apply Huniq.
  - intros ->. split; [|done]. split; [done|]. split; [|done].
    destruct Hpart as [(q & Hq & Hid & Hu) | Hmem].
    + left. by rewrite <- (Huniq q Hq Hid).
    + right. by apply member_plan_ids_elem.
Qed.

(** What a successful invitation has stored. *)
Lemma invite_member_stored db plan_id inviter_user_id invitee_email member db' :
  db_wf db →
  PlanMemberService.invite_member db plan_id inviter_user_id invitee_email
  = Py.Ok (member, db') →
  ∃ plan invitee,
    filter (λ p, FitnessPlan.id p = plan_id) (fitness_plans db) = [plan]
    ∧ filter (λ u, User.email u = invitee_email) (users db) = [invitee]
    ∧ ¬ is_member db (User.id invitee) plan_id
    ∧ member = {| PlanMember.id := next_uuid db;
                  PlanMember.plan_id := plan_id;
                  PlanMember.user_id := User.id invitee;
                  PlanMember.invited_by := Some inviter_user_id |}
    ∧ db' = set_plan_members (uuid4 db).2 (plan_members db ++ [member]).
Proof.
  intros Hwf. unfold PlanMemberService.invite_member.
  destruct (Py.scalar_one_or_none (filter _ (fitness_plans db))) as [[plan|]|] eqn:Ep;
    [|done..].
  apply scalar_one_or_none_inv in Ep.
  cbn [mbind Result_bind Py.bind].
  destruct (Py.scalar_one_or_none (filter _ (users db))) as [[invitee|]|] eqn:Eu;
    [|done..].
  apply scalar_one_or_none_inv in Eu.
  cbn [mbind Result_bind Py.bind].
  destruct (Py.scalar_one_or_none (filter _ (plan_members db))) as [[existing|]|] eqn:Em;
    [done| |done].
  apply scalar_one_or_none_inv in Em.
  cbn [mbind Result_bind Py.bind]. unfold uuid4. simpl.
  rewrite new_member_reload; [| apply (wf_member_ids db Hwf) | done]. simpl.
  intros [= <- <-]. exists plan, invitee.
  split; [done|]. split; [done|]. split; [|done].
  intros (m & Hm & Hp & Hu).
  assert (m ∈ filter (λ m, PlanMember.plan_id m = plan_id
                           ∧ PlanMember.user_id m = User.id invitee) (plan_members db))
    as Hf by by apply list_elem_of_filter.
  rewrite Em in Hf. by apply elem_of_nil in Hf.
Qed.

(** An invited user is a member: they read the plan if it is not
    deleted, a second invitation of the same email is refused as
    ALREADY_MEMBER whoever sends it, and removing the member again gives
    back the memberships there were before the invitation. *)
Theorem invited_member_has_access db plan_id inviter_user_id invitee_email member db' :
  db_wf db →
  PlanMemberService.invite_member db plan_id inviter_user_id invitee_email
  = Py.Ok (member, db') →
  is_member db' (PlanMember.user_id member) plan_id
  ∧ (∀ plan, plan ∈ fitness_plans db → FitnessPlan.id plan = plan_id →
             FitnessPlan.deleted_at plan = None →
             PlanService.get_plan_by_id db' (PlanMember.user_id member) plan_id
             = Py.Ok plan)
  ∧ (∀ inviter',
       PlanMemberService.invite_member db' plan_id inviter' invitee_email
       = Py.Err (Py.AppException "User is already a member of this plan"
                                 "ALREADY_MEMBER" 400))
  ∧ ∃ db'',
      PlanMemberService.remove_member db' plan_id (PlanMember.user_id member)
      = Py.Ok db''
      ∧ plan_members db'' = plan_members db.
Proof.
  intros Hwf H.
  destruct (invite_member_stored _ _ _ _ _ _ Hwf H)
    as (plan & invitee & Ep & Eu & Hnot & -> & ->).
  cbn [PlanMember.user_id].
  assert (filter (λ m, PlanMember.plan_id m = plan_id
                       ∧ PlanMember.user_id m = User.id invitee) (plan_members db) = [])
    as Em.
  { apply filter_none. intros m Hm [Hp Hu]. apply Hnot. by exists m. }
  set (member := {| PlanMember.id := next_uuid db; PlanMember.plan_id := plan_id;
                    PlanMember.user_id := User.id invitee;
                    PlanMember.invited_by := Some inviter_user_id |}).
  assert (is_member (set_plan_members (uuid4 db).2 (plan_members db ++ [member]))
            (User.id invitee) plan_id) as Hmem.
  { exists member. split; [|done]. simpl. apply elem_of_app. right. by left. }
  assert (filter (λ m, PlanMember.plan_id m = plan_id
                       ∧ PlanMember.user_id m = User.id invitee)
                 (plan_members db ++ [member]) = [member]) as Em'.
  { rewrite filter_app, Em. simpl. by rewrite filter_cons, decide_True. }
  split; [done|]. split; [|split].
  - intros plan' Hin <- Hdel.
    apply get_plan_by_id_participant; [apply Hwf | done | done | by right].
  - intros inviter'. unfold PlanMemberService.invite_member. simpl.
    rewrite Ep, Eu. cbn [mbind Result_bind Py.bind Py.scalar_one_or_none].
    by rewrite Em'.
  - unfold PlanMemberService.remove_member. simpl.
    rewrite Em'. simpl.
    eexists. split; [reflexivity|]. simpl.
    rewrite filter_app, filter_cons, decide_False by (intros Hne; by apply Hne).
    rewrite filter_nil, app_nil_r.
    apply filter_all, Forall_forall. intros m Hm.
    pose proof (wf_member_ids db Hwf m Hm). simpl. lia.
Qed.

Lemma invited_member_has_access_witness :
  db_wf db_before_invite
  ∧ ∃ member db',
      PlanMemberService.invite_member db_before_invite 10 1 "bob@example.com"
      = Py.Ok (member, db')
      ∧ PlanService.get_plan_by_id db_before_invite 2 10
        = Py.Err (Py.NotFoundException "Fitness plan not found")
      ∧ PlanService.get_plan_by_id db' 2 10 = Py.Ok plan10.
Proof.
  split; [apply db_before_invite_wf|].
  destruct (PlanMemberService.invite_member db_before_invite 10 1 "bob@example.com")
    as [[member db']|] eqn:E; [|by vm_compute in E].
  exists member, db'. split; [done|]. split; [reflexivity|].
  destruct (invited_member_has_access _ _ _ _ _ _ db_before_invite_wf E)
    as (_ & Hget & _).
  assert (PlanMember.user_id member = 2%nat) as Hu
    by (vm_compute in E; by injection E as <- <-).
  rewrite Hu in Hget. apply Hget; [by left | done | done].
Defined.

(** [remove_member] of a user who is not a member raises NotFound. A
    member is removed: that membership row goes and no other, the user
    is no longer a member, and unless they own the plan they can neither
    read it nor log an execution of it any more; the executions they
    logged stay. *)
Theorem remove_member_revokes_access db plan_id user_id :
  db_wf db →
  NoDup (PlanMember.id <$> plan_members db) →
  (¬ is_member db user_id plan_id →
   PlanMemberService.remove_member db plan_id user_id
   = Py.Err (Py.NotFoundException "Plan membership not found"))
  ∧ (∀ member,
       member ∈ plan_members db →
       PlanMember.plan_id member = plan_id →
       PlanMember.user_id member = user_id →
       ∃ db',
         PlanMemberService.remove_member db plan_id user_id = Py.Ok db'
         ∧ member :: plan_members db' ≡ₚ plan_members db
         ∧ plan_executions db' = plan_executions db
         ∧ ¬ is_member db' user_id plan_id
         ∧ (¬ is_owner db user_id plan_id →
            PlanService.get_plan_by_id db' user_id plan_id
            = Py.Err (Py.NotFoundException "Fitness plan not found")
            ∧ ∀ now execution_data,
                pc_plan_id execution_data = plan_id →
                PlanExecutionService.create_plan_execution now db' user_id execution_data
                = Py.Err (Py.NotFoundException "Fitness plan not found"))).
Proof.
  intros Hwf Hids. split.
  - intros Hnot. unfold PlanMemberService.remove_member.
    rewrite filter_none; [done|].
    intros m Hm [Hp Hu]. apply Hnot. by exists m.
  - intros member Hin <- <-. unfold PlanMemberService.remove_member.
    rewrite member_pair_filter.
    rewrite (filter_unique (λ m, (PlanMember.plan_id m, PlanMember.user_id m)))
      by (apply Hwf || done).
    simpl. eexists. split; [reflexivity|]. simpl.
    assert (¬ is_member
                (set_plan_members db
                   (filter (λ m, PlanMember.id m ≠ PlanMember.id member) (plan_members db)))
                (PlanMember.user_id member) (PlanMember.plan_id member)) as Hgone.
    { intros (m & [Hne Hm]%list_elem_of_filter & Hmp & Hmu). apply Hne.
      assert (m ∈ filter (λ y, (PlanMember.plan_id y, PlanMember.user_id y)
                               = (PlanMember.plan_id member, PlanMember.user_id member))
                         (plan_members db)) as Hf
        by (apply list_elem_of_filter; split; [by rewrite Hmp, Hmu | done]).
      rewrite (filter_unique (λ m, (PlanMember.plan_id m, PlanMember.user_id m))) in Hf
        by (apply Hwf || done).
      by apply list_elem_of_singleton in Hf as ->. }
    split; [by apply delete_row_perm|]. split; [done|]. split; [done|].
    intros Hown. split.
    + unfold PlanService.get_plan_by_id, PlanService.visible_plans.
      rewrite (filter_none (A:=FitnessPlan.t)); [done|].
      intros p Hpin (Hid & [Hpu | Hm] & _).
      * apply Hown. by exists p.
      * apply Hgone, member_plan_ids_elem. by rewrite <- Hid.
    + intros now execution_data Hpid.
      unfold PlanExecutionService.create_plan_execution,
        PlanExecutionService.accessible_plans.
      rewrite (filter_none (A:=FitnessPlan.t)); [done|].
      intros p Hpin (Hid & [Hpu | Hm]).
      * apply Hown. exists p. split; [done|]. split; [|done].
        by rewrite Hid, Hpid.
      * apply Hgone, member_plan_ids_elem. by rewrite <- Hpid, <- Hid.
Qed.

Lemma remove_member_revokes_access_witness :
  db_wf db_demo
  ∧ NoDup (PlanMember.id <$> plan_members db_demo)
  ∧ PlanService.get_plan_by_id db_demo 2 10 = Py.Ok plan10
  ∧ ∃ db',
      PlanMemberService.remove_member db_demo 10 2 = Py.Ok db'
      ∧ PlanService.get_plan_by_id db' 2 10
        = Py.Err (Py.NotFoundException "Fitness plan not found")
      ∧ plan_executions db' = plan_executions db_demo.
Proof.
  split; [apply db_demo_wf|]. split; [compute_done|]. split; [reflexivity|].
  destruct (remove_member_revokes_access db_demo 10 2 db_demo_wf) as [_ H];
    [compute_done|].
  destruct (H {| PlanMember.id := 50; PlanMember.plan_id := 10; PlanMember.user_id := 2;
                 PlanMember.invited_by := Some 1%nat |})
    as (db' & Hrm & _ & Hx & _ & Hrev); [by left | done | done |].
  exists db'. split; [done|]. split; [|done].
  apply Hrev. intros (p & ->%list_elem_of_singleton & _ & Hu). done.
Defined.

(** ** The life of a plan: created, changed, soft-deleted *)

Lemma add_exercise_rows_eq plan_id items : ∀ db,
  let db' := fold_left (PlanService.add_exercise_row plan_id) items db in
  exercises db' = exercises db ++ exercise_rows plan_id (next_uuid db) items
  ∧ next_uuid db' = (next_uuid db + length items)%nat
  ∧ fitness_plans db' = fitness_plans db
  ∧ plan_members db' = plan_members db.
Proof.
  induction items as [|x items IH]; intros db; cbn [fold_left].
  - cbn zeta. unfold exercise_rows. simpl.
    rewrite app_nil_r. repeat split; lia.
  - destruct (IH (PlanService.add_exercise_row plan_id db x)) as (He & Hn & Hp & Hm).
    cbn zeta. rewrite He, Hn, Hp, Hm. simpl.
    rewrite <- app_assoc. repeat split; lia.
Qed.

Lemma exercise_rows_plan_id plan_id first items :
  Forall (λ e, Exercise.plan_id e = plan_id) (exercise_rows plan_id first items).
Proof. apply Forall_forall. by intros e (ix & -> & _)%list_elem_of_fmap. Qed.

Lemma add_exercise_rows_dialect plan_id items : ∀ db,
  dialect (fold_left (PlanService.add_exercise_row plan_id) items db) = dialect db.
Proof.
  induction items as [|x items IH]; intros db; cbn [fold_left]; [done|].
  by rewrite IH.
Qed.

(** What the commit of an exercise row raises is an internal error; it
    raises nothing for a payload that passed the schema and whose
    integers fit, and raises when an integer does not fit. *)
Lemma exercise_commit_error_kind dialect x e :
  exercise_commit_error dialect x = Some e → Py.kind e = Py.Internal.
Proof.
  unfold exercise_commit_error. intros H.
  repeat case_match; simplify_eq; by destruct dialect.
Qed.

Lemma exercise_commit_error_fits dialect x :
  (ExerciseCreate_valid x = true → exercise_fits dialect x →
   exercise_commit_error dialect x = None)
  ∧ (exercise_commit_error dialect x = None → exercise_fits dialect x)
  ∧ (¬ exercise_fits dialect x →
     exercise_commit_error dialect x = Some (Engine.integer_error dialect)).
Proof.
  unfold exercise_commit_error, exercise_fits, ExerciseCreate_valid, len_between.
  destruct (Engine.optional_integer_fits dialect (ec_duration_minutes x)),
    (Engine.optional_integer_fits dialect (ec_repetitions x)),
    (Engine.integer_fits dialect (ec_order_index x));
    cbn [andb negb Is_true]; try (split; [|split]; (done || tauto)).
  split; [|split; [done | tauto]].
  intros Hvalid _.
  repeat (apply andb_prop in Hvalid as [Hvalid ?]).
  assert (Engine.varchar_fits dialect 100 (ec_name x) = true) as ->.
  { destruct dialect; [done|]. cbn [Engine.varchar_fits].
    apply bool_decide_eq_true. apply bool_decide_eq_true in Hvalid. lia. }
  cbn [negb].
  by destruct (Schemas.opt_all _ (ec_duration_minutes x)),
    (Schemas.opt_all _ (ec_repetitions x)).
Qed.

Lemma plan_commit_error_fits dialect plan_data :
  (FitnessPlanCreate_valid plan_data = true →
   Forall (exercise_fits dialect) (fc_exercises plan_data) →
   PlanService.commit_error dialect plan_data = None)
  ∧ (¬ Forall (exercise_fits dialect) (fc_exercises plan_data) →
     ∃ e, PlanService.commit_error dialect plan_data = Some e
          ∧ Py.kind e = Py.Internal).
Proof.
  unfold PlanService.commit_error, FitnessPlanCreate_valid, len_between. split.
  - intros [[Hname _]%andb_prop Hvalid]%andb_prop Hfits.
    assert (Engine.varchar_fits dialect 50 (fc_name plan_data) = true) as ->.
    { destruct dialect; [done|]. cbn [Engine.varchar_fits].
      apply bool_decide_eq_true. apply bool_decide_eq_true in Hname. lia. }
    cbn [negb].
    induction Hfits as [|x l Hx Hl IH]; [done|].
    cbn [forallb] in Hvalid. apply andb_prop in Hvalid as [Hv Hvalid].
    cbn [omap list_omap].
    rewrite (proj1 (exercise_commit_error_fits dialect x) Hv Hx). by apply IH.
  - intros Hno.
    destruct (negb (Engine.varchar_fits dialect 50 (fc_name plan_data)));
      [by eexists|].
    induction (fc_exercises plan_data) as [|x l IH]; [by destruct Hno|].
    cbn [omap list_omap].
    destruct (exercise_commit_error dialect x) as [e|] eqn:E.
    + exists e. split; [done|]. by eapply exercise_commit_error_kind.
    + apply IH. intros Hl. apply Hno. constructor; [|done].
      by apply exercise_commit_error_fits.
Qed.

(** [create_plan] for a request that passed the schema and whose
    integers fit the Integer columns. The plan gets a fresh id, belongs
    to the caller, is active and not deleted; its exercises are the rows
    of the request, in order; the exercises of the other plans are as
    they were; and the caller reads the plan back. With an integer that
    does not fit, the commit raises and nothing is stored. *)
Theorem create_plan_stores db user_id plan_data :
  db_fresh db →
  (FitnessPlanCreate_valid plan_data = true →
   Forall (exercise_fits (dialect db)) (fc_exercises plan_data) →
   ∃ plan db',
     PlanService.create_plan db user_id plan_data = Py.Ok (plan, db')
     ∧ plan = {| FitnessPlan.id := next_uuid db;
                 FitnessPlan.user_id := user_id;
                 FitnessPlan.name := fc_name plan_data;
                 FitnessPlan.description := fc_description plan_data;
                 FitnessPlan.status := ACTIVE;
                 FitnessPlan.deleted_at := None |}
     ∧ fitness_plans db' = fitness_plans db ++ [plan]
     ∧ plan_exercises db' (FitnessPlan.id plan)
       = exercise_rows (next_uuid db) (S (next_uuid db)) (fc_exercises plan_data)
     ∧ (∀ plan_id, plan_id ≠ FitnessPlan.id plan →
                   plan_exercises db' plan_id = plan_exercises db plan_id)
     ∧ PlanService.get_plan_by_id db' user_id (FitnessPlan.id plan) = Py.Ok plan)
  ∧ (¬ Forall (exercise_fits (dialect db)) (fc_exercises plan_data) →
     ∃ e, PlanService.create_plan db user_id plan_data = Py.Err e
          ∧ Py.kind e = Py.Internal).
Proof.
  intros Hfresh. unfold PlanService.create_plan, uuid4.
  match goal with
  | |- context [fold_left _ ?items ?d] =>
      destruct (add_exercise_rows_eq (next_uuid db) items d) as (He & _ & Hp & _);
      rewrite (add_exercise_rows_dialect (next_uuid db) items d)
  end.
  cbn [dialect set_fitness_plans].
  destruct (plan_commit_error_fits (dialect db) plan_data) as [Hok Hraise].
  split; [|intros Hno; destruct (Hraise Hno) as (e & -> & Hkind); by exists e].
  intros Hvalid Hfits. rewrite (Hok Hvalid Hfits).
  eexists _, _. split; [reflexivity|]. split; [done|]. split; [by rewrite Hp|].
  cbn [FitnessPlan.id]. unfold plan_exercises. rewrite He.
  cbn [exercises next_uuid set_fitness_plans]. split; [|split].
  - rewrite filter_app, filter_none.
    + simpl. apply filter_all, exercise_rows_plan_id.
    + intros e Hin Heq.
      pose proof (fresh_exercises db Hfresh) as Hf.
      eapply Forall_forall in Hf; [|done]. simpl in Hf. lia.
  - intros plan_id Hne. rewrite filter_app.
    rewrite (filter_none _ (exercise_rows _ _ _)); [by rewrite app_nil_r|].
    intros e He' Heq.
    pose proof (exercise_rows_plan_id (next_uuid db) (S (next_uuid db))
                  (fc_exercises plan_data)) as Hf.
    eapply Forall_forall in Hf; [|done]. simpl in Hf. congruence.
  - unfold PlanService.get_plan_by_id, PlanService.visible_plans. rewrite Hp.
    cbn [fitness_plans set_fitness_plans].
    rewrite filter_app, filter_none.
    + rewrite filter_cons, decide_True; [done|].
      split; [done|]. split; [by left | done].
    + intros p Hin [Heq _].
      pose proof (fresh_plans db Hfresh) as Hf.
      eapply Forall_forall in Hf; [|done]. simpl in Hf. lia.
Qed.

(** Bob creates a plan with a walk of 30 minutes; with a run of 2^63
    minutes, which the schema accepts, the commit is refused. *)
Lemma create_plan_stores_witness :
  db_fresh db_demo
  ∧ FitnessPlanCreate_valid plan_payload = true
  ∧ Forall (exercise_fits (dialect db_demo)) (fc_exercises plan_payload)
  ∧ (∃ plan db',
       PlanService.create_plan db_demo 2 plan_payload = Py.Ok (plan, db')
       ∧ FitnessPlan.id plan = 100%nat
       ∧ length (plan_exercises db' 100) = 1%nat
       ∧ PlanService.get_plan_by_id db' 2 100 = Py.Ok plan)
  ∧ FitnessPlanCreate_valid
      {| fc_name := "Evening"; fc_description := None;
         fc_exercises := [exercise_overflow] |} = true
  ∧ ∃ e,
      PlanService.create_plan db_demo 2
        {| fc_name := "Evening"; fc_description := None;
           fc_exercises := [exercise_overflow] |}
      = Py.Err e
      ∧ Py.kind e = Py.Internal.
Proof.
  assert (Forall (exercise_fits (dialect db_demo)) (fc_exercises plan_payload)) as Hfits.
  { repeat constructor. }
  split; [apply db_demo_fresh|]. split; [reflexivity|]. split; [done|].
  split; [|split; [reflexivity|]].
  - destruct (create_plan_stores db_demo 2 plan_payload db_demo_fresh) as [H _].
    destruct (H eq_refl Hfits) as (plan & db' & Hc & -> & _ & Hex & _ & Hget).
    cbn [FitnessPlan.id] in Hex, Hget.
    eexists _, db'. split; [exact Hc|]. split; [done|].
    change 100%nat with (next_uuid db_demo).
    split; [by rewrite Hex | exact Hget].
  - destruct (create_plan_stores db_demo 2
                {| fc_name := "Evening"; fc_description := None;
                   fc_exercises := [exercise_overflow] |} db_demo_fresh) as [_ H].
    apply H. intros [[Hno _] _]%Forall_cons. exact Hno.
Defined.

(** The loop of [delete_plan] takes every job of the plan away. *)
Lemma cancel_job_remove plan_id scheduler reminder :
  PlanService.cancel_job plan_id scheduler reminder
  = remove_job scheduler (PlanService.reminder_job_id plan_id (Reminder.id reminder)).
Proof.
  unfold PlanService.cancel_job, get_job, Py.next_or_none, remove_job.
  destruct (filter _ scheduler) as [|j js] eqn:E; [|done]. simpl.
  symmetry. apply filter_all, Forall_forall. intros j Hj Heq.
  assert (j ∈ filter (λ j, job_id j
                           = PlanService.reminder_job_id plan_id (Reminder.id reminder))
                     scheduler) as Hf by by apply list_elem_of_filter.
  rewrite E in Hf. by apply elem_of_nil in Hf.
Qed.

Lemma cancel_jobs plan_id reminders : ∀ scheduler,
  fold_left (PlanService.cancel_job plan_id) reminders scheduler
  = filter (λ j, job_id j
                 ∉ (λ r, PlanService.reminder_job_id plan_id (Reminder.id r)) <$> reminders)
           scheduler.
Proof.
  induction reminders as [|r reminders IH]; intros scheduler; cbn [fold_left].
  - symmetry. apply filter_all, Forall_forall. intros j _. simpl. apply not_elem_of_nil.
  - rewrite IH, cancel_job_remove. unfold remove_job.
    rewrite list_filter_filter. apply list_filter_iff. intros j.
    rewrite fmap_cons, not_elem_of_cons. tauto.
Qed.

(** [delete_plan] by a user who reads the plan marks it deleted and
    keeps its row, its exercises, its reminders and the executions: after
    it nobody reads the plan or deletes it again, and its owner can add
    no exercise to it. The jobs of the reminders of the plan are taken
    out of the scheduler and the other jobs stay. *)
Theorem delete_plan_soft_deletes now db scheduler user_id plan_id plan :
  NoDup (FitnessPlan.id <$> fitness_plans db) →
  PlanService.get_plan_by_id db user_id plan_id = Py.Ok plan →
  ∃ db',
    PlanService.delete_plan now db scheduler user_id plan_id
    = Py.Ok (db',
             filter (λ j, job_id j ∉ plan_job_ids db plan_id) <$> scheduler)
    ∧ (∃ deleted,
         deleted ∈ fitness_plans db'
         ∧ FitnessPlan.id deleted = plan_id
         ∧ FitnessPlan.deleted_at deleted = Some now
         ∧ FitnessPlan.user_id deleted = FitnessPlan.user_id plan
         ∧ FitnessPlan.name deleted = FitnessPlan.name plan)
    ∧ (∀ p, p ∈ fitness_plans db → FitnessPlan.id p ≠ plan_id → p ∈ fitness_plans db')
    ∧ exercises db' = exercises db
    ∧ reminders db' = reminders db
    ∧ plan_members db' = plan_members db
    ∧ plan_executions db' = plan_executions db
    ∧ (∀ user_id',
         PlanService.get_plan_by_id db' user_id' plan_id
         = Py.Err (Py.NotFoundException "Fitness plan not found"))
    ∧ (∀ now' scheduler' user_id',
         PlanService.delete_plan now' db' scheduler' user_id' plan_id
         = Py.Err (Py.NotFoundException "Fitness plan not found"))
    ∧ (∀ user_id' exercise_data,
         ExerciseService.add_exercise db' user_id' plan_id exercise_data
         = Py.Err (Py.NotFoundException "Fitness plan not found")).
Proof.
  intros Hnd Hget.
  pose proof (get_plan_by_id_elem _ _ _ _ Hget) as [Hin Hlive].
  assert (FitnessPlan.id plan = plan_id) as Hid.
  { unfold PlanService.get_plan_by_id in Hget.
    destruct (Py.scalar_one_or_none _) as [[p|]|] eqn:E; [|done..].
    simpl in Hget. injection Hget as ->.
    apply scalar_one_or_none_elem in E.
    by apply list_elem_of_filter in E as [[? _] _]. }
  unfold PlanService.delete_plan. rewrite Hget. cbn [mbind Result_bind Py.bind].
  set (deleted := {| FitnessPlan.id := FitnessPlan.id plan;
                     FitnessPlan.user_id := FitnessPlan.user_id plan;
                     FitnessPlan.name := FitnessPlan.name plan;
                     FitnessPlan.description := FitnessPlan.description plan;
                     FitnessPlan.status := FitnessPlan.status plan;
                     FitnessPlan.deleted_at := Some now |}).
  assert (∀ p, p ∈ fitness_plans (PlanService.write_plan db deleted) →
               FitnessPlan.id p = plan_id → FitnessPlan.deleted_at p = Some now) as Hdead.
  { intros p Hp Hpid. unfold PlanService.write_plan in Hp. simpl in Hp.
    apply list_elem_of_fmap in Hp as (q & -> & Hq).
    destruct (decide (FitnessPlan.id q = FitnessPlan.id plan)) as [_|Hne]; [done|].
    congruence. }
  assert (∀ user_id',
            PlanService.get_plan_by_id (PlanService.write_plan db deleted) user_id' plan_id
            = Py.Err (Py.NotFoundException "Fitness plan not found")) as Hgone.
  { intros user_id'. unfold PlanService.get_plan_by_id, PlanService.visible_plans.
    rewrite (filter_none (A:=FitnessPlan.t)); [done|].
    intros p Hp (Hpid & _ & Hl). rewrite (Hdead p Hp Hpid) in Hl. done. }
  exists (PlanService.write_plan db deleted). split; [|split; [|split]].
  - f_equal. f_equal. destruct scheduler as [jobs|]; [|done]. simpl.
    by rewrite Hid, cancel_jobs.
  - exists deleted. split; [|by rewrite <- Hid].
    unfold PlanService.write_plan. simpl.
    apply list_elem_of_fmap. exists plan. by rewrite decide_True.
  - intros p Hp Hne. unfold PlanService.write_plan. simpl.
    apply list_elem_of_fmap. exists p. split; [|done].
    rewrite decide_False; [done|]. simpl. congruence.
  - split; [done|]. split; [done|]. split; [done|]. split; [done|].
    split; [done|]. split.
    + intros now' scheduler' user_id'. unfold PlanService.delete_plan.
      by rewrite Hgone.
    + intros user_id' exercise_data. unfold ExerciseService.add_exercise, owned_plans.
      rewrite (filter_none (A:=FitnessPlan.t)); [done|].
      intros p Hp (Hpid & _ & Hl). rewrite (Hdead p Hp Hpid) in Hl. done.
Qed.

Lemma delete_plan_soft_deletes_witness :
  NoDup (FitnessPlan.id <$> fitness_plans db_reminded)
  ∧ PlanService.get_plan_by_id db_reminded 1 10 = Py.Ok plan10
  ∧ ∃ db',
      PlanService.delete_plan 9 db_reminded (Some scheduler_demo) 1 10
      = Py.Ok (db', Some [daily_job 11 61])
      ∧ reminders db' = [reminder60]
      ∧ PlanService.get_plan_by_id db' 1 10
        = Py.Err (Py.NotFoundException "Fitness plan not found").
Proof.
  split; [compute_done|]. split; [reflexivity|].
  destruct (delete_plan_soft_deletes 9 db_reminded (Some scheduler_demo) 1 10 plan10)
    as (db' & H & _ & _ & _ & Hr & _ & _ & Hgone & _); [compute_done | reflexivity |].
  exists db'. split; [exact H|]. split; [exact Hr | apply Hgone].
Defined.

(** ** The exercises of a plan: added, changed, deleted *)

(** The owner adds an exercise to a plan that is not deleted, with a
    payload that passed the schema and whose integers fit the Integer
    columns: it is stored with a fresh id as the last exercise of the
    plan, the exercises of the other plans are as they were, and the owner
    reads it back. With an integer that does not fit, the commit raises
    and nothing is stored. *)
Theorem add_exercise_stores db user_id plan_id plan exercise_data :
  db_wf db → db_fresh db →
  plan ∈ fitness_plans db →
  FitnessPlan.id plan = plan_id →
  FitnessPlan.user_id plan = user_id →
  FitnessPlan.deleted_at plan = None →
  (ExerciseCreate_valid exercise_data = true →
   exercise_fits (dialect db) exercise_data →
   ∃ exercise db',
     ExerciseService.add_exercise db user_id plan_id exercise_data
     = Py.Ok (exercise, db')
     ∧ exercise = exercise_row plan_id (next_uuid db, exercise_data)
     ∧ plan_exercises db' plan_id = plan_exercises db plan_id ++ [exercise]
     ∧ (∀ plan_id', plan_id' ≠ plan_id →
                    plan_exercises db' plan_id' = plan_exercises db plan_id')
     ∧ ExerciseService.get_exercise_by_id db' user_id plan_id (Exercise.id exercise)
       = Py.Ok exercise)
  ∧ (¬ exercise_fits (dialect db) exercise_data →
     ∃ e, ExerciseService.add_exercise db user_id plan_id exercise_data = Py.Err e
          ∧ Py.kind e = Py.Internal).
Proof.
  intros Hwf Hfresh Hin Hid Hu Hlive.
  unfold ExerciseService.add_exercise.
  rewrite (owned_plans_owner db user_id plan_id plan) by (apply Hwf || done).
  cbn [mbind Result_bind Py.bind Py.scalar_one_or_none]. unfold uuid4.
  cbn [dialect].
  destruct (exercise_commit_error_fits (dialect db) exercise_data)
    as (Hok & _ & Hraise).
  split.
  2:{ intros Hno. rewrite (Hraise Hno). eexists. split; [done|].
      by destruct (dialect db). }
  intros Hvalid Hfits. rewrite (Hok Hvalid Hfits).
  eexists _, _. split; [reflexivity|]. split; [done|].
  unfold plan_exercises. cbn [exercises set_exercises]. split; [|split].
  - rewrite filter_app, filter_cons, decide_True by done. done.
  - intros plan_id' Hne.
    rewrite filter_app, filter_cons, decide_False by (simpl; congruence).
    by rewrite filter_nil, app_nil_r.
  - unfold ExerciseService.get_exercise_by_id.
    erewrite (owned_exercises_owner _ user_id plan_id plan); [done | | | | | | | |].
    + apply Hwf.
    + cbn [exercises set_exercises]. rewrite fmap_app. apply NoDup_app.
      split; [apply Hwf|]. split; [|apply NoDup_singleton].
      intros i Hi ->%list_elem_of_singleton.
      apply list_elem_of_fmap in Hi as (e & Heq & He).
      pose proof (fresh_exercises db Hfresh) as Hf.
      eapply Forall_forall in Hf; [|done]. simpl in Heq, Hf. lia.
    + done.
    + done.
    + done.
    + done.
    + cbn [exercises set_exercises]. apply elem_of_app. right. by left.
    + done.
Qed.

(** Alice adds a swim of 30 minutes to her plan; a run of 2^63 minutes,
    which the schema accepts, is refused by the commit, under SQLite with
    the driver's OverflowError. *)
Lemma add_exercise_stores_witness :
  db_wf db_demo ∧ db_fresh db_demo
  ∧ ExerciseCreate_valid (exercise_payload "Swim") = true
  ∧ exercise_fits (dialect db_demo) (exercise_payload "Swim")
  ∧ (∃ exercise db',
       ExerciseService.add_exercise db_demo 1 10 (exercise_payload "Swim")
       = Py.Ok (exercise, db')
       ∧ plan_exercises db' 10 = [run20; pushups21; exercise]
       ∧ ExerciseService.get_exercise_by_id db' 1 10 100 = Py.Ok exercise)
  ∧ ExerciseCreate_valid exercise_overflow = true
  ∧ (∃ e, ExerciseService.add_exercise db_demo 1 10 exercise_overflow = Py.Err e
          ∧ Py.kind e = Py.Internal)
  ∧ ExerciseService.add_exercise db_lite 1 10 exercise_overflow
    = Py.Err Py.OverflowError.
Proof.
  assert (exercise_fits (dialect db_demo) (exercise_payload "Swim")) as Hfits
    by (by repeat split).
  split; [apply db_demo_wf|]. split; [apply db_demo_fresh|].
  split; [reflexivity|]. split; [done|].
  split; [|split; [reflexivity|split; [|reflexivity]]].
  - destruct (add_exercise_stores db_demo 1 10 plan10 (exercise_payload "Swim")
                db_demo_wf db_demo_fresh) as [H _]; [by left | done..|].
    destruct (H eq_refl Hfits) as (exercise & db' & Ha & -> & Hex & _ & Hget).
    eexists _, db'. split; [exact Ha|]. split; [exact Hex | exact Hget].
  - destruct (add_exercise_stores db_demo 1 10 plan10 exercise_overflow
                db_demo_wf db_demo_fresh) as [_ H]; [by left | done..|].
    apply H. by intros [Hno _].
Defined.

Lemma filter_filter_implies_elem {A} (P Q : A → Prop) `{∀ x, Decision (P x)}
    `{∀ x, Decision (Q x)} (l : list A) :
  (∀ x, x ∈ l → P x → Q x) → filter P (filter Q l) = filter P l.
Proof.
  induction l as [|x l IH]; intros HPQ; [done|].
  rewrite !filter_cons. destruct (decide (Q x)) as [HQ|HQ].
  - rewrite filter_cons, IH; [done|]. intros y Hy. apply HPQ. by right.
  - rewrite IH by (intros y Hy; apply HPQ; by right).
    rewrite decide_False; [done|]. intros HP. apply HQ, HPQ; [by left | done].
Qed.

(** The owner deletes an exercise of a plan that has another one. Where
    foreign keys are enforced and an exercise execution refers to the
    exercise, the commit raises [IntegrityError] and nothing is deleted:
    the foreign key has no [ON DELETE] rule. Otherwise (no exercise
    execution refers to it, or foreign keys are not enforced) that
    exercise goes and no other, the plan has one exercise less, the
    exercise is no longer found, and the exercise executions stay in the
    store as they are. *)
Theorem delete_exercise_removes db user_id plan_id plan exercise :
  db_wf db →
  plan ∈ fitness_plans db →
  FitnessPlan.id plan = plan_id →
  FitnessPlan.user_id plan = user_id →
  FitnessPlan.deleted_at plan = None →
  exercise ∈ plan_exercises db plan_id →
  (2 ≤ length (plan_exercises db plan_id))%nat →
  ((Engine.foreign_keys (dialect db) → unreferenced db exercise) →
   ∃ db',
     ExerciseService.delete_exercise db user_id plan_id (Exercise.id exercise)
     = Py.Ok db'
     ∧ exercise :: exercises db' ≡ₚ exercises db
     ∧ exercise :: plan_exercises db' plan_id ≡ₚ plan_exercises db plan_id
     ∧ (∀ plan_id', plan_id' ≠ plan_id →
                    plan_exercises db' plan_id' = plan_exercises db plan_id')
     ∧ exercise_executions db' = exercise_executions db
     ∧ ExerciseService.get_exercise_by_id db' user_id plan_id (Exercise.id exercise)
       = Py.Err (Py.NotFoundException "Exercise not found"))
  ∧ (Engine.foreign_keys (dialect db) → ¬ unreferenced db exercise →
     ExerciseService.delete_exercise db user_id plan_id (Exercise.id exercise)
     = Py.Err Py.IntegrityError).
Proof.
  intros Hwf Hin Hid Hu Hlive Hex Hcount.
  pose proof Hex as Hex'.
  apply list_elem_of_filter in Hex as [Hpid Hex].
  unfold ExerciseService.delete_exercise, unreferenced.
  rewrite (owned_exercises_owner db user_id plan_id plan exercise)
    by (apply Hwf || done).
  cbn [mbind Result_bind Py.bind Py.scalar_one_or_none].
  destruct (Z.leb_spec (Z.of_nat (length (plan_exercises db plan_id))) 1) as [Hle|_];
    [lia|].
  split.
  2:{ intros Hfk Href. rewrite (Is_true_true_1 _ Hfk), bool_decide_true; [done|].
      by apply dec_stable. }
  intros Href.
  assert (Engine.foreign_keys (dialect db)
          && bool_decide (Exercise.id exercise
                          ∈ ExerciseExecution.exercise_id <$> exercise_executions db)
          = false) as ->.
  { destruct (Engine.foreign_keys (dialect db)); [|done].
    by rewrite bool_decide_false by by apply Href. }
  eexists. split; [reflexivity|].
  cbn [exercises exercise_executions set_exercises].
  split; [apply delete_row_perm; [apply Hwf | done]|].
  assert (NoDup (Exercise.id <$> plan_exercises db plan_id)) as Hnd.
  { unfold plan_exercises.
    apply (sublist_NoDup _ (Exercise.id <$> exercises db));
      [apply (wf_exercise_ids db Hwf) | apply fmap_sublist, sublist_filter]. }
  split; [|split; [|split]].
  - rewrite <- (delete_row_perm Exercise.id (plan_exercises db plan_id) exercise Hnd Hex').
    constructor.
    match goal with |- ?a ≡ₚ ?b => assert (a = b) as ->; [|done] end.
    unfold plan_exercises. cbn [exercises set_exercises].
    rewrite !list_filter_filter. apply list_filter_iff. intros e. tauto.
  - intros plan_id' Hne. unfold plan_exercises. cbn [exercises set_exercises].
    apply filter_filter_implies_elem. intros e He Hp Heq.
    assert (e ∈ filter (λ y, Exercise.id y = Exercise.id exercise) (exercises db))
      as Hf by by apply list_elem_of_filter.
    rewrite filter_unique in Hf by (apply Hwf || done).
    apply list_elem_of_singleton in Hf as ->. congruence.
  - done.
  - unfold ExerciseService.get_exercise_by_id.
    destruct (ExerciseService.owned_exercises _ _ _ _) as [|e es] eqn:E; [done|].
    assert (e ∈ ExerciseService.owned_exercises
                  (set_exercises db
                     (filter (λ e, Exercise.id e ≠ Exercise.id exercise) (exercises db)))
                  user_id plan_id (Exercise.id exercise)) as He
      by (rewrite E; by left).
    apply owned_exercises_elem in He as (He & Heid & _).
    cbn [exercises set_exercises] in He.
    by apply list_elem_of_filter in He as [Hne _].
Qed.

(** Alice deletes the push-ups, which no exercise execution refers to.
    The run, which the exercise executions 40 and 41 refer to, cannot be
    deleted under PostgreSQL. *)
Lemma delete_exercise_removes_witness :
  db_wf db_demo
  ∧ plan_exercises db_demo 10 = [run20; pushups21]
  ∧ unreferenced db_demo pushups21
  ∧ (∃ db',
       ExerciseService.delete_exercise db_demo 1 10 21 = Py.Ok db'
       ∧ pushups21 :: plan_exercises db' 10 ≡ₚ [run20; pushups21]
       ∧ exercise_executions db' = exercise_executions db_demo)
  ∧ ¬ unreferenced db_demo run20
  ∧ ExerciseService.delete_exercise db_demo 1 10 20 = Py.Err Py.IntegrityError.
Proof.
  assert (unreferenced db_demo pushups21) as Hfree by compute_done.
  assert (¬ unreferenced db_demo run20) as Href by compute_done.
  split; [apply db_demo_wf|]. split; [reflexivity|]. split; [done|].
  split; [|split; [done|]].
  - destruct (delete_exercise_removes db_demo 1 10 plan10 pushups21 db_demo_wf)
      as [H _]; [by left | done | done | done | by right; left | simpl; lia |].
    destruct (H (λ _, Hfree)) as (db' & Hd & _ & Hp & _ & Hx & _).
    exists db'. split; [exact Hd|]. split; [exact Hp | exact Hx].
  - destruct (delete_exercise_removes db_demo 1 10 plan10 run20 db_demo_wf)
      as [_ H]; [by left | done | done | done | by left | simpl; lia |].
    exact (H I Href).
Defined.

(** An exercise is addressed through its plan: with the id of a plan
    the exercise does not belong to, it is not found, whoever asks. *)
Theorem exercise_of_other_plan_not_found db user_id plan_id exercise_id :
  (∀ e, e ∈ exercises db → Exercise.id e = exercise_id →
        Exercise.plan_id e ≠ plan_id) →
  ExerciseService.get_exercise_by_id db user_id plan_id exercise_id
  = Py.Err (Py.NotFoundException "Exercise not found")
  ∧ (∀ exercise_data,
       ExerciseService.update_exercise db user_id plan_id exercise_id exercise_data
       = Py.Err (Py.NotFoundException "Exercise not found"))
  ∧ ExerciseService.delete_exercise db user_id plan_id exercise_id
    = Py.Err (Py.NotFoundException "Exercise not found").
Proof.
  intros Hno.
  assert (ExerciseService.owned_exercises db user_id plan_id exercise_id = []) as E.
  { destruct (ExerciseService.owned_exercises _ _ _ _) as [|e es] eqn:E; [done|].
    assert (e ∈ ExerciseService.owned_exercises db user_id plan_id exercise_id) as He
      by (rewrite E; by left).
    apply owned_exercises_elem in He as (He & Heid & Hp).
    by destruct (Hno e He Heid). }
  unfold ExerciseService.get_exercise_by_id, ExerciseService.update_exercise,
    ExerciseService.delete_exercise.
  by rewrite E.
Qed.

Lemma exercise_of_other_plan_not_found_witness :
  ExerciseService.get_exercise_by_id db_demo 1 10 20 = Py.Ok run20
  ∧ ExerciseService.get_exercise_by_id db_demo 1 11 20
    = Py.Err (Py.NotFoundException "Exercise not found")
  ∧ ExerciseService.delete_exercise db_demo 1 11 20
    = Py.Err (Py.NotFoundException "Exercise not found").
Proof.
  split; [reflexivity|].
  destruct (exercise_of_other_plan_not_found db_demo 1 11 20) as (H1 & _ & H3);
    [|done].
  apply (Forall_forall (λ e, Exercise.id e = 20%nat → Exercise.plan_id e ≠ 11%nat)).
  compute_done.
Defined.

(** ** Reminders and their scheduler jobs *)

Lemma get_job_add_job scheduler j : get_job (add_job scheduler j) (job_id j) = Some j.
Proof.
  unfold get_job, Py.next_or_none, add_job, remove_job.
  rewrite filter_app, filter_filter_excludes by (intros x Hx Hne; by apply Hne).
  simpl. by rewrite filter_cons, decide_True.
Qed.

Lemma get_job_remove_job scheduler id : get_job (remove_job scheduler id) id = None.
Proof.
  unfold get_job, Py.next_or_none, remove_job.
  by rewrite filter_filter_excludes by (intros x Hx Hne; by apply Hne).
Qed.

Lemma get_job_remove_job_ne scheduler id id' :
  id' ≠ id → get_job (remove_job scheduler id) id' = get_job scheduler id'.
Proof.
  intros Hne. unfold get_job, Py.next_or_none, remove_job.
  rewrite filter_filter_implies; [done|]. intros x -> . done.
Qed.

Lemma get_job_add_job_ne scheduler j id' :
  id' ≠ job_id j → get_job (add_job scheduler j) id' = get_job scheduler id'.
Proof.
  intros Hne. unfold add_job.
  rewrite <- (get_job_remove_job_ne scheduler (job_id j) id') by done.
  unfold get_job, Py.next_or_none.
  rewrite filter_app, filter_cons, decide_False by (simpl; congruence).
  by rewrite filter_nil, app_nil_r.
Qed.

(** [if scheduler.get_job(job_id): scheduler.remove_job(job_id)] *)
Lemma remove_job_if_present scheduler id :
  match get_job scheduler id with
  | Some _ => remove_job scheduler id
  | None => scheduler
  end = remove_job scheduler id.
Proof.
  unfold get_job, Py.next_or_none, remove_job.
  destruct (filter _ scheduler) as [|j js] eqn:E; [|done]. simpl.
  symmetry. apply filter_all, Forall_forall. intros j Hj Heq.
  assert (j ∈ filter (λ j, job_id j = id) scheduler) as Hf
    by by apply list_elem_of_filter.
  rewrite E in Hf. by apply elem_of_nil in Hf.
Qed.

Lemma owned_reminders_owner db user_id plan_id plan reminder :
  NoDup (FitnessPlan.id <$> fitness_plans db) →
  NoDup (Reminder.id <$> reminders db) →
  plan ∈ fitness_plans db →
  FitnessPlan.id plan = plan_id →
  FitnessPlan.user_id plan = user_id →
  FitnessPlan.deleted_at plan = None →
  reminder ∈ reminders db →
  Reminder.plan_id reminder = plan_id →
  ReminderService.owned_reminders db user_id plan_id (Reminder.id reminder)
  = [reminder].
Proof.
  intros Hndp Hndr Hp Hpid Hu Hdel Hr Hrpid.
  unfold ReminderService.owned_reminders.
  rewrite (NoDup_singleton_eq _ (reminder, plan)); [done | |].
  - apply NoDup_filter, NoDup_join; by eapply NoDup_fmap_1.
  - intros [r p]. rewrite list_elem_of_filter, elem_of_join. simpl. split.
    + intros ((Hrid & Hrp & _ & _) & Hon & Hrin & Hpin).
      f_equal.
      * assert (r ∈ filter (λ y, Reminder.id y = Reminder.id reminder) (reminders db))
          as Hf by by apply list_elem_of_filter.
        rewrite filter_unique in Hf by done. by apply list_elem_of_singleton in Hf.
      * assert (p ∈ filter (λ y, FitnessPlan.id y = FitnessPlan.id plan) (fitness_plans db))
          as Hf by (apply list_elem_of_filter; split; [congruence | done]).
        rewrite filter_unique in Hf by done. by apply list_elem_of_singleton in Hf.
    + intros [= -> ->]. repeat split; try done. congruence.
Qed.

(** The owner creates a reminder for a plan that is not deleted: it is
    stored as the last reminder of the plan and the owner lists it. With
    a scheduler, an enabled reminder gets its job, under the id of the
    plan and the reminder and with the trigger of its schedule, and a
    disabled one gets none; the other jobs are as they were. Without a
    scheduler the store changes in the same way. *)
Theorem create_reminder_schedules db scheduler user_id plan_id plan reminder_data :
  db_wf db →
  plan ∈ fitness_plans db →
  FitnessPlan.id plan = plan_id →
  FitnessPlan.user_id plan = user_id →
  FitnessPlan.deleted_at plan = None →
  let reminder :=
    {| Reminder.id := next_uuid db;
       Reminder.plan_id := plan_id;
       Reminder.reminder_time := rc_reminder_time reminder_data;
       Reminder.frequency := rc_frequency reminder_data;
       Reminder.days_of_week := rc_days_of_week reminder_data;
       Reminder.is_enabled := rc_is_enabled reminder_data |} in
  ∃ db' scheduler',
    ReminderService.create_reminder db (Some scheduler) user_id plan_id reminder_data
    = Py.Ok (reminder, db', Some scheduler')
    ∧ ReminderService.create_reminder db None user_id plan_id reminder_data
      = Py.Ok (reminder, db', None)
    ∧ plan_reminders db' plan_id = plan_reminders db plan_id ++ [reminder]
    ∧ ReminderService.get_plan_reminders db' user_id plan_id
      = Py.Ok (plan_reminders db plan_id ++ [reminder])
    ∧ get_job scheduler' (ReminderService._get_job_id plan_id (Reminder.id reminder))
      = (if rc_is_enabled reminder_data
         then Some (reminder_job plan_id reminder)
         else get_job scheduler (ReminderService._get_job_id plan_id (Reminder.id reminder)))
    ∧ (∀ id, id ≠ ReminderService._get_job_id plan_id (Reminder.id reminder) →
             get_job scheduler' id = get_job scheduler id).
Proof.
  intros Hwf Hin Hid Hu Hlive reminder.
  unfold ReminderService.create_reminder, ReminderService.get_plan_reminders.
  rewrite (owned_plans_owner db user_id plan_id plan) by (apply Hwf || done).
  cbn [mbind Result_bind Py.bind Py.scalar_one_or_none]. unfold uuid4.
  fold reminder. cbn [Reminder.is_enabled reminder].
  assert (owned_plans
            (set_reminders
               {| dialect := dialect db; users := users db; fitness_plans := fitness_plans db;
                  exercises := exercises db; reminders := reminders db;
                  plan_members := plan_members db;
                  plan_executions := plan_executions db;
                  exercise_executions := exercise_executions db;
                  next_uuid := S (next_uuid db) |}
               (reminders db ++ [reminder])) user_id plan_id = [plan]) as Hown.
  { apply owned_plans_owner; [apply Hwf | done..]. }
  assert (∀ l, plan_reminders (set_reminders
               {| dialect := dialect db; users := users db; fitness_plans := fitness_plans db;
                  exercises := exercises db; reminders := reminders db;
                  plan_members := plan_members db;
                  plan_executions := plan_executions db;
                  exercise_executions := exercise_executions db;
                  next_uuid := S (next_uuid db) |} l) plan_id
               = filter (λ r, Reminder.plan_id r = plan_id) l) as Hpr by done.
  destruct (rc_is_enabled reminder_data) eqn:Een.
  - rewrite bool_decide_eq_true_2 by by eexists. simpl.
    eexists _, _. split; [reflexivity|]. split; [reflexivity|].
    rewrite Hown, Hpr. cbn [mbind Result_bind Py.bind Py.scalar_one_or_none].
    rewrite filter_app, filter_cons, decide_True by done.
    split; [done|]. split; [done|]. rewrite Hid. split.
    + apply (get_job_add_job scheduler (reminder_job plan_id reminder)).
    + intros id Hne. by apply (get_job_add_job_ne scheduler (reminder_job plan_id reminder)).
  - simpl. eexists _, _. split; [reflexivity|]. split; [reflexivity|].
    rewrite Hown, Hpr. cbn [mbind Result_bind Py.bind Py.scalar_one_or_none].
    rewrite filter_app, filter_cons, decide_True by done.
    done.
Qed.

Lemma create_reminder_schedules_witness :
  db_wf db_demo
  ∧ ∃ reminder db' scheduler',
      ReminderService.create_reminder db_demo (Some scheduler_demo) 1 10 weekly_payload
      = Py.Ok (reminder, db', Some scheduler')
      ∧ Reminder.id reminder = 100%nat
      ∧ (∃ j, get_job scheduler' "reminder_10_100" = Some j
              ∧ day_of_week (job_trigger j) = Some "0,4"
              ∧ cron_hour (job_trigger j) = 7 ∧ cron_minute (job_trigger j) = 30)
      ∧ get_job scheduler' "reminder_10_60" = Some (daily_job 10 60).
Proof.
  split; [apply db_demo_wf|].
  destruct (create_reminder_schedules db_demo scheduler_demo 1 10 plan10 weekly_payload
              db_demo_wf) as (db' & scheduler' & H & _ & _ & _ & Hjob & Hother);
    [by left | done..|].
  eexists _, db', scheduler'. split; [exact H|]. split; [done|]. split.
  - eexists. split; [exact Hjob|]. done.
  - rewrite Hother; [reflexivity | done].
Defined.

(** [update_reminder] on a reminder the caller owns, for a request that
    names no required column as [null]. *)
Lemma update_reminder_owned db scheduler user_id plan_id reminder reminder_data :
  ReminderService.owned_reminders db user_id plan_id (Reminder.id reminder) = [reminder] →
  ReminderUpdate_keeps_required reminder_data →
  let updated :=
    {| Reminder.id := Reminder.id reminder;
       Reminder.plan_id := Reminder.plan_id reminder;
       Reminder.reminder_time :=
         default (Reminder.reminder_time reminder) (mjoin (ru_reminder_time reminder_data));
       Reminder.frequency :=
         default (Reminder.frequency reminder) (mjoin (ru_frequency reminder_data));
       Reminder.days_of_week :=
         default (Reminder.days_of_week reminder) (ru_days_of_week reminder_data);
       Reminder.is_enabled :=
         default (Reminder.is_enabled reminder) (mjoin (ru_is_enabled reminder_data)) |} in
  let db' := ReminderService.write_reminder db updated in
  ReminderService.update_reminder db scheduler user_id plan_id (Reminder.id reminder)
    reminder_data
  = match scheduler with
    | None => Py.Ok (updated, db', None)
    | Some jobs =>
        let jobs :=
          remove_job jobs (ReminderService._get_job_id plan_id (Reminder.id reminder)) in
        if Reminder.is_enabled updated then
          plan ← Py.scalar_one
                   (filter (λ p, FitnessPlan.id p = plan_id) (fitness_plans db'));
          Py.Ok (updated, db', ReminderService._schedule_job (Some jobs) updated plan)
        else Py.Ok (updated, db', Some jobs)
    end.
Proof.
  intros Hown (Htime & Hfreq & Hen). cbn zeta.
  unfold ReminderService.update_reminder. rewrite Hown.
  cbn [mbind Result_bind Py.bind Py.scalar_one_or_none].
  destruct (ru_reminder_time reminder_data) as [[t|]|]; [|done|];
    destruct (ru_frequency reminder_data) as [[f|]|]; try done;
    destruct (ru_is_enabled reminder_data) as [[b|]|]; try done;
    cbn [mjoin option_join default];
    (destruct scheduler as [jobs|]; [|done]);
    by rewrite remove_job_if_present.
Qed.

(** The owner updates a reminder: the fields the request carries are
    replaced and the others kept. With a scheduler, the job of the
    reminder is the one for the updated schedule when the reminder is
    enabled after the update, and there is none when it is disabled; the
    other jobs are as they were. *)
Theorem update_reminder_reschedules db scheduler user_id plan_id plan reminder
    reminder_data :
  db_wf db →
  plan ∈ fitness_plans db →
  FitnessPlan.id plan = plan_id →
  FitnessPlan.user_id plan = user_id →
  FitnessPlan.deleted_at plan = None →
  reminder ∈ plan_reminders db plan_id →
  ReminderUpdate_keeps_required reminder_data →
  let updated :=
    {| Reminder.id := Reminder.id reminder;
       Reminder.plan_id := plan_id;
       Reminder.reminder_time :=
         default (Reminder.reminder_time reminder) (mjoin (ru_reminder_time reminder_data));
       Reminder.frequency :=
         default (Reminder.frequency reminder) (mjoin (ru_frequency reminder_data));
       Reminder.days_of_week :=
         default (Reminder.days_of_week reminder) (ru_days_of_week reminder_data);
       Reminder.is_enabled :=
         default (Reminder.is_enabled reminder) (mjoin (ru_is_enabled reminder_data)) |} in
  let job_id := ReminderService._get_job_id plan_id (Reminder.id reminder) in
  ∃ db' scheduler',
    ReminderService.update_reminder db (Some scheduler) user_id plan_id
      (Reminder.id reminder) reminder_data
    = Py.Ok (updated, db', Some scheduler')
    ∧ ReminderService.update_reminder db None user_id plan_id
        (Reminder.id reminder) reminder_data
      = Py.Ok (updated, db', None)
    ∧ updated ∈ plan_reminders db' plan_id
    ∧ get_job scheduler' job_id
      = (if Reminder.is_enabled updated then Some (reminder_job plan_id updated) else None)
    ∧ (∀ id, id ≠ job_id → get_job scheduler' id = get_job scheduler id).
Proof.
  intros Hwf Hin Hid Hu Hlive Hr Hreq updated job_id.
  apply list_elem_of_filter in Hr as [Hrpid Hr].
  pose proof (owned_reminders_owner db user_id plan_id plan reminder
                (wf_plan_ids db Hwf) (wf_reminder_ids db Hwf) Hin Hid Hu Hlive Hr Hrpid)
    as Hown.
  rewrite !(update_reminder_owned db _ user_id plan_id reminder reminder_data Hown Hreq).
  rewrite Hrpid. fold updated. cbn zeta.
  assert (Py.scalar_one (filter (λ p, FitnessPlan.id p = plan_id)
                                (fitness_plans (ReminderService.write_reminder db updated)))
          = Py.Ok plan) as ->.
  { cbn [fitness_plans ReminderService.write_reminder set_reminders].
    rewrite <- Hid, filter_unique by (apply Hwf || done). done. }
  cbn [mbind Result_bind Py.bind ReminderService._schedule_job].
  assert (updated ∈ plan_reminders (ReminderService.write_reminder db updated) plan_id)
    as Hstored.
  { unfold plan_reminders. cbn [reminders ReminderService.write_reminder set_reminders].
    apply list_elem_of_filter. split; [done|].
    apply list_elem_of_fmap. exists reminder. split; [|done].
    by rewrite decide_True. }
  destruct (Reminder.is_enabled updated) eqn:Een.
  - eexists _, _. split; [reflexivity|]. split; [reflexivity|]. split; [done|].
    rewrite Hid. split.
    + apply (get_job_add_job _ (reminder_job plan_id updated)).
    + intros id Hne.
      rewrite (get_job_add_job_ne _ (reminder_job plan_id updated)) by done.
      by apply get_job_remove_job_ne.
  - eexists _, _. split; [reflexivity|]. split; [reflexivity|]. split; [done|].
    split; [apply get_job_remove_job|].
    intros id Hne. by apply get_job_remove_job_ne.
Qed.

Lemma update_reminder_reschedules_witness :
  db_wf db_reminded
  ∧ get_job scheduler_demo "reminder_10_60" = Some (daily_job 10 60)
  ∧ ∃ updated db' scheduler',
      ReminderService.update_reminder db_reminded (Some scheduler_demo) 1 10 60 switch_off
      = Py.Ok (updated, db', Some scheduler')
      ∧ Reminder.is_enabled updated = false
      ∧ get_job scheduler' "reminder_10_60" = None
      ∧ get_job scheduler' "reminder_11_61" = Some (daily_job 11 61).
Proof.
  assert (db_wf db_reminded) as Hwf.
  { split; try apply db_demo_wf; compute_done. }
  split; [exact Hwf|]. split; [reflexivity|].
  destruct (update_reminder_reschedules db_reminded scheduler_demo 1 10 plan10
              reminder60 switch_off Hwf)
    as (db' & scheduler' & H & _ & _ & Hjob & Hother);
    [by left | done | done | done | by left | by repeat split |].
  eexists _, db', scheduler'. split; [exact H|]. split; [done|].
  split; [exact Hjob|]. rewrite Hother; [reflexivity | done].
Defined.

(** The owner deletes a reminder: its row goes and no other, and with a
    scheduler so does its job, while the other jobs stay. *)
Theorem delete_reminder_unschedules db scheduler user_id plan_id plan reminder :
  db_wf db →
  plan ∈ fitness_plans db →
  FitnessPlan.id plan = plan_id →
  FitnessPlan.user_id plan = user_id →
  FitnessPlan.deleted_at plan = None →
  reminder ∈ plan_reminders db plan_id →
  let job_id := ReminderService._get_job_id plan_id (Reminder.id reminder) in
  ∃ db',
    ReminderService.delete_reminder db (Some scheduler) user_id plan_id
      (Reminder.id reminder)
    = Py.Ok (db', Some (remove_job scheduler job_id))
    ∧ ReminderService.delete_reminder db None user_id plan_id (Reminder.id reminder)
      = Py.Ok (db', None)
    ∧ reminder :: reminders db' ≡ₚ reminders db
    ∧ (reminder ∉ reminders db')
    ∧ get_job (remove_job scheduler job_id) job_id = None
    ∧ (∀ id, id ≠ job_id →
             get_job (remove_job scheduler job_id) id = get_job scheduler id)
    ∧ ReminderService.delete_reminder db' (Some (remove_job scheduler job_id))
        user_id plan_id (Reminder.id reminder)
      = Py.Err (Py.NotFoundException "Reminder not found").
Proof.
  intros Hwf Hin Hid Hu Hlive Hr job_id.
  apply list_elem_of_filter in Hr as [Hrpid Hr].
  unfold ReminderService.delete_reminder at 1 2.
  rewrite (owned_reminders_owner db user_id plan_id plan reminder)
    by (apply Hwf || done).
  cbn [mbind Result_bind Py.bind Py.scalar_one_or_none].
  eexists. split; [|split; [reflexivity|]].
  - f_equal. f_equal. f_equal.
    pose proof (remove_job_if_present scheduler job_id) as Hrm.
    subst job_id. destruct (get_job scheduler _); congruence.
  - cbn [reminders set_reminders].
    split; [apply (delete_row_perm Reminder.id); [apply (wf_reminder_ids db Hwf) | done]|].
    assert (reminder ∉ filter (λ r, Reminder.id r ≠ Reminder.id reminder) (reminders db))
      as Hgone by (by intros [Hne _]%list_elem_of_filter).
    split; [done|].
    split; [apply get_job_remove_job|].
    split; [intros id Hne; by apply get_job_remove_job_ne|].
    unfold ReminderService.delete_reminder.
    destruct (ReminderService.owned_reminders _ _ _ _) as [|r rs] eqn:E; [done|].
    exfalso.
    assert (r ∈ ReminderService.owned_reminders
                  (set_reminders db
                     (filter (λ r, Reminder.id r ≠ Reminder.id reminder) (reminders db)))
                  user_id plan_id (Reminder.id reminder)) as Hrin
      by (rewrite E; by left).
    unfold ReminderService.owned_reminders in Hrin.
    apply list_elem_of_fmap in Hrin as ([r' p] & -> & Hrp).
    apply list_elem_of_filter in Hrp as [(Hrid & _) Hj].
    apply elem_of_join in Hj as (_ & Hr' & _).
    cbn [reminders set_reminders fst] in Hr'.
    by apply list_elem_of_filter in Hr' as [Hne _].
Qed.

Lemma delete_reminder_unschedules_witness :
  db_wf db_reminded
  ∧ ∃ db',
      ReminderService.delete_reminder db_reminded (Some scheduler_demo) 1 10 60
      = Py.Ok (db', Some [daily_job 11 61])
      ∧ reminders db' = [].
Proof.
  assert (db_wf db_reminded) as Hwf.
  { split; try apply db_demo_wf; compute_done. }
  split; [exact Hwf|].
  destruct (delete_reminder_unschedules db_reminded scheduler_demo 1 10 plan10
              reminder60 Hwf)
    as (db' & H & _ & Hperm & _);
    [by left | done | done | done | by left |].
  exists db'. split; [exact H|].
  apply Permutation_length in Hperm. simpl in Hperm.
  destruct (reminders db'); [done | simpl in Hperm; lia].
Defined.

Lemma forallb_exists_neg {A} (f : A → bool) (l : list A) :
  forallb f l = false → ∃ x, x ∈ l ∧ f x = false.
Proof.
  induction l as [|x l IH]; simpl; [done|].
  destruct (f x) eqn:E; simpl.
  - intros (y & Hy & Hf)%IH. exists y. split; [by right | done].
  - intros _. exists x. split; [by left | done].
Qed.

(** ** The validator of the days of a reminder *)

Lemma StronglySorted_le_lt (l : list Z) :
  StronglySorted Z.le l → NoDup l → StronglySorted Z.lt l.
Proof.
  induction 1 as [|x l Hl IH Hx]; [constructor|].
  intros [Hnotin Hnd]%NoDup_cons.
  constructor; [by apply IH|].
  apply Forall_forall. intros y Hy.
  eapply Forall_forall in Hx; [|done].
  assert (x ≠ y) by (by intros ->). lia.
Qed.

Lemma sorted_set_spec (v : list Z) :
  StronglySorted Z.lt (ReminderSchemas.sorted_set v)
  ∧ ∀ d, d ∈ ReminderSchemas.sorted_set v ↔ d ∈ v.
Proof.
  unfold ReminderSchemas.sorted_set.
  pose proof (merge_sort_Permutation Z.le (remove_dups v)) as Hp.
  split.
  - apply StronglySorted_le_lt; [apply (StronglySorted_merge_sort Z.le)|].
    rewrite Hp. apply NoDup_remove_dups.
  - intros d. by rewrite Hp, elem_of_remove_dups.
Qed.

Lemma remove_dups_NoDup (l : list Z) : NoDup l → remove_dups l = l.
Proof.
  induction 1 as [|x l Hx Hl IH]; simpl; [done|].
  destruct (decide_rel elem_of x l) as [Hin|_]; [done | by rewrite IH].
Qed.

Lemma StronglySorted_weaken {A} (R R' : relation A) (l : list A) :
  (∀ x y, R x y → R' x y) → StronglySorted R l → StronglySorted R' l.
Proof.
  intros HR. induction 1 as [|x l Hl IH Hx]; constructor; [done|].
  eapply Forall_impl; [exact Hx|]. intros y. apply HR.
Qed.

Lemma sorted_set_fixed (w : list Z) :
  StronglySorted Z.lt w → ReminderSchemas.sorted_set w = w.
Proof.
  intros Hw.
  assert (NoDup w) as Hnd.
  { induction Hw as [|x l Hl IH Hx]; constructor; [|done].
    intros Hin. eapply Forall_forall in Hx; [|done]. lia. }
  destruct (sorted_set_spec w) as [Hs Hmem].
  apply (StronglySorted_unique Z.le).
  - eapply StronglySorted_weaken; [|exact Hs]. intros x y. lia.
  - eapply StronglySorted_weaken; [|exact Hw]. intros x y. lia.
  - unfold ReminderSchemas.sorted_set.
    by rewrite merge_sort_Permutation, remove_dups_NoDup.
Qed.

(** The days validator lets [None] through. It accepts a list exactly
    when the list is not empty and all its days lie between 1 and 7, and
    rejects it with a validation error otherwise. The accepted days come
    back strictly increasing, hence without duplicates, and are the days
    that were given; validating them again changes nothing; and on them
    the translation to cron days never wraps around: it is [day - 1]. *)
Theorem validate_days_of_week_result (v : list Z) :
  ReminderSchemas.validate_days_of_week None = Py.Ok None
  ∧ match ReminderSchemas.validate_days_of_week (Some v) with
    | Py.Ok (Some w) =>
        v ≠ [] ∧ Forall (λ d, 1 ≤ d ≤ 7) v
        ∧ w ≠ [] ∧ StronglySorted Z.lt w ∧ (∀ d, d ∈ w ↔ d ∈ v)
        ∧ ReminderSchemas.validate_days_of_week (Some w) = Py.Ok (Some w)
        ∧ ReminderService.cron_days w
          = Py.str_join "," ((λ d, Py.str (d - 1)) <$> w)
    | Py.Ok None => False
    | Py.Err e =>
        Py.kind e = Py.Validation
        ∧ (v = [] ∨ Exists (λ d, d < 1 ∨ 7 < d) v)
    end.
Proof.
  split; [done|].
  unfold ReminderSchemas.validate_days_of_week.
  destruct v as [|d0 v]; [by split; [|left]|].
  set (days := d0 :: v).
  destruct (forallb _ days) eqn:Hrange.
  - assert (Forall (λ d, 1 ≤ d ≤ 7) days) as Hall.
    { apply Forall_forall. intros d Hd.
      rewrite forallb_forall in Hrange.
      apply list_elem_of_In, Hrange in Hd. lia. }
    destruct (sorted_set_spec days) as [Hs Hmem].
    assert (ReminderSchemas.sorted_set days ≠ []) as Hne.
    { intros E. assert (d0 ∈ ReminderSchemas.sorted_set days) as Hin
        by (apply Hmem; by left).
      rewrite E in Hin. by apply elem_of_nil in Hin. }
    assert (Forall (λ d, 1 ≤ d ≤ 7) (ReminderSchemas.sorted_set days)) as Hall'.
    { apply Forall_forall. intros d Hd%Hmem.
      by eapply Forall_forall in Hall. }
    split; [done|]. split; [done|]. split; [done|]. split; [done|]. split; [done|].
    split.
    + destruct (ReminderSchemas.sorted_set days) as [|w0 w] eqn:Ew; [done|].
      assert (forallb (λ day, negb ((day <? 1) || (7 <? day))) (w0 :: w) = true) as ->.
      { apply forallb_forall. intros d Hd%list_elem_of_In.
        eapply Forall_forall in Hall'; [|done]. lia. }
      by rewrite sorted_set_fixed.
    + unfold ReminderService.cron_days. f_equal.
      apply list_fmap_ext. intros i d Hd.
      apply list_elem_of_lookup_2 in Hd.
      eapply Forall_forall in Hall'; [|done]. simpl in Hall'.
      by rewrite Z.mod_small by lia.
  - split; [done|]. right.
    apply Exists_exists.
    destruct (forallb_exists_neg _ days Hrange) as (d & Hd & Hbad).
    exists d. split; [done | lia].
Qed.

(** ** The notification callback *)

(** The callback sends a notification exactly when the plan is stored,
    not deleted and active and the reminder is stored and enabled; it
    then goes to the owner of the plan, never to a member, with the
    exercises of the plan. In every other case nothing is sent and
    nothing is raised. The reminder is not required to be one of the
    plan. *)
Theorem send_reminder_notification_guards db plan_id reminder_id :
  NoDup (FitnessPlan.id <$> fitness_plans db) →
  NoDup (Reminder.id <$> reminders db) →
  ∃ sent,
    send_reminder_notification db plan_id reminder_id = Py.Ok sent
    ∧ ∀ n, sent = Some n ↔
           ∃ plan reminder,
             plan ∈ fitness_plans db ∧ FitnessPlan.id plan = plan_id
             ∧ FitnessPlan.deleted_at plan = None
             ∧ FitnessPlan.status plan = ACTIVE
             ∧ reminder ∈ reminders db ∧ Reminder.id reminder = reminder_id
             ∧ Reminder.is_enabled reminder = true
             ∧ n = {| pn_user_id := FitnessPlan.user_id plan;
                      pn_plan_id := plan_id;
                      pn_plan_name := FitnessPlan.name plan;
                      pn_exercises := plan_exercises db plan_id |}.
Proof.
  intros Hndp Hndr. unfold send_reminder_notification.
  destruct (filter_key_cases FitnessPlan.id (fitness_plans db) plan_id Hndp)
    as [[Ep Hnop] | (plan & Hp & Hpid & Ep)].
  { rewrite (filter_none (A:=FitnessPlan.t))
      by (intros p Hp [Hid _]; by apply (Hnop p)).
    eexists. split; [reflexivity|]. intros n. split; [done|].
    intros (plan & _ & Hp & Hid & _). by destruct (Hnop plan). }
  assert (∀ q, q ∈ fitness_plans db → FitnessPlan.id q = plan_id → q = plan) as Huniq.
  { intros q Hq Hid.
    assert (q ∈ filter (λ y, FitnessPlan.id y = plan_id) (fitness_plans db)) as Hf
      by by apply list_elem_of_filter.
    rewrite Ep in Hf. by apply list_elem_of_singleton in Hf. }
  destruct (FitnessPlan.deleted_at plan) as [t|] eqn:Hdel.
  { rewrite (filter_none (A:=FitnessPlan.t)).
    - eexists. split; [reflexivity|]. intros n. split; [done|].
      intros (q & _ & Hq & Hid & Hlive & _).
      rewrite (Huniq q Hq Hid) in Hlive. congruence.
    - intros q Hq [Hid Hlive]. rewrite (Huniq q Hq Hid) in Hlive. congruence. }
  assert (filter (λ p, FitnessPlan.id p = plan_id ∧ FitnessPlan.deleted_at p = None)
                 (fitness_plans db) = [plan]) as ->.
  { rewrite (list_filter_iff _ (λ p, FitnessPlan.deleted_at p = None
                                     ∧ FitnessPlan.id p = plan_id))
      by (intros p; tauto).
    rewrite <- list_filter_filter, Ep.
    by rewrite filter_cons, decide_True. }
  cbn [mbind Result_bind Py.bind Py.scalar_one_or_none].
  destruct (decide (FitnessPlan.status plan = ACTIVE)) as [Hact|Hpaused].
  2:{ rewrite bool_decide_eq_true_2 by done.
      eexists. split; [reflexivity|]. intros n. split; [done|].
      intros (q & _ & Hq & Hid & _ & Hst & _).
      by rewrite (Huniq q Hq Hid) in Hst. }
  rewrite bool_decide_eq_false_2 by (by intros H).
  destruct (filter_key_cases Reminder.id (reminders db) reminder_id Hndr)
    as [[Er Hnor] | (reminder & Hr & Hrid & Er)]; rewrite Er;
    cbn [mbind Result_bind Py.bind Py.scalar_one_or_none].
  { eexists. split; [reflexivity|]. intros n. split; [done|].
    intros (_ & r & _ & _ & _ & _ & Hr & Hrid & _). by destruct (Hnor r). }
  assert (∀ r, r ∈ reminders db → Reminder.id r = reminder_id → r = reminder) as Hruniq.
  { intros r Hr' Hid.
    assert (r ∈ filter (λ y, Reminder.id y = reminder_id) (reminders db)) as Hf
      by by apply list_elem_of_filter.
    rewrite Er in Hf. by apply list_elem_of_singleton in Hf. }
  destruct (Reminder.is_enabled reminder) eqn:Hen; simpl.
  - eexists. split; [reflexivity|]. intros n. rewrite Hpid. split.
    + intros [= <-]. by exists plan, reminder.
    + intros (q & r & Hq & Hid & _ & _ & Hr' & Hrid' & _ & ->).
      by rewrite (Huniq q Hq Hid).
  - eexists. split; [reflexivity|]. intros n. split; [done|].
    intros (_ & r & _ & _ & _ & _ & Hr' & Hrid' & Hen' & _).
    rewrite (Hruniq r Hr' Hrid') in Hen'. congruence.
Qed.

Lemma send_reminder_notification_guards_witness :
  NoDup (FitnessPlan.id <$> fitness_plans db_reminded)
  ∧ NoDup (Reminder.id <$> reminders db_reminded)
  ∧ ∃ n,
      send_reminder_notification db_reminded 10 60 = Py.Ok (Some n)
      ∧ pn_user_id n = 1%nat
      ∧ pn_exercises n = [run20; pushups21].
Proof.
  split; [compute_done|]. split; [compute_done|].
  destruct (send_reminder_notification_guards db_reminded 10 60)
    as (sent & H & Hiff); [compute_done | compute_done |].
  destruct sent as [n|]; [|by vm_compute in H].
  exists n. split; [exact H|].
  destruct (proj1 (Hiff n) eq_refl)
    as (plan & reminder & Hp & _ & _ & _ & _ & _ & _ & ->).
  apply list_elem_of_singleton in Hp as ->. done.
Defined.

(** After [delete_plan] a job of the plan, should one still fire (the
    plan was deleted without a scheduler at hand), sends nothing,
    whatever its reminder. *)
Theorem no_notification_after_delete now db scheduler user_id plan_id db' scheduler' :
  PlanService.delete_plan now db scheduler user_id plan_id = Py.Ok (db', scheduler') →
  ∀ reminder_id, send_reminder_notification db' plan_id reminder_id = Py.Ok None.
Proof.
  unfold PlanService.delete_plan.
  destruct (PlanService.get_plan_by_id db user_id plan_id) as [plan|] eqn:Hget; [|done].
  cbn [mbind Result_bind Py.bind]. intros [= <- _] reminder_id.
  assert (FitnessPlan.id plan = plan_id) as Hid.
  { unfold PlanService.get_plan_by_id in Hget.
    destruct (Py.scalar_one_or_none _) as [[p|]|] eqn:E; [|done..].
    simpl in Hget. injection Hget as ->.
    apply scalar_one_or_none_elem in E.
    by apply list_elem_of_filter in E as [[? _] _]. }
  unfold send_reminder_notification.
  rewrite (filter_none (A:=FitnessPlan.t)); [done|].
  intros p Hp [Hpid Hlive].
  unfold PlanService.write_plan in Hp. simpl in Hp.
  apply list_elem_of_fmap in Hp as (q & -> & Hq).
  destruct (decide (FitnessPlan.id q = FitnessPlan.id plan)) as [_|Hne]; [done|].
  congruence.
Qed.

Lemma no_notification_after_delete_witness :
  send_reminder_notification db_reminded 10 60 ≠ Py.Ok None
  ∧ ∃ db' scheduler',
      PlanService.delete_plan 9 db_reminded None 1 10 = Py.Ok (db', scheduler')
      ∧ send_reminder_notification db' 10 60 = Py.Ok None.
Proof.
  split; [done|].
  destruct (PlanService.delete_plan 9 db_reminded None 1 10) as [[db' scheduler']|] eqn:E;
    [|by vm_compute in E].
  exists db', scheduler'. split; [done|].
  by apply (no_notification_after_delete _ _ _ _ _ _ _ E).
Defined.

(** ** The routes of the members and of the leaderboard *)

(** The leaderboard route answers 404 to a user who neither owns the
    plan nor is a member of it, whether the plan exists or not. To the
    owner and to a member it answers with the leaderboard the service
    computes and the name of the plan, also when the plan is deleted: the
    check does not look at [deleted_at]. *)
Theorem leaderboard_route_access db current_user plan_id :
  (¬ participates db current_user plan_id →
   PlanMemberRoutes.get_plan_leaderboard db current_user plan_id
   = PlanMemberRoutes.HTTPException 404 "Plan not found")
  ∧ (∀ plan leaderboard,
       NoDup (FitnessPlan.id <$> fitness_plans db) →
       plan ∈ fitness_plans db →
       FitnessPlan.id plan = plan_id →
       participates db current_user plan_id →
       PlanMemberService.get_plan_leaderboard db plan_id = Py.Ok leaderboard →
       PlanMemberRoutes.get_plan_leaderboard db current_user plan_id
       = PlanMemberRoutes.Response
           {| PlanMemberRoutes.lr_plan_id := plan_id;
              PlanMemberRoutes.lr_plan_name := FitnessPlan.name plan;
              PlanMemberRoutes.lr_leaderboard := leaderboard |}).
Proof.
  unfold PlanMemberRoutes.get_plan_leaderboard. cbn zeta.
  change (filter _ (fitness_plans db))
    with (PlanExecutionService.accessible_plans db current_user plan_id).
  split.
  - intros Hno. unfold PlanExecutionService.accessible_plans.
    rewrite filter_none; [done|].
    intros p Hp (Hid & [Hu | Hm]); apply Hno.
    + left. by exists p.
    + right. apply member_plan_ids_elem. by rewrite <- Hid.
  - intros plan leaderboard Hnd Hin <- Hpart Hlb.
    rewrite accessible_plans_participant by done.
    simpl. by rewrite Hlb.
Qed.

Lemma leaderboard_route_access_witness :
  NoDup (FitnessPlan.id <$> fitness_plans db_deleted)
  ∧ participates db_deleted 2 10
  ∧ ¬ participates db_deleted 3 10
  ∧ PlanService.get_plan_by_id db_deleted 2 10
    = Py.Err (Py.NotFoundException "Fitness plan not found")
  ∧ PlanMemberRoutes.get_plan_leaderboard db_deleted 3 10
    = PlanMemberRoutes.HTTPException 404 "Plan not found"
  ∧ ∃ leaderboard,
      PlanMemberRoutes.get_plan_leaderboard db_deleted 2 10
      = PlanMemberRoutes.Response
          {| PlanMemberRoutes.lr_plan_id := 10;
             PlanMemberRoutes.lr_plan_name := "Morning";
             PlanMemberRoutes.lr_leaderboard := leaderboard |}
      ∧ length leaderboard = 2%nat.
Proof.
  assert (participates db_deleted 2 10) as Hpart.
  { right. eexists. split; [by left | done]. }
  assert (¬ participates db_deleted 3 10) as Hno.
  { intros [(p & ->%list_elem_of_singleton & _ & Hu)
           | (m & ->%list_elem_of_singleton & _ & Hu)]; done. }
  destruct (leaderboard_route_access db_deleted 3 10) as [H404 _].
  destruct (leaderboard_route_access db_deleted 2 10) as [_ Hok].
  split; [compute_done|]. split; [done|]. split; [done|]. split; [reflexivity|].
  split; [by apply H404|].
  eexists. split.
  - apply (Hok plan10_deleted); [compute_done | by left | done | done |].
    vm_compute. reflexivity.
  - reflexivity.
Defined.

(** The routes that list and remove the members of a plan ask nothing
    of the caller: a user who neither owns the plan nor is a member of it
    removes a member, and is answered 404 only when there is no such
    membership. *)
Theorem member_routes_ask_no_access db current_user plan_id user_id :
  NoDup ((λ m, (PlanMember.plan_id m, PlanMember.user_id m)) <$> plan_members db) →
  ¬ participates db current_user plan_id →
  (∀ member,
     member ∈ plan_members db →
     PlanMember.plan_id member = plan_id →
     PlanMember.user_id member = user_id →
     ∃ db',
       PlanMemberRoutes.remove_member db current_user plan_id user_id
       = PlanMemberRoutes.Response db'
       ∧ (member ∉ plan_members db')
       ∧ fitness_plans db' = fitness_plans db)
  ∧ (¬ is_member db user_id plan_id →
     PlanMemberRoutes.remove_member db current_user plan_id user_id
     = PlanMemberRoutes.HTTPException 404 "Plan membership not found")
  ∧ (∀ responses,
       mapM (PlanMemberRoutes.member_response db)
            (PlanMemberService.get_plan_members db plan_id) = Py.Ok responses →
       PlanMemberRoutes.get_plan_members db current_user plan_id
       = PlanMemberRoutes.Response responses
       ∧ PlanMemberRoutes.mr_user_id <$> responses
         = PlanMember.user_id <$> PlanMemberService.get_plan_members db plan_id).
Proof.
  intros Hpairs Hstranger. split; [|split].
  - intros member Hin <- <-.
    unfold PlanMemberRoutes.remove_member, PlanMemberService.remove_member.
    rewrite member_pair_filter.
    rewrite (filter_unique (λ m, (PlanMember.plan_id m, PlanMember.user_id m)))
      by done.
    simpl. eexists. split; [reflexivity|]. split; [|done].
    simpl. by intros [Hne _]%list_elem_of_filter.
  - intros Hnot.
    unfold PlanMemberRoutes.remove_member, PlanMemberService.remove_member.
    rewrite filter_none; [done|].
    intros m Hm [Hp Hu]. apply Hnot. by exists m.
  - intros responses Hmap. unfold PlanMemberRoutes.get_plan_members.
    cbn zeta. rewrite Hmap. split; [done|].
    apply mapM_Result_Forall2 in Hmap.
    induction Hmap as [|m r ms rs Hm _ IH]; [done|].
    rewrite !fmap_cons, IH. f_equal.
    unfold PlanMemberRoutes.member_response in Hm.
    destruct (user_of db (PlanMember.user_id m)); [|done]. by injection Hm as <-.
Qed.

Lemma member_routes_ask_no_access_witness :
  ¬ participates db_demo 3 10
  ∧ is_member db_demo 2 10
  ∧ ∃ db',
      PlanMemberRoutes.remove_member db_demo 3 10 2 = PlanMemberRoutes.Response db'
      ∧ plan_members db' = [].
Proof.
  assert (¬ participates db_demo 3 10) as Hno.
  { intros [(p & ->%list_elem_of_singleton & _ & Hu)
           | (m & ->%list_elem_of_singleton & _ & Hu)]; done. }
  split; [done|]. split; [eexists; split; [by left | done]|].
  destruct (member_routes_ask_no_access db_demo 3 10 2) as [Hrm _];
    [compute_done | done |].
  destruct (Hrm {| PlanMember.id := 50; PlanMember.plan_id := 10; PlanMember.user_id := 2;
                   PlanMember.invited_by := Some 1%nat |})
    as (db' & H & _ & _); [by left | done | done |].
  exists db'. split; [exact H|].
  vm_compute in H. by injection H as <-.
Defined.

(** ** The calendar export *)

Lemma fold_add_event today plan_id reminders : ∀ events,
  fold_left (PlansRoutes.add_event today plan_id) reminders events
  = events ++ (calendar_event today plan_id
                 <$> filter (λ r, Reminder.is_enabled r) reminders).
Proof.
  induction reminders as [|r reminders IH]; intros events; cbn [fold_left].
  - by rewrite filter_nil, app_nil_r.
  - rewrite IH, filter_cons. unfold PlansRoutes.add_event.
    destruct (Reminder.is_enabled r); simpl; [|done].
    by rewrite <- app_assoc.
Qed.

(** The calendar of a plan is exported for its owner only. A member,
    who reads the plan, is refused like a stranger, with the same
    NotFound, because the reminders are listed for the owner alone. The
    owner of a plan that is not deleted gets one event for each enabled
    reminder of the plan, in their order, and none for a disabled one. *)
Theorem export_plan_calendar_owner_only today db current_user plan_id :
  NoDup (FitnessPlan.id <$> fitness_plans db) →
  (¬ is_owner db current_user plan_id →
   PlansRoutes.export_plan_calendar today db current_user plan_id
   = Py.Err (Py.NotFoundException "Fitness plan not found"))
  ∧ (∀ plan,
       plan ∈ fitness_plans db →
       FitnessPlan.id plan = plan_id →
       FitnessPlan.user_id plan = current_user →
       FitnessPlan.deleted_at plan = None →
       PlansRoutes.export_plan_calendar today db current_user plan_id
       = Py.Ok (calendar_event today plan_id
                  <$> filter (λ r, Reminder.is_enabled r) (plan_reminders db plan_id))).
Proof.
  intros Hnd. unfold PlansRoutes.export_plan_calendar,
    ReminderService.get_plan_reminders. split.
  - intros Hno. rewrite owned_plans_not_owner by done.
    unfold PlanService.get_plan_by_id.
    assert (NoDup (PlanService.visible_plans db current_user plan_id)) as Hv
      by (by eapply NoDup_filter, NoDup_fmap_1).
    destruct (PlanService.visible_plans db current_user plan_id) as [|p [|q l]] eqn:E;
      [done | done |].
    exfalso.
    assert (p ∈ PlanService.visible_plans db current_user plan_id
            ∧ q ∈ PlanService.visible_plans db current_user plan_id) as [Hp Hq]
      by (rewrite E; split; [by left | by right; left]).
    apply list_elem_of_filter in Hp as [[Hpid _] Hp].
    apply list_elem_of_filter in Hq as [[Hqid _] Hq].
    assert (q = p) as ->.
    { assert (q ∈ filter (λ y, FitnessPlan.id y = FitnessPlan.id p) (fitness_plans db))
        as Hf by (apply list_elem_of_filter; split; [congruence | done]).
      rewrite filter_unique in Hf by done. by apply list_elem_of_singleton in Hf. }
    apply NoDup_cons in Hv as [Hv _]. apply Hv. by left.
  - intros plan Hin Hid Hu Hlive.
    rewrite (owned_plans_owner db current_user plan_id plan) by done.
    rewrite <- Hid at 1.
    rewrite get_plan_by_id_participant; [| done | done | done |].
    + cbn [mbind Result_bind Py.bind Py.scalar_one_or_none].
      by rewrite fold_add_event.
    + left. exists plan. by rewrite Hid.
Qed.

Lemma export_plan_calendar_owner_only_witness :
  NoDup (FitnessPlan.id <$> fitness_plans db_reminded)
  ∧ ¬ is_owner db_reminded 2 10
  ∧ PlanService.get_plan_by_id db_reminded 2 10 = Py.Ok plan10
  ∧ PlansRoutes.export_plan_calendar 9 db_reminded 2 10
    = Py.Err (Py.NotFoundException "Fitness plan not found")
  ∧ PlansRoutes.export_plan_calendar 9 db_reminded 1 10
    = Py.Ok [calendar_event 9 10 reminder60].
Proof.
  assert (¬ is_owner db_reminded 2 10) as Hno.
  { intros (p & ->%list_elem_of_singleton & _ & Hu). done. }
  split; [compute_done|]. split; [done|]. split; [reflexivity|].
  destruct (export_plan_calendar_owner_only 9 db_reminded 2 10) as [Hm _];
    [compute_done|].
  destruct (export_plan_calendar_owner_only 9 db_reminded 1 10) as [_ Ho];
    [compute_done|].
  split; [by apply Hm|].
  by apply (Ho plan10); [left | ..].
Defined.

Lemma byday_of_valid (days : list Z) :
  Forall (λ day, 1 ≤ day ≤ 7) days →
  Forall2 (λ day name, PlansRoutes.day_map day = Some name)
          days (PlansRoutes.byday_of days).
Proof.
  unfold PlansRoutes.byday_of.
  induction 1 as [|x l Hx _ IH]; [constructor|].
  assert (∃ name, PlansRoutes.day_map x = Some name) as [name Hname].
  { assert (x = 1 ∨ x = 2 ∨ x = 3 ∨ x = 4 ∨ x = 5 ∨ x = 6 ∨ x = 7)
      as [->|[->|[->|[->|[->|[->| ->]]]]]] by lia; by eexists. }
  cbn [omap list_omap]. rewrite Hname. by constructor.
Qed.

(** The recurrence of a calendar event against the schedule of the job
    of the same reminder. A daily reminder recurs daily in both. A weekly
    or custom reminder with days recurs weekly on the days named for
    them, none of which is dropped when the days are valid, and its job
    lists the same days. A weekly or custom reminder without days gets no
    recurrence rule in the calendar, a single event, while its job is the
    daily one. *)
Theorem calendar_rrule_and_trigger (reminder : Reminder.t) :
  let rrule := PlansRoutes.rrule_of reminder in
  let trigger :=
    ReminderService._create_cron_trigger (Reminder.reminder_time reminder)
      (Reminder.frequency reminder) (Reminder.days_of_week reminder) in
  (Reminder.frequency reminder = DAILY →
   rrule = Some {| PlansRoutes.freq := "daily"; PlansRoutes.byday := None |}
   ∧ day_of_week trigger = None)
  ∧ (∀ days,
       Reminder.frequency reminder ≠ DAILY →
       Reminder.days_of_week reminder = Some days → days ≠ [] →
       rrule = Some {| PlansRoutes.freq := "weekly";
                       PlansRoutes.byday := Some (PlansRoutes.byday_of days) |}
       ∧ day_of_week trigger = Some (ReminderService.cron_days days)
       ∧ (Forall (λ day, 1 ≤ day ≤ 7) days →
          Forall2 (λ day name, PlansRoutes.day_map day = Some name)
                  days (PlansRoutes.byday_of days)))
  ∧ (Reminder.frequency reminder ≠ DAILY →
     Reminder.days_of_week reminder = None ∨ Reminder.days_of_week reminder = Some [] →
     rrule = None
     ∧ trigger
       = ReminderService._create_cron_trigger (Reminder.reminder_time reminder) DAILY None).
Proof.
  cbn zeta. unfold PlansRoutes.rrule_of, ReminderService._create_cron_trigger.
  split; [|split].
  - intros ->. done.
  - intros days Hf -> Hne.
    destruct days as [|d days]; [done|].
    destruct (Reminder.frequency reminder); [done | | ]; simpl;
      (split; [done|]; split; [done|]); apply (byday_of_valid (d :: days)).
  - intros Hf [-> | ->]; destruct (Reminder.frequency reminder); done.
Qed.

Lemma calendar_rrule_and_trigger_witness :
  Reminder.frequency reminder61 ≠ DAILY
  ∧ PlansRoutes.rrule_of reminder61 = None
  ∧ ReminderService._create_cron_trigger half_past_seven WEEKLY None
    = ReminderService._create_cron_trigger half_past_seven DAILY None.
Proof.
  destruct (calendar_rrule_and_trigger reminder61) as (_ & _ & H).
  destruct H as [Hr Ht]; [done | by left |].
  split; [done|]. split; [exact Hr | exact Ht].
Defined.
